(** * Analista de Qualidade: the report pipeline of [frontend/script.js]

    A shallow embedding of the browser script that validates an analysis
    payload, extracts the metrics of its four categories, scores them,
    builds the two chart datasets and the recommendation cards, and exports
    and re-imports the payload as a JSON file.

    Values are the values of JavaScript that JSON can build, numbers are
    IEEE 754 doubles (the kernel's primitive floats), exceptions are an
    error result, and writes to the page (alerts, DOM text, charts) are an
    effect log in program order.

    The page is taken to hold every element the script looks up, and the
    chart library, the file reader and the console to do their part without
    failing.  The form that sends a repository to the analysis service comes
    after the report: what the service answers is a parameter of a
    submission. *)

From Stdlib Require Import Bool List String Ascii NArith ZArith DecimalString Floats Lia.
Import ListNotations.
Open Scope string_scope.
Open Scope list_scope.

(** ** JavaScript values *)

(** A string is held as the bytes of its UTF-8 text.  An object lists its
    own properties in creation order, each name once. *)
#[local] Unset Elimination Schemes.
Inductive value : Type :=
| VUndefined
| VNull
| VBool (b : bool)
| VNumber (n : float)
| VString (s : string)
| VArray (items : list value)
| VObject (props : list (string * value)).
#[local] Set Elimination Schemes.

Inductive error : Type := TypeError | SyntaxError.

Inductive result (A : Type) : Type :=
| Ok (a : A)
| Throw (e : error).
Arguments Ok {A} a.
Arguments Throw {A} e.

Definition rbind {A B : Type} (r : result A) (k : A -> result B) : result B :=
  match r with
  | Ok a => k a
  | Throw e => Throw e
  end.

Notation "'let*' x ':=' r 'in' k" := (rbind r (fun x => k))
  (at level 10, x name, r at level 100, k at level 200).

(** [ToBoolean]: the falsy values are undefined, null, false, 0, -0, NaN
    and the empty string. *)
Definition truthy (v : value) : bool :=
  match v with
  | VUndefined | VNull => false
  | VBool b => b
  | VNumber n => negb (PrimFloat.is_zero n || PrimFloat.is_nan n)
  | VString s => negb (s =? "")
  | VArray _ | VObject _ => true
  end.

(** [a || b] *)
Definition or_else (a b : value) : value := if truthy a then a else b.

Definition nullish (v : value) : bool :=
  match v with
  | VUndefined | VNull => true
  | _ => false
  end.

Fixpoint lookup (k : string) (props : list (string * value)) : option value :=
  match props with
  | [] => None
  | (k', v) :: rest => if k' =? k then Some v else lookup k rest
  end.

(** [v.k] for a value that is neither undefined nor null.  The script reads
    only fixed property names (analises, metricas, nivel_risco, ...), none of
    them [length], an index or an inherited member, so a primitive or an
    array has none of them. *)
Definition prop (v : value) (k : string) : value :=
  match v with
  | VObject props =>
      match lookup k props with
      | Some x => x
      | None => VUndefined
      end
  | _ => VUndefined
  end.

(** [v.k]: reading a property of undefined or null throws a TypeError. *)
Definition get (v : value) (k : string) : result value :=
  if nullish v then Throw TypeError else Ok (prop v k).

(** [v?.k]: the optional chain stops at undefined or null.  [None] means the
    whole chain short-circuits to undefined. *)
Definition opt_get (v : value) (k : string) : option value :=
  if nullish v then None else Some (prop v k).

Definition typeof_number (v : value) : bool :=
  match v with VNumber _ => true | _ => false end.

Definition typeof_string (v : value) : bool :=
  match v with VString _ => true | _ => false end.

Definition isArray (v : value) : bool :=
  match v with VArray _ => true | _ => false end.

(** [v === 'lit']: strict equality with a string literal, as a [switch]
    compares its cases. *)
Definition strict_eq_string (v : value) (lit : string) : bool :=
  match v with
  | VString s => s =? lit
  | _ => false
  end.

(** ** Strings *)

Definition byte_is (n : N) (c : ascii) : bool := N.eqb (N_of_ascii c) n.

Definition LF : ascii := ascii_of_N 10.

(** [s.split(/[,\n]/)]: the pieces between the commas and line feeds of [s];
    the empty string has the one piece [""]. *)
Fixpoint split_comma_newline (s : string) : list string :=
  match s with
  | EmptyString => [""]
  | String c rest =>
      if byte_is 44 c || byte_is 10 c then "" :: split_comma_newline rest
      else match split_comma_newline rest with
           | [] => [String c ""]
           | piece :: pieces => String c piece :: pieces
           end
  end.

(** The white space and line terminators [trim] removes, by the bytes of
    their UTF-8 encoding: TAB, LF, VT, FF, CR and SP in one byte; U+00A0 in
    two; U+1680, U+2000..U+200A, U+2028, U+2029, U+202F, U+205F, U+3000 and
    U+FEFF in three. *)
Definition ws1 (c : ascii) : bool :=
  let n := N_of_ascii c in
  (N.leb 9 n && N.leb n 13) || N.eqb n 32.

Definition ws2 (c1 c2 : ascii) : bool := byte_is 194 c1 && byte_is 160 c2.

Definition ws3 (c1 c2 c3 : ascii) : bool :=
  let n3 := N_of_ascii c3 in
  (byte_is 225 c1 && byte_is 154 c2 && byte_is 128 c3)
  || (byte_is 226 c1 && byte_is 128 c2
      && ((N.leb 128 n3 && N.leb n3 138) || N.eqb n3 168 || N.eqb n3 169 || N.eqb n3 175))
  || (byte_is 226 c1 && byte_is 129 c2 && byte_is 159 c3)
  || (byte_is 227 c1 && byte_is 128 c2 && byte_is 128 c3)
  || (byte_is 239 c1 && byte_is 187 c2 && byte_is 191 c3).

Fixpoint trimStart (s : string) : string :=
  match s with
  | EmptyString => EmptyString
  | String c1 r1 =>
      if ws1 c1 then trimStart r1
      else match r1 with
           | EmptyString => s
           | String c2 r2 =>
               if ws2 c1 c2 then trimStart r2
               else match r2 with
                    | EmptyString => s
                    | String c3 r3 => if ws3 c1 c2 c3 then trimStart r3 else s
                    end
           end
  end.

Fixpoint trimEnd (s : string) : string :=
  match s with
  | EmptyString => EmptyString
  | String c rest => if trimStart s =? "" then "" else String c (trimEnd rest)
  end.

(** [s.trim()] *)
Definition trim (s : string) : string := trimEnd (trimStart s).

(** [s.includes(sub)] *)
Fixpoint includes (sub s : string) : bool :=
  prefix sub s || match s with
                  | EmptyString => false
                  | String _ rest => includes sub rest
                  end.

(** [s.endsWith(suffix)] *)
Fixpoint endsWith (suffix s : string) : bool :=
  (s =? suffix) || match s with
                   | EmptyString => false
                   | String _ rest => endsWith suffix rest
                   end.

(** ** JSON texts *)

(** A JSON text is represented by its syntax tree: a number token by the
    double it denotes ([1e999] denotes infinity), an object by its members
    in order, a repeated name keeping its last value.  Indentation and the
    spelling of tokens are not represented. *)
#[local] Unset Elimination Schemes.
Inductive json : Type :=
| JNull
| JBool (b : bool)
| JNumber (n : float)
| JString (s : string)
| JArray (items : list json)
| JObject (members : list (string * json)).
#[local] Set Elimination Schemes.

(** What a file or a Blob holds. *)
Inductive text : Type :=
| NotJSON
| JSONText (j : json).

Fixpoint value_of_json (j : json) : value :=
  match j with
  | JNull => VNull
  | JBool b => VBool b
  | JNumber n => VNumber n
  | JString s => VString s
  | JArray items => VArray (map value_of_json items)
  | JObject members =>
      VObject (map (fun member => (fst member, value_of_json (snd member))) members)
  end.

(** [JSON.parse(text)] *)
Definition JSON_parse (t : text) : result value :=
  match t with
  | NotJSON => Throw SyntaxError
  | JSONText j => Ok (value_of_json j)
  end.

(** [JSON.stringify(v, null, 2)], [None] for undefined.  A number that is
    not finite is written [null]; negative zero is written [0]; inside an
    array undefined is written [null]; a property whose value is undefined
    is left out. *)
Fixpoint JSON_stringify (v : value) : option json :=
  match v with
  | VUndefined => None
  | VNull => Some JNull
  | VBool b => Some (JBool b)
  | VNumber n =>
      Some (if PrimFloat.is_finite n
            then JNumber (if PrimFloat.is_zero n then 0%float else n)
            else JNull)
  | VString s => Some (JString s)
  | VArray items =>
      Some (JArray (map (fun x => match JSON_stringify x with
                                  | Some j => j
                                  | None => JNull
                                  end) items))
  | VObject props =>
      Some (JObject (flat_map (fun p => match JSON_stringify (snd p) with
                                         | Some j => [(fst p, j)]
                                         | None => []
                                         end) props))
  end.

(** ** Effects *)

Record File : Type := {
  file_type : string;
  file_name : string;
  file_text : text
}.

Record RecommendationCard : Type := {
  card_category : string;
  card_icon : string;
  card_title : string;
  card_items : list string
}.

(** What the script does to the page, in program order.  [SetRepoInfo],
    [SetRecommendations] and [SetDetails] stand for the [innerHTML] the
    script assembles, by the data the markup is made of. *)
Inductive effect : Type :=
| Alert (message : string)
| ReadAsText (name : string)
| SetDisplay (element display : string)
| SetRepoInfo (repoName : string) (timestamp : value) (modelDisplay tempo_execucao status : string)
| SetTextContent (id : string) (content : string)
| SetClassName (id className : string)
| NewChart (canvas type : string) (labels : list string) (data : list value)
| SetRecommendations (cards : list RecommendationCard)
| SetDetails (id : string) (analysisData : value)
| Download (name : string) (content : text).

(** A computation that writes effects and may throw: the effects written
    before a throw stay written. *)
Definition M (A : Type) : Type := (result A * list effect)%type.

Definition ret {A : Type} (a : A) : M A := (Ok a, []).

Definition bind {A B : Type} (m : M A) (k : A -> M B) : M B :=
  match m with
  | (Ok a, w) => let (r, w') := k a in (r, w ++ w')
  | (Throw e, w) => (Throw e, w)
  end.

Definition emit (e : effect) : M unit := (Ok tt, [e]).

Definition lift {A : Type} (r : result A) : M A := (r, []).

Notation "x <- m ;; k" := (bind m (fun x => k))
  (at level 61, m at next level, right associativity).
Notation "m ;; k" := (bind m (fun _ => k))
  (at level 61, right associativity).

(** ** An instance of the platform's printer *)

(** [Number::toString] on the doubles the closed examples print: the
    integers of magnitude up to 2^53, NaN and the infinities.  The digits of
    any other double are not computed: it is printed as [?]. *)
Definition integer_of_float (f : float) : option Z :=
  match Prim2SF f with
  | S754_zero _ => Some 0%Z
  | S754_finite s m e =>
      let magnitude :=
        if (0 <=? e)%Z then Some (Z.pos m * 2 ^ e)%Z
        else if (Z.pos m mod 2 ^ (- e) =? 0)%Z then Some (Z.pos m / 2 ^ (- e))%Z
        else None in
      match magnitude with
      | Some z => if (z <=? 2 ^ 53)%Z then Some (if s then (- z)%Z else z) else None
      | None => None
      end
  | _ => None
  end.

Definition decimal_of_Z (z : Z) : string :=
  match z with
  | Z0 => "0"
  | Zpos p => NilEmpty.string_of_uint (Pos.to_uint p)
  | Zneg p => String "-" (NilEmpty.string_of_uint (Pos.to_uint p))
  end.

Definition integer_toString (f : float) : string :=
  if PrimFloat.is_nan f then "NaN"
  else if (f =? infinity)%float then "Infinity"
  else if (f =? neg_infinity)%float then "-Infinity"
  else match integer_of_float f with
       | Some z => decimal_of_Z z
       | None => "?"
       end.

(** ** The script *)

Section Script.

(** [Number::toString] of the platform, in radix 10. *)
Variable Number_toString : float -> string.

(** [ToString].  An array is the join of its elements with commas, where
    undefined and null elements are empty.  A plain object is
    [[object Object]], unless it has a property of its own named toString:
    a value parsed from JSON is no function, so the conversion finds no
    method that gives a primitive and throws a TypeError. *)
Fixpoint ToString (v : value) : result string :=
  match v with
  | VUndefined => Ok "undefined"
  | VNull => Ok "null"
  | VBool true => Ok "true"
  | VBool false => Ok "false"
  | VNumber n => Ok (Number_toString n)
  | VString s => Ok s
  | VArray items =>
      (fix join (l : list value) : result string :=
         match l with
         | [] => Ok ""
         | x :: rest =>
             let* piece := if nullish x then Ok "" else ToString x in
             match rest with
             | [] => Ok piece
             | _ :: _ => let* more := join rest in Ok (piece ++ "," ++ more)%string
             end
         end) items
  | VObject props =>
      match lookup "toString" props with
      | Some _ => Throw TypeError
      | None => Ok "[object Object]"
      end
  end.

(** [ToPrimitive]: arrays and plain objects become their strings. *)
Definition ToPrimitive (v : value) : result value :=
  match v with
  | VArray _ | VObject _ => let* s := ToString v in Ok (VString s)
  | _ => Ok v
  end.

(** [ToNumber] of a primitive that is not a string. *)
Definition ToNumber (v : value) : float :=
  match v with
  | VNull => 0%float
  | VBool true => 1%float
  | VBool false => 0%float
  | VNumber n => n
  | _ => nan
  end.

(** [a + b]: concatenation when either primitive is a string, else the sum
    of the numbers. *)
Definition js_add (a b : value) : result value :=
  let* pa := ToPrimitive a in
  let* pb := ToPrimitive b in
  if typeof_string pa || typeof_string pb
  then let* sa := ToString pa in
       let* sb := ToString pb in
       Ok (VString (sa ++ sb)%string)
  else Ok (VNumber (ToNumber pa + ToNumber pb)%float).

(** [v == 'lit'] for a literal that is not the text of a number (['Alto'],
    ['Médio']): a string is compared as it is, an array or object by its
    string, and no number, boolean, null or undefined equals it. *)
Definition loose_eq_string (v : value) (lit : string) : result bool :=
  match v with
  | VString s => Ok (s =? lit)
  | VArray _ | VObject _ => let* s := ToString v in Ok (s =? lit)
  | _ => Ok false
  end.

(** A template literal that ends in fixed text. *)
Definition template (v : value) (suffix : string) : result string :=
  let* s := ToString v in Ok (s ++ suffix)%string.

(** [element.textContent = v]: undefined and null clear the text, any other
    value is converted to a string. *)
Definition setTextContent (id : string) (v : value) : M unit :=
  content <- lift (if nullish v then Ok "" else ToString v) ;;
  emit (SetTextContent id content).

(** *** Helper functions (lines 707-750) *)

Definition getNumericScore (nivel : value) : value :=
  if typeof_number nivel then nivel
  else if strict_eq_string nivel "Alto" then VNumber 85
  else if strict_eq_string nivel "Médio" then VNumber 65
  else if strict_eq_string nivel "Baixo" then VNumber 40
  else VNumber 0.

Definition getQualityClass (scoreOrLevel : value) : string :=
  match scoreOrLevel with
  | VNumber n =>
      if (80 <=? n)%float then "quality-excellent"
      else if (60 <=? n)%float then "quality-good"
      else if (40 <=? n)%float then "quality-average"
      else if (20 <=? n)%float then "quality-poor"
      else "quality-critical"
  | _ =>
      if strict_eq_string scoreOrLevel "A+" then "quality-excellent"
      else if strict_eq_string scoreOrLevel "B" then "quality-good"
      else if strict_eq_string scoreOrLevel "C" then "quality-poor"
      else "quality-average"
  end.

Definition getIconForCategory (category : string) : string :=
  if category =? "seguranca" then "shield-alt"
  else if category =? "desempenho" then "tachometer-alt"
  else if category =? "confiabilidade" then "check-circle"
  else if category =? "testes" then "vial"
  else "info-circle".

(** [url.match(...)] needs a string; the name it extracts is a function of
    the URL and is kept as the URL. *)
Definition extractRepoName (url : value) : result string :=
  match url with
  | VString s => Ok s
  | _ => Throw TypeError
  end.

(** *** displayRepoInfo (lines 376-396) *)

(** [new Date(results.timestamp)] converts the timestamp to a primitive;
    the date shown is a function of that primitive. *)
Definition displayRepoInfo (results : value) : M unit :=
  url <- lift (get results "repositorio_url") ;;
  repoName <- lift (extractRepoName url) ;;
  analysisTime <- lift (ToPrimitive (prop results "timestamp")) ;;
  let modelUsed := or_else (prop results "modelo_usado") (VString "N/A") in
  let modelDisplay :=
    if strict_eq_string modelUsed "gemini" then VString "Google Gemini 2.0 Flash"
    else if strict_eq_string modelUsed "gpt4-mini" then VString "OpenAI GPT-4 Mini"
    else modelUsed in
  model <- lift (ToString modelDisplay) ;;
  tempo <- lift (ToString (prop results "tempo_execucao")) ;;
  status <- lift (ToString (prop results "status")) ;;
  emit (SetRepoInfo repoName analysisTime model tempo status).

(** *** Metric cards (lines 398-502) *)

(** [analises.<category>.metricas || {}] *)
Definition metricas (analises : value) (category : string) : result value :=
  let* section := get analises category in
  let* m := get section "metricas" in
  Ok (or_else m (VObject [])).

(** [results.analises || {}] *)
Definition analises_or_empty (results : value) : result value :=
  let* a := get results "analises" in
  Ok (or_else a (VObject [])).

(** The security letter (lines 409-411). *)
Definition securityScore (nivel_risco : value) : result value :=
  let* alto := loose_eq_string nivel_risco "Alto" in
  if alto then Ok (VString "C")
  else let* medio := loose_eq_string nivel_risco "Médio" in
       if medio then Ok (VString "B") else Ok (VString "A").

Definition updateMetricCard (type : string) (data : value) : M unit :=
  let scoreElement := (type ++ "Score")%string in
  let className (v : value) := ("metric-value " ++ getQualityClass v)%string in
  if type =? "security" then
    setTextContent scoreElement (prop data "score") ;;
    emit (SetClassName scoreElement (className (prop data "score"))) ;;
    issues <- lift (template (prop data "issues") " vulnerabilidades") ;;
    emit (SetTextContent "securityIssues" issues) ;;
    functions <- lift (template (prop data "functions") " funções sem tratamento") ;;
    emit (SetTextContent "securityFunctions" functions)
  else if type =? "performance" then
    setTextContent scoreElement (prop data "score") ;;
    emit (SetClassName scoreElement (className (prop data "score"))) ;;
    structures <- lift (template (prop data "structures") " estruturas ineficientes") ;;
    emit (SetTextContent "performanceStructures" structures) ;;
    functions <- lift (template (prop data "functions") " funções longas") ;;
    emit (SetTextContent "performanceFunctions" functions)
  else if type =? "reliability" then
    setTextContent scoreElement (prop data "score") ;;
    emit (SetClassName scoreElement (className (prop data "score"))) ;;
    errors <- lift (template (prop data "errors") " problemas de erro") ;;
    emit (SetTextContent "reliabilityErrors" errors) ;;
    violations <- lift (template (prop data "violations") " violações de padrão") ;;
    emit (SetTextContent "reliabilityViolations" violations)
  else if type =? "testing" then
    setTextContent scoreElement (prop data "score") ;;
    emit (SetClassName scoreElement (className (prop data "coverage"))) ;;
    coverage <- lift (template (prop data "coverage") "% cobertura") ;;
    emit (SetTextContent "testingCoverage" coverage) ;;
    count <- lift (template (prop data "count") " testes") ;;
    emit (SetTextContent "testingCount" count)
  else ret tt.

(** The object literals [displayMetrics] hands to [updateMetricCard]. *)
Definition securityData (seguranca : value) : result value :=
  let* score := securityScore (prop seguranca "nivel_risco") in
  Ok (VObject
        [("score", score);
         ("issues", or_else (prop seguranca "vulnerabilidades_encontradas") (VNumber 0));
         ("functions", or_else (prop seguranca "funcoes_sem_tratamento") (VNumber 0))]).

Definition performanceData (desempenho : value) : result value :=
  let* score := js_add (prop desempenho "score_performance") (VString "%") in
  Ok (VObject
        [("score", score);
         ("structures", or_else (prop desempenho "estruturas_ineficientes") (VNumber 0));
         ("functions", or_else (prop desempenho "funcoes_longas") (VNumber 0))]).

Definition reliabilityData (confiabilidade : value) : result value :=
  Ok (VObject
        [("score", prop confiabilidade "nivel_confiabilidade");
         ("errors", or_else (prop confiabilidade "problemas_tratamento_erros") (VNumber 0));
         ("violations", or_else (prop confiabilidade "violacoes_padroes") (VNumber 0))]).

Definition testingData (testes : value) : result value :=
  let coveragePercent := or_else (prop testes "cobertura_estimada") (VNumber 0) in
  let* score := js_add coveragePercent (VString "%") in
  Ok (VObject
        [("score", score);
         ("coverage", coveragePercent);
         ("count", or_else (prop testes "quantidade_testes") (VNumber 0))]).

(** Each bundle is [analises.<category>.metricas || {}], so it is never
    undefined or null and its fields are read with [prop]. *)
Definition displayMetrics (results : value) : M unit :=
  analises <- lift (analises_or_empty results) ;;
  seguranca <- lift (metricas analises "seguranca") ;;
  security <- lift (securityData seguranca) ;;
  updateMetricCard "security" security ;;
  desempenho <- lift (metricas analises "desempenho") ;;
  performance <- lift (performanceData desempenho) ;;
  updateMetricCard "performance" performance ;;
  confiabilidade <- lift (metricas analises "confiabilidade") ;;
  reliability <- lift (reliabilityData confiabilidade) ;;
  updateMetricCard "reliability" reliability ;;
  testes <- lift (metricas analises "testes") ;;
  testing <- lift (testingData testes) ;;
  updateMetricCard "testing" testing.

(** *** Charts (lines 504-620) *)

Definition chartLabels : list string :=
  ["Segurança"; "Desempenho"; "Confiabilidade"; "Testes"].

Definition displayProblemsChart (results : value) : M unit :=
  analises <- lift (analises_or_empty results) ;;
  seguranca <- lift (metricas analises "seguranca") ;;
  desempenho <- lift (metricas analises "desempenho") ;;
  confiabilidade <- lift (metricas analises "confiabilidade") ;;
  testes <- lift (metricas analises "testes") ;;
  let zero := VNumber 0 in
  problemsSeguranca <-
    lift (js_add (or_else (prop seguranca "vulnerabilidades_encontradas") zero)
                 (or_else (prop seguranca "funcoes_sem_tratamento") zero)) ;;
  problemsDesempenho <-
    lift (js_add (or_else (prop desempenho "estruturas_ineficientes") zero)
                 (or_else (prop desempenho "funcoes_longas") zero)) ;;
  problemsConfiabilidade <-
    lift (js_add (or_else (prop confiabilidade "problemas_tratamento_erros") zero)
                 (or_else (prop confiabilidade "violacoes_padroes") zero)) ;;
  emit (NewChart "problemsChart" "doughnut" chartLabels
          [problemsSeguranca; problemsDesempenho; problemsConfiabilidade;
           or_else (prop testes "funcionalidades_sem_teste") zero]).

Definition displayQualityChart (results : value) : M unit :=
  analises <- lift (analises_or_empty results) ;;
  seguranca <- lift (metricas analises "seguranca") ;;
  desempenho <- lift (metricas analises "desempenho") ;;
  confiabilidade <- lift (metricas analises "confiabilidade") ;;
  testes <- lift (metricas analises "testes") ;;
  emit (NewChart "qualityChart" "radar" chartLabels
          [getNumericScore (prop seguranca "nivel_risco");
           getNumericScore (prop desempenho "score_performance");
           getNumericScore (prop confiabilidade "nivel_confiabilidade");
           or_else (prop testes "cobertura_estimada") (VNumber 0)]).

Definition displayCharts (results : value) : M unit :=
  displayProblemsChart results ;;
  displayQualityChart results.

(** *** Recommendations (lines 622-659) *)

Definition categories : list (string * string) :=
  [("seguranca", "Segurança"); ("desempenho", "Desempenho");
   ("confiabilidade", "Confiabilidade"); ("testes", "Testes")].

(** [analises[category]?.dados_completos.recomendacoes || []]: the optional
    chain guards the category only. *)
Definition recomendacoes (analises : value) (category : string) : result value :=
  let* section := get analises category in
  match opt_get section "dados_completos" with
  | None => Ok (VArray [])
  | Some dados =>
      let* r := get dados "recomendacoes" in
      Ok (or_else r (VArray []))
  end.

(** Lines 635-640: a string is split on commas and line feeds and its blank
    pieces are filtered out; an array is kept; anything else is no
    recommendation. *)
Definition recommendationList (recommendations : value) : list value :=
  match recommendations with
  | VString s =>
      map VString (filter (fun r => truthy (VString (trim r))) (split_comma_newline s))
  | VArray items => items
  | _ => []
  end.

(** [rec.trim()] *)
Definition trim_method (rec : value) : result string :=
  match rec with
  | VString s => Ok (trim s)
  | _ => Throw TypeError
  end.

Fixpoint trim_all (recommendations : list value) : result (list string) :=
  match recommendations with
  | [] => Ok []
  | rec :: rest =>
      let* item := trim_method rec in
      let* items := trim_all rest in
      Ok (item :: items)
  end.

(** The list items a category shows for the value of its [recomendacoes]. *)
Definition recommendationItems (recommendations : value) : result (list string) :=
  trim_all (recommendationList recommendations).

(** One round of the [forEach]: the card of a category, if it has one. *)
Definition recommendationCard (analises : value) (category : string * string)
  : result (list RecommendationCard) :=
  let* recommendations := recomendacoes analises (fst category) in
  match recommendationList recommendations with
  | [] => Ok []
  | _ :: _ =>
      let* items := recommendationItems recommendations in
      Ok [{| card_category := fst category;
             card_icon := getIconForCategory (fst category);
             card_title := snd category;
             card_items := items |}]
  end.

Fixpoint recommendationCards (analises : value) (cats : list (string * string))
  : result (list RecommendationCard) :=
  match cats with
  | [] => Ok []
  | category :: rest =>
      let* card := recommendationCard analises category in
      let* cards := recommendationCards analises rest in
      Ok (card ++ cards)
  end.

(** No card at all shows the notice that there is no recommendation. *)
Definition displayRecommendations (results : value) : M unit :=
  analises <- lift (get results "analises") ;;
  html <- lift (recommendationCards analises categories) ;;
  emit (SetRecommendations html).

(** *** Technical details (lines 661-695) *)

(** The values [createDetailsHTML] formats: those of the keys of
    [analysisData] other than recomendacoes.  The characters of a string
    format without fail and are left out. *)
Definition detailValues (analysisData : value) : list value :=
  match analysisData with
  | VObject props => map snd (filter (fun p => negb (fst p =? "recomendacoes")) props)
  | VArray items => items
  | _ => []
  end.

Fixpoint formatAll (values : list value) : result unit :=
  match values with
  | [] => Ok tt
  | v :: rest =>
      let* _ := ToString v in
      formatAll rest
  end.

(** [Object.keys(analysisData)] throws on undefined and null, and
    formatting a value converts it to a string; the markup is made of the
    keys and values of [analysisData]. *)
Definition createDetailsHTML (analysisData : value) : result value :=
  if nullish analysisData then Throw TypeError
  else let* _ := formatAll (detailValues analysisData) in
       Ok analysisData.

Definition detailsOf (analises : value) (category id : string) : M unit :=
  section <- lift (get analises category) ;;
  m <- lift (get section "metricas") ;;
  html <- lift (createDetailsHTML m) ;;
  emit (SetDetails id html).

Definition displayTechnicalDetails (results : value) : M unit :=
  analises <- lift (get results "analises") ;;
  detailsOf analises "seguranca" "securityDetails" ;;
  detailsOf analises "desempenho" "performanceDetails" ;;
  detailsOf analises "confiabilidade" "reliabilityDetails" ;;
  detailsOf analises "testes" "testingDetails".

(** *** displayResults (lines 351-374) *)

Definition displayResults (results : value) : M unit :=
  emit (SetDisplay "loadingSection" "none") ;;
  emit (SetDisplay "resultsSection" "block") ;;
  emit (SetDisplay ".analysis-form" "none") ;;
  displayRepoInfo results ;;
  displayMetrics results ;;
  displayCharts results ;;
  displayRecommendations results ;;
  displayTechnicalDetails results.

(** *** Import and export (lines 139-168 and 768-786) *)

Record Page : Type := {
  currentResults : value;
  page_log : list effect
}.

Definition write (st : Page) (w : list effect) : Page :=
  {| currentResults := currentResults st; page_log := page_log st ++ w |}.

Definition msg_select_json : string := "Por favor, selecione um arquivo JSON válido.".
Definition quoted (s : string) : string :=
  (String (ascii_of_N 34) s ++ String (ascii_of_N 34) "")%string.
Definition msg_invalid_analysis : string :=
  ("O arquivo JSON não parece ser uma análise válida. Verifique se contém as seções "
   ++ quoted "analises" ++ " e " ++ quoted "repositorio_url" ++ ".")%string.
Definition msg_process_error : string :=
  "Erro ao processar o arquivo JSON. Verifique se o arquivo é válido.".
Definition msg_no_results : string := "Nenhum resultado disponível para download".

(** The guard of line 152: [!jsonData.analises || !jsonData.repositorio_url]. *)
Definition missingSections (jsonData : value) : result bool :=
  let* a := get jsonData "analises" in
  if negb (truthy a) then Ok true
  else let* u := get jsonData "repositorio_url" in
       Ok (negb (truthy u)).

(** [reader.onload]: the whole body is inside [try], and [catch] alerts. *)
Definition onload (content : text) (st : Page) : Page :=
  match (let* jsonData := JSON_parse content in
         let* missing := missingSections jsonData in
         Ok (jsonData, missing)) with
  | Throw _ => write st [Alert msg_process_error]
  | Ok (_, true) => write st [Alert msg_invalid_analysis]
  | Ok (jsonData, false) =>
      let (r, w) := displayResults jsonData in
      let st' := {| currentResults := jsonData; page_log := page_log st ++ w |} in
      match r with
      | Ok _ => st'
      | Throw _ => write st' [Alert msg_process_error]
      end
  end.

(** The file reader delivers the text of the file to [onload]. *)
Definition handleFile (file : File) (st : Page) : Page :=
  if negb (includes "json" (file_type file)) && negb (endsWith ".json" (file_name file))
  then write st [Alert msg_select_json]
  else onload (file_text file) (write st [ReadAsText (file_name file)]).

(** [now] is the value of [Date.now()]. *)
Definition downloadReport (now : float) (st : Page) : Page :=
  if negb (truthy (currentResults st)) then write st [Alert msg_no_results]
  else
    let dataStr := match JSON_stringify (currentResults st) with
                   | Some j => JSONText j
                   | None => NotJSON
                   end in
    write st [Download ("analise-qualidade-" ++ Number_toString now ++ ".json")%string dataStr].

(** ** The vocabulary of the properties *)

(** A value that is no array and no object: undefined, null, a boolean, a
    number or a string. *)
Definition scalar (v : value) : bool :=
  match v with
  | VArray _ | VObject _ => false
  | _ => true
  end.

(** A metric bundle whose fields are numbers, strings, booleans or null. *)
Definition scalar_bundle (m : value) : Prop :=
  forall k : string, scalar (prop m k) = true.

(** The string of a scalar. *)
Definition text_of (v : value) : string :=
  match ToString v with
  | Ok s => s
  | Throw _ => ""
  end.

(** What a metric field counts for: zero when it is missing or null, zero
    when it is a number that is falsy (a zero or NaN), and itself when it is
    any other number. *)
Inductive counts : value -> float -> Prop :=
| counts_missing : counts VUndefined 0%float
| counts_null : counts VNull 0%float
| counts_falsy (n : float) : truthy (VNumber n) = false -> counts (VNumber n) 0%float
| counts_number (n : float) : truthy (VNumber n) = true -> counts (VNumber n) n.

(** A field of the metrics of a category, as the payload holds it:
    [results.analises.<category>.metricas.<name>], undefined when a part of
    the path is missing. *)
Definition field (results : value) (category name : string) : value :=
  prop (prop (prop (prop results "analises") category) "metricas") name.

(** The payload has the section of a category: [results.analises.<category>]
    is neither undefined nor null. *)
Definition has_section (results : value) (category : string) : bool :=
  negb (nullish (prop (prop results "analises") category)).

(** A number of the closed interval from 0 to 100. *)
Definition in_0_100 (v : value) : bool :=
  match v with
  | VNumber n => (0 <=? n)%float && (n <=? 100)%float
  | _ => false
  end.


(** One white space character off the front of a string, if it starts
    with one. *)
Definition strip1 (s : string) : option string :=
  match s with
  | EmptyString => None
  | String c1 r1 =>
      if ws1 c1 then Some r1
      else match r1 with
           | EmptyString => None
           | String c2 r2 =>
               if ws2 c1 c2 then Some r2
               else match r2 with
                    | EmptyString => None
                    | String c3 r3 => if ws3 c1 c2 c3 then Some r3 else None
                    end
           end
  end.

(** A string of white space alone. *)
Definition blank (s : string) : bool := trimStart s =? "".

(** The effects that are alerts. *)
Definition is_alert (e : effect) : bool :=
  match e with
  | Alert _ => true
  | _ => false
  end.

(** A computation that raises no alert. *)
Definition quiet {A : Type} (m : M A) : Prop :=
  Forall (fun e => is_alert e = false) (snd m).

(** Induction on a value, with the hypothesis for every element of an array
    and every property of an object. *)
Section ValueInduction.

Variable P : value -> Prop.
Hypothesis P_undefined : P VUndefined.
Hypothesis P_null : P VNull.
Hypothesis P_bool : forall b, P (VBool b).
Hypothesis P_number : forall n, P (VNumber n).
Hypothesis P_string : forall s, P (VString s).
Hypothesis P_array : forall items, Forall P items -> P (VArray items).
Hypothesis P_object : forall props, Forall (fun p => P (snd p)) props -> P (VObject props).

Fixpoint value_nested_ind (v : value) : P v :=
  match v with
  | VUndefined => P_undefined
  | VNull => P_null
  | VBool b => P_bool b
  | VNumber n => P_number n
  | VString s => P_string s
  | VArray items =>
      P_array items
        ((fix each (l : list value) : Forall P l :=
            match l with
            | [] => Forall_nil P
            | x :: rest => Forall_cons x (value_nested_ind x) (each rest)
            end) items)
  | VObject props =>
      P_object props
        ((fix each (l : list (string * value)) : Forall (fun p => P (snd p)) l :=
            match l with
            | [] => Forall_nil _
            | (k, x) :: rest =>
                Forall_cons (P := fun p => P (snd p)) (k, x) (value_nested_ind x) (each rest)
            end) props)
  end.

End ValueInduction.

#[local] Unset Elimination Schemes.

(** The values a JSON text writes exactly: no undefined anywhere, and every
    number zero or finite and not a zero (so not NaN, not an infinity, not
    negative zero). *)
Inductive json_exact : value -> Prop :=
| exact_null : json_exact VNull
| exact_bool (b : bool) : json_exact (VBool b)
| exact_zero : json_exact (VNumber 0)
| exact_number (n : float) :
    PrimFloat.is_zero n = false -> PrimFloat.is_finite n = true -> json_exact (VNumber n)
| exact_string (s : string) : json_exact (VString s)
| exact_array (items : list value) :
    Forall json_exact items -> json_exact (VArray items)
| exact_object (props : list (string * value)) :
    Forall (fun p => json_exact (snd p)) props -> json_exact (VObject props).

#[local] Set Elimination Schemes.

(** The name of the downloaded file. *)
Definition downloadName (now : float) : string :=
  ("analise-qualidade-" ++ Number_toString now ++ ".json")%string.

(** A category section the script displays: it is there, its metricas is an
    object of scalars, its dados_completos is there, and its recomendacoes
    is no array or an array of strings. *)
Definition displayable_section (section : value) : Prop :=
  nullish section = false
  /\ (exists metrics : list (string * value),
        prop section "metricas" = VObject metrics
        /\ forallb (fun p => scalar (snd p)) metrics = true)
  /\ nullish (prop section "dados_completos") = false
  /\ (isArray (prop (prop section "dados_completos") "recomendacoes") = false
      \/ exists l : list string,
           prop (prop section "dados_completos") "recomendacoes" = VArray (map VString l)).

(** ** Payloads and files the properties are tried on *)

Definition url : string := "https://github.com/710lucas/Analista-de-Qualidade".

Definition section_of (metrics : list (string * value)) (dados : list (string * value))
  : value :=
  VObject [("metricas", VObject metrics); ("dados_completos", VObject dados)].

Definition payload_of (seguranca desempenho confiabilidade testes : value) : value :=
  VObject [("repositorio_url", VString url);
           ("status", VString "sucesso");
           ("analises", VObject [("seguranca", seguranca); ("desempenho", desempenho);
                                 ("confiabilidade", confiabilidade); ("testes", testes)])].

(** The analises of a payload. *)
Definition analises_of (results : value) : value := prop results "analises".

(** Four sections, every bundle empty. *)
Definition payload_empty_metrics : value :=
  payload_of (section_of [] []) (section_of [] []) (section_of [] []) (section_of [] []).

(** A payload with a metric of every kind. *)
Definition sample_seguranca : list (string * value) :=
  [("nivel_risco", VString "Alto");
   ("vulnerabilidades_encontradas", VNumber 3);
   ("funcoes_sem_tratamento", VNumber 2)].

Definition sample_desempenho : list (string * value) :=
  [("score_performance", VNumber 90); ("estruturas_ineficientes", VNumber 1)].

Definition sample_confiabilidade : list (string * value) :=
  [("nivel_confiabilidade", VString "Médio")].

Definition sample_testes : list (string * value) :=
  [("cobertura_estimada", VNumber 75); ("funcionalidades_sem_teste", VNumber 8)].

Definition payload_sample : value :=
  payload_of
    (section_of sample_seguranca [("recomendacoes", VString ("a, b," ++ String LF "c"))])
    (section_of sample_desempenho [])
    (section_of sample_confiabilidade [])
    (section_of sample_testes []).

(** The page when the script starts, and a page that shows given results. *)
Definition page0 : Page := {| currentResults := VNull; page_log := [] |}.

Definition page_of (results : value) : Page :=
  {| currentResults := results; page_log := [] |}.

(** A score_performance above 100. *)
Definition payload_score_150 : value :=
  payload_of (section_of [] []) (section_of [("score_performance", VNumber 150)] [])
             (section_of [] []) (section_of [] []).


(** JSON texts: a valid analysis, one with an empty URL, and two that
    report an error. *)
Definition json_sample : json :=
  JObject [("repositorio_url", JString url);
           ("status", JString "sucesso");
           ("analises", JObject [])].

Definition json_empty_url : json :=
  JObject [("repositorio_url", JString ""); ("analises", JObject [])].

(** An object that has the property, whatever its value. *)
Definition has_field (jsonData : value) (k : string) : bool :=
  match jsonData with
  | VObject props =>
      match lookup k props with
      | Some _ => true
      | None => false
      end
  | _ => false
  end.

Definition json_erro : json :=
  JObject [("repositorio_url", JString url);
           ("status", JString "erro");
           ("erro_geral", JString "falha na analise");
           ("analises", JObject [])].

Definition json_erro_without_analises : json :=
  JObject [("repositorio_url", JString url);
           ("status", JString "erro");
           ("erro_geral", JString "falha na analise")].

(** An infinite metric, and the same payload with null in its place. *)
Definition payload_infinity : value :=
  payload_of (section_of [] []) (section_of [] []) (section_of [] [])
             (section_of [("cobertura_estimada", VNumber infinity)] []).

Definition payload_infinity_reimported : value :=
  payload_of (section_of [] []) (section_of [] []) (section_of [] [])
             (section_of [("cobertura_estimada", VNull)] []).

(** The scenario of the coverage: the testes section alone, with a
    cobertura_estimada of 75. *)
Definition payload_coverage_scenario : value :=
  VObject
    [("analises",
      VObject [("testes",
                VObject [("metricas", VObject [("cobertura_estimada", VNumber 75)])])])].

(** Validation asks for a truthy analises only. *)
Definition payload_no_sections : value :=
  VObject [("repositorio_url", VString url); ("analises", VObject [])].

(** The shape of the script's own simulated data: each section holds its
    fields directly, with no metricas and no dados_completos. *)
Definition payload_simulated : value :=
  payload_of
    (VObject [("nivel_seguranca", VString "Médio");
              ("quantidade_vulnerabilidades", VNumber 3);
              ("recomendacoes", VArray [VString "Utilizar HTTPS em todas as comunicações"])])
    (VObject [("nivel_desempenho", VString "Alto")])
    (VObject [("nivel_confiabilidade", VString "Médio")])
    (VObject [("percentual_cobertura_estimado", VNumber 75)]).

(** A payload with metricas everywhere and no dados_completos in one
    section, and one with dados_completos everywhere and no metricas in one
    section. *)
Definition payload_without_dados : value :=
  payload_of (VObject [("metricas", VObject [])]) (section_of [] [])
             (section_of [] []) (section_of [] []).

Definition payload_without_metricas : value :=
  payload_of (VObject [("dados_completos", VObject [])]) (section_of [] [])
             (section_of [] []) (section_of [] []).

(** ** The rest of the script: formatting, the form and the service *)

(** *** formatDetailKey (lines 752-756) *)

(** [[a-z]], [[A-Z]] and the digits, on the bytes of the text: a character
    outside ASCII is none of them, nor are its bytes. *)
Definition is_lower (c : ascii) : bool :=
  let n := N_of_ascii c in N.leb 97 n && N.leb n 122.

Definition is_upper (c : ascii) : bool :=
  let n := N_of_ascii c in N.leb 65 n && N.leb n 90.

Definition is_digit (c : ascii) : bool :=
  let n := N_of_ascii c in N.leb 48 n && N.leb n 57.

(** [\w]: a letter of the ASCII alphabet, a digit or the underscore. *)
Definition is_word (c : ascii) : bool :=
  is_lower c || is_upper c || is_digit c || byte_is 95 c.

(** [l.toUpperCase()] of a character that [\w] matches. *)
Definition toUpperCase1 (c : ascii) : ascii :=
  if is_lower c then ascii_of_N (N_of_ascii c - 32) else c.

(** [key.replace(/_/g, ' ')] *)
Fixpoint underscores_to_spaces (s : string) : string :=
  match s with
  | EmptyString => EmptyString
  | String c rest =>
      String (if byte_is 95 c then " "%char else c) (underscores_to_spaces rest)
  end.

(** [.replace(/([a-z])([A-Z])/g, '$1 $2')]: the search goes on after the
    pair it has replaced. *)
Fixpoint split_camel (s : string) : string :=
  match s with
  | EmptyString => EmptyString
  | String c1 r1 =>
      match r1 with
      | EmptyString => s
      | String c2 r2 =>
          if is_lower c1 && is_upper c2
          then String c1 (String " " (String c2 (split_camel r2)))
          else String c1 (split_camel r1)
      end
  end.

(** [.replace(/\b\w/g, l => l.toUpperCase())]: a word character is at a
    word boundary when the character before it is none (or there is none);
    [inside] tells whether the character before is a word character. *)
Fixpoint capitalize_from (inside : bool) (s : string) : string :=
  match s with
  | EmptyString => EmptyString
  | String c rest =>
      String (if negb inside && is_word c then toUpperCase1 c else c)
             (capitalize_from (is_word c) rest)
  end.

(** The three replacements, one after the other. *)
Definition formatDetailKey (key : string) : string :=
  capitalize_from false (split_camel (underscores_to_spaces key)).

(** *** The name extractRepoName shows (lines 747-750) *)

(** The slash. *)
Definition is_slash (c : ascii) : bool := byte_is 47 c.

(** [[^\/]+] is greedy: it takes every character up to the next slash. *)
Fixpoint upToSlash (s : string) : string :=
  match s with
  | EmptyString => EmptyString
  | String c rest => if is_slash c then EmptyString else String c (upToSlash rest)
  end.

(** What is left from the next slash on. *)
Fixpoint fromSlash (s : string) : string :=
  match s with
  | EmptyString => EmptyString
  | String c rest => if is_slash c then s else fromSlash rest
  end.

(** [([^\/]+\/[^\/]+)] at the start of [s]: a run with no slash, a slash and
    a second run, neither run empty.  A shorter first run is followed by no
    slash, so there is nothing to backtrack to. *)
Definition ownerAndRepo (s : string) : option string :=
  match upToSlash s, fromSlash s with
  | String _ _ as owner, String _ rest =>
      match upToSlash rest with
      | String _ _ as repo => Some (owner ++ "/" ++ repo)%string
      | EmptyString => None
      end
  | _, _ => None
  end.

(** The text without its first [n] characters. *)
Fixpoint dropChars (n : nat) (s : string) : string :=
  match n, s with
  | S n', String _ rest => dropChars n' rest
  | _, _ => s
  end.

(** [url.match(/github\.com\/([^\/]+\/[^\/]+)/)]: the first capture of the
    leftmost match, if there is a match. *)
Fixpoint matchGithub (s : string) : option string :=
  match (if prefix "github.com/" s then ownerAndRepo (dropChars 11 s) else None) with
  | Some name => Some name
  | None =>
      match s with
      | EmptyString => None
      | String _ rest => matchGithub rest
      end
  end.

(** [match ? match[1] : url] *)
Definition repoName (url : string) : string :=
  match matchGithub url with
  | Some name => name
  | None => url
  end.

(** *** formatDetailValue (lines 758-766) *)

(** [value.toLocaleString('pt-BR')] of a number, the platform's. *)
Variable toLocaleString : float -> string.

(** [items.join(separator)]: undefined and null elements are empty. *)
Fixpoint join (separator : string) (items : list value) : result string :=
  match items with
  | [] => Ok ""
  | x :: rest =>
      let* piece := if nullish x then Ok "" else ToString x in
      match rest with
      | [] => Ok piece
      | _ :: _ => let* more := join separator rest in Ok (piece ++ separator ++ more)%string
      end
  end.

(** A number by its locale string, an array by its join, anything else by
    [String(value)]. *)
Definition formatDetailValue (value : value) : result string :=
  match value with
  | VNumber n => Ok (toLocaleString n)
  | VArray items => join ", " items
  | _ => ToString value
  end.

(** *** calculateScore (lines 698-705) *)

(** [StringToNumber] of the platform: the number a string denotes, NaN when
    it denotes none. *)
Variable StringToNumber : string -> float.

(** [ToNumber] of a primitive. *)
Definition ToNumber_primitive (p : value) : float :=
  match p with
  | VString s => StringToNumber s
  | _ => ToNumber p
  end.

(** [v > n] and [v < n] for a number literal [n]: [v] is made a primitive,
    then a number; a comparison with NaN is false. *)
Definition greater_than (v : value) (n : float) : result bool :=
  let* p := ToPrimitive v in Ok (n <? ToNumber_primitive p)%float.

Definition less_than (v : value) (n : float) : result bool :=
  let* p := ToPrimitive v in Ok (ToNumber_primitive p <? n)%float.

(** [v === b] for a boolean [b]. *)
Definition strict_eq_bool (v : value) (b : bool) : bool :=
  match v with
  | VBool b' => Bool.eqb b' b
  | _ => false
  end.

(** The [switch] compares [nivel] with the value of each [case] expression
    in turn, and each of them is a boolean. *)
Definition calculateScore (nivel : value) : result string :=
  let* case1 :=
    (let* above := greater_than nivel 50 in
     if above then Ok true else loose_eq_string nivel "Alto") in
  if strict_eq_bool nivel case1 then Ok "A+"
  else
    let* case2 :=
      (let* above := greater_than nivel 30 in
       let* between := (if above then less_than nivel 50 else Ok false) in
       if between then Ok true else loose_eq_string nivel "Médio") in
    if strict_eq_bool nivel case2 then Ok "B"
    else
      let* case3 :=
        (let* below := less_than nivel 30 in
         if below then Ok true else loose_eq_string nivel "Baixo") in
      if strict_eq_bool nivel case3 then Ok "C" else Ok "N/A".

(** *** The page of the form (lines 49-60, 122-130, 180-349 and 788-815) *)

(** The default key of line 2; its characters are not reproduced. *)
Variable DEFAULT_API_KEY : string.

(** What the form does to the page and to the network, in program order:
    the effects of the report, and the writes the report has none of.  A
    class is removed from every element a selector matches.  The waits of
    [simulateProgress], the calls to the console and the constant headers of
    the request are not represented, nor is the chart a redrawn canvas
    destroys first.  One submission runs to its end with no other handler
    in between. *)
Inductive action : Type :=
| Shown (e : effect)
| PreventDefault
| SetWidth (element width : string)
| SetValue (element value : string)
| SetPlaceholder (element placeholder : string)
| RemoveClass (selector className : string)
| AddClass (selector className : string)
| DestroyChart (canvas : string)
| Fetch (resource method : string) (body : text).

(** The answer of the service: its status, and the text of its body. *)
Record Response : Type := {
  status : N;
  body : text
}.

(** [response.ok] *)
Definition response_ok (response : Response) : bool :=
  (200 <=? status response)%N && (status response <=? 299)%N.

(** What the platform gives one submission: the text of
    [new Date().toISOString()], the response [fetch] resolves to (none when
    it rejects), and the message of the native error the submission raises,
    if it raises one. *)
Record Platform : Type := {
  toISOString : string;
  response : option Response;
  native_message : string
}.

(** What is thrown: [new Error(message)], or a native error. *)
Inductive exception : Type :=
| Raised (message : string)
| Native (e : error).

(** What an asynchronous function comes to: the value it returns, or what
    it throws. *)
Inductive outcome (A : Type) : Type :=
| Done (a : A)
| Failed (e : exception).
Arguments Done {A} a.
Arguments Failed {A} e.

(** The page of the form: the current results, the values of the inputs the
    script reads, the options and the value of the model select, whether
    each chart variable holds a chart, and what has been done so far. *)
Record App : Type := {
  current_results : value;
  repoUrl_value : string;
  apiKey_value : string;
  modelSelect_options : list string;
  modelSelect_value : string;
  problemsChart : bool;
  qualityChart : bool;
  app_log : list action
}.

(** The page after more has been done. *)
Definition act (app : App) (w : list action) : App :=
  {| current_results := current_results app;
     repoUrl_value := repoUrl_value app;
     apiKey_value := apiKey_value app;
     modelSelect_options := modelSelect_options app;
     modelSelect_value := modelSelect_value app;
     problemsChart := problemsChart app;
     qualityChart := qualityChart app;
     app_log := app_log app ++ w |}.

(** Whether effects draw a chart on a canvas: [new Chart] is what the chart
    variable is assigned. *)
Definition draws (canvas : string) (w : list effect) : bool :=
  existsb (fun e => match e with
                    | NewChart c _ _ _ => (c =? canvas)%string
                    | _ => false
                    end) w.

(** The report's effects and its current results, on the page of the
    form. *)
Definition shown (results : value) (w : list effect) (app : App) : App :=
  {| current_results := results;
     repoUrl_value := repoUrl_value app;
     apiKey_value := apiKey_value app;
     modelSelect_options := modelSelect_options app;
     modelSelect_value := modelSelect_value app;
     problemsChart := problemsChart app || draws "problemsChart" w;
     qualityChart := qualityChart app || draws "qualityChart" w;
     app_log := app_log app ++ map Shown w |}.


(** *** updateApiKeyHelp (lines 49-60) *)


(** *** switchFormTab (lines 122-130) *)


(** *** showLoading, hideLoading and simulateProgress (lines 322-349) *)

(** [elements.form] is the element analysisForm. *)
Definition showLoading (app : App) : App :=
  act app [Shown (SetDisplay "loadingSection" "block");
           Shown (SetDisplay "resultsSection" "none");
           Shown (SetDisplay "analysisForm" "none")].

Definition hideLoading (app : App) : App :=
  act app [Shown (SetDisplay "loadingSection" "none");
           Shown (SetDisplay "analysisForm" "block")].

(** The messages and the progress of the seven steps. *)
Definition steps : list (string * float) :=
  [("Baixando repositório...", 20%float);
   ("Extraindo arquivos...", 40%float);
   ("Analisando segurança...", 60%float);
   ("Analisando desempenho...", 75%float);
   ("Analisando confiabilidade...", 85%float);
   ("Analisando testes...", 95%float);
   ("Finalizando análise...", 100%float)].

Definition simulateProgress (app : App) : App :=
  act app (flat_map (fun step =>
                       [Shown (SetTextContent "loadingStatus" (fst step));
                        SetWidth "progressFill" (Number_toString (snd step) ++ "%")])
                    steps).

(** *** executeAnalysis (lines 228-320) *)

(** The object of lines 234-278. *)
Definition simulatedData (repoUrl timestamp model : string) : value :=
  VObject
    [("repositorio_url", VString repoUrl);
     ("timestamp", VString timestamp);
     ("status", VString "sucesso");
     ("tempo_execucao", VString "0:01:23");
     ("modelo_usado", VString model);
     ("analises",
      VObject
        [("seguranca",
          VObject
            [("nivel_seguranca", VString "Médio");
             ("quantidade_vulnerabilidades", VNumber 3);
             ("quantidade_funcoes_sem_tratamento", VNumber 2);
             ("recomendacoes",
              VArray [VString "Implementar validação de entrada nos formulários";
                      VString "Adicionar sanitização de dados";
                      VString "Utilizar HTTPS em todas as comunicações"])]);
         ("desempenho",
          VObject
            [("nivel_desempenho", VString "Alto");
             ("quantidade_estruturas_ineficientes", VNumber 1);
             ("quantidade_funcoes_longas", VNumber 2);
             ("recomendacoes",
              VArray [VString "Otimizar consultas ao banco de dados";
                      VString "Implementar cache de dados";
                      VString "Reduzir complexidade de funções longas"])]);
         ("confiabilidade",
          VObject
            [("nivel_confiabilidade", VString "Médio");
             ("quantidade_problemas_erros", VNumber 4);
             ("quantidade_violacoes_padroes", VNumber 3);
             ("recomendacoes",
              VArray [VString "Adicionar tratamento de exceções";
                      VString "Implementar logging estruturado";
                      VString "Seguir padrões de codificação"])]);
         ("testes",
          VObject
            [("percentual_cobertura_estimado", VNumber 75);
             ("quantidade_testes", VNumber 45);
             ("quantidade_funcionalidades_sem_teste", VNumber 8);
             ("recomendacoes",
              VArray [VString "Aumentar cobertura de testes para 90%";
                      VString "Implementar testes de integração";
                      VString "Adicionar testes automatizados"])])])].

(** The body of the request: [JSON.stringify] of the three strings. *)
Definition requestBody (repoUrl apiKey model : string) : text :=
  match JSON_stringify (VObject [("repo_url", VString repoUrl);
                                 ("api_key", VString apiKey);
                                 ("model", VString model)]) with
  | Some j => JSONText j
  | None => NotJSON
  end.

(** What [throw new Error(message)] throws: the message is converted to a
    string, and the conversion may throw first. *)
Definition new_Error (message : value) : exception :=
  match ToString message with
  | Ok s => Raised s
  | Throw e => Native e
  end.

(** The digits of a status. *)
Definition status_text (n : N) : string := decimal_of_Z (Z.of_N n).

(** What [executeAnalysis] returns or throws once [fetch] has settled; the
    [catch] of line 316 throws again what it caught.  A rejected [fetch] is
    a TypeError, a body that is no JSON text a SyntaxError of
    [response.json()]. *)
Definition executeAnalysis (platform : Platform) (repoUrl apiKey model : string)
  : outcome value :=
  match response platform with
  | None => Failed (Native TypeError)
  | Some r =>
      if negb (response_ok r) then
        match (let* errorData := JSON_parse (body r) in
               let* erro := get errorData "erro" in
               Ok (or_else erro (VString ("Erro HTTP: " ++ status_text (status r))))) with
        | Ok message => Failed (new_Error message)
        | Throw e => Failed (Native e)
        end
      else
        match (let* results := JSON_parse (body r) in
               let* analises := get results "analises" in
               Ok (results, analises)) with
        | Ok (results, analises) =>
            if negb (truthy analises)
            then Done (simulatedData repoUrl (toISOString platform) model)
            else Done results
        | Throw e => Failed (Native e)
        end
  end.

(** *** runAnalysis (lines 204-226) *)

(** [error.message] *)
Definition message_of (platform : Platform) (e : exception) : string :=
  match e with
  | Raised message => message
  | Native _ => native_message platform
  end.

(** The [catch] of line 221. *)
Definition analysisFailed (platform : Platform) (e : exception) (app : App) : App :=
  hideLoading
    (act app [Shown (Alert ("Erro durante a análise: " ++ message_of platform e))]).

(** The whole body after [showLoading] is inside [try]: what
    [executeAnalysis] throws, the error of a payload that reports one, and
    what [displayResults] throws after the current results are assigned all
    end in the [catch]. *)
Definition runAnalysis (platform : Platform) (repoUrl apiKey model : string) (app : App)
  : App :=
  let app := simulateProgress (showLoading app) in
  let app := act app [Fetch "/api/analyze-sync" "POST" (requestBody repoUrl apiKey model)] in
  match executeAnalysis platform repoUrl apiKey model with
  | Failed e => analysisFailed platform e app
  | Done results =>
      if strict_eq_string (prop results "status") "erro" || truthy (prop results "erro")
      then
        analysisFailed platform
          (new_Error (or_else (or_else (prop results "erro_geral") (prop results "erro"))
                              (VString "Erro desconhecido na análise")))
          app
      else
        let (r, w) := displayResults results in
        let app := shown results w app in
        match r with
        | Ok _ => app
        | Throw e => analysisFailed platform (Native e) app
        end
  end.

(** *** handleFormSubmit (lines 180-202) *)

(** The two alerts of a refused submission. *)
Definition msg_no_url : string := "Por favor, insira a URL do repositório".
Definition msg_no_key : string := "Chave API da OpenAI é obrigatória para usar GPT-4 Mini".

(** [apiKey || (selectedModel === 'gemini' ? DEFAULT_API_KEY : '')] *)
Definition finalApiKey (apiKey selectedModel : string) : string :=
  if negb (apiKey =? "")%string then apiKey
  else if (selectedModel =? "gemini")%string then DEFAULT_API_KEY else "".

(** The values of the inputs are read once, before anything is shown. *)
Definition handleFormSubmit (platform : Platform) (app : App) : App :=
  let app := act app [PreventDefault] in
  let repoUrl := trim (repoUrl_value app) in
  let selectedModel := modelSelect_value app in
  let apiKey := trim (apiKey_value app) in
  if (repoUrl =? "")%string then act app [Shown (Alert msg_no_url)]
  else if (selectedModel =? "gpt4-mini")%string && (apiKey =? "")%string
       then act app [Shown (Alert msg_no_key)]
       else runAnalysis platform repoUrl (finalApiKey apiKey selectedModel) selectedModel app.

(** *** startNewAnalysis (lines 788-815) *)






(** ** The vocabulary of their properties *)

(** A word with its first letter in upper case. *)
Definition capitalize (w : string) : string :=
  match w with
  | EmptyString => EmptyString
  | String c rest => String (toUpperCase1 c) rest
  end.

(** Every character satisfies [p]. *)
Fixpoint all_chars (p : ascii -> bool) (s : string) : bool :=
  match s with
  | EmptyString => true
  | String c rest => p c && all_chars p rest
  end.

(** A word of lower-case ASCII letters and digits. *)
Definition lower_word (w : string) : bool :=
  all_chars (fun c => is_lower c || is_digit c) w.

(** No lower-case letter is followed by an upper-case one; [after_lower]
    tells whether the character before is a lower-case letter. *)
Fixpoint no_camel_from (after_lower : bool) (s : string) : bool :=
  match s with
  | EmptyString => true
  | String c rest => negb (after_lower && is_upper c) && no_camel_from (is_lower c) rest
  end.

(** The text starts with an upper-case letter. *)
Definition first_upper (s : string) : bool :=
  match s with
  | EmptyString => false
  | String c _ => is_upper c
  end.

(** A character other than the underscore. *)
Definition not_underscore (c : ascii) : bool := negb (byte_is 95 c).

(** A run the pattern takes whole: not empty, and with no slash. *)
Definition segment (s : string) : bool :=
  negb (s =? "") && all_chars (fun c => negb (is_slash c)) s.

(** A value with a string of its own: no object with a property named
    toString, at the top or among the elements of arrays. *)
Fixpoint printable (v : value) : bool :=
  match v with
  | VArray items => forallb printable items
  | VObject props =>
      match lookup "toString" props with
      | Some _ => false
      | None => true
      end
  | _ => true
  end.

(** The category, title and icon of a card. *)
Definition card_heading (card : RecommendationCard) : string * string * string :=
  (card_category card, card_title card, card_icon card).

(** The headings of the four categories, in the order of the script. *)
Definition headings : list (string * string * string) :=
  [("seguranca", "Segurança", "shield-alt");
   ("desempenho", "Desempenho", "tachometer-alt");
   ("confiabilidade", "Confiabilidade", "check-circle");
   ("testes", "Testes", "vial")].

(** A card of the category of the heading is among the cards. *)
Definition has_heading (cards : list RecommendationCard) (h : string * string * string) : bool :=
  existsb (fun card => (card_category card =? fst (fst h))%string) cards.

(** The page once the request is sent: the loading section is shown, the
    progress has run, and the request is on its way. *)
Definition requesting (repoUrl apiKey model : string) (app : App) : App :=
  act (simulateProgress (showLoading app))
      [Fetch "/api/analyze-sync" "POST" (requestBody repoUrl apiKey model)].

(** An effect of the report or an alert, as opposed to a write of the form
    or a request. *)
Definition is_shown (a : action) : bool :=
  match a with
  | Shown _ => true
  | _ => false
  end.

(** The display last given to an element, if it was given one. *)
Fixpoint displayOf (element : string) (log : list action) : option string :=
  match log with
  | [] => None
  | a :: rest =>
      match displayOf element rest with
      | Some d => Some d
      | None =>
          match a with
          | Shown (SetDisplay el d) => if (el =? element)%string then Some d else None
          | _ => None
          end
      end
  end.

(** The effect sets the display of an element. *)
Definition sets_display (e : effect) : bool :=
  match e with
  | SetDisplay _ _ => true
  | _ => false
  end.

(** A computation whose effects set no display. *)
Definition keeps_displays {A : Type} (m : M A) : Prop :=
  Forall (fun e => sets_display e = false) (snd m).


(** ** Pages, answers and payloads their properties are tried on *)

(** The form filled in with the URL between blanks, no key, and gemini
    selected among the two models. *)
Definition app_filled : App :=
  {| current_results := VNull;
     repoUrl_value := ("  " ++ url ++ " ")%string;
     apiKey_value := "";
     modelSelect_options := ["gemini"; "gpt4-mini"];
     modelSelect_value := "gemini";
     problemsChart := false;
     qualityChart := false;
     app_log := [] |}.

(** A submission the service answers with a status and a JSON body. *)
Definition answered (code : N) (j : json) : Platform :=
  {| toISOString := "2025-01-01T00:00:00.000Z";
     response := Some {| status := code; body := JSONText j |};
     native_message := "Cannot read properties of undefined" |}.

(** A section with its metricas and an empty dados_completos. *)
Definition json_section (metrics : list (string * json)) : json :=
  JObject [("metricas", JObject metrics); ("dados_completos", JObject [])].

(** A report with its four sections. *)
Definition json_report : json :=
  JObject [("repositorio_url", JString url);
           ("status", JString "sucesso");
           ("analises",
            JObject [("seguranca", json_section [("nivel_risco", JString "Alto")]);
                     ("desempenho", json_section [("score_performance", JNumber 90)]);
                     ("confiabilidade", json_section []);
                     ("testes", json_section [("cobertura_estimada", JNumber 75)])])].

(** A count of vulnerabilities that is a string. *)
Definition payload_text_count : value :=
  payload_of
    (section_of [("vulnerabilidades_encontradas", VString "3");
                 ("funcoes_sem_tratamento", VNumber 2)] [])
    (section_of [] []) (section_of [] []) (section_of [] []).

(** A sequence of recommendations with a number among its entries. *)
Definition payload_entry_number : value :=
  payload_of
    (section_of [] [])
    (section_of [] [("recomendacoes", VArray [VString "usar cache"; VNumber 1])])
    (section_of [] []) (section_of [] []).

(** A file that holds the sample analysis. *)
Definition file_sample : File :=
  {| file_type := "application/json"; file_name := "analise.json";
     file_text := JSONText json_sample |}.

(** * Properties *)

(** ** Reading properties and running computations *)

Lemma get_defined (v : value) (k : string) :
  nullish v = false -> get v k = Ok (prop v k).
Proof. intros H. unfold get. now rewrite H. Qed.

Lemma get_Ok_inv (v x : value) (k : string) :
  get v k = Ok x -> nullish v = false /\ x = prop v k.
Proof.
  unfold get. destruct (nullish v); intros H; inversion H. now split.
Qed.

Lemma truthy_not_nullish (v : value) : truthy v = true -> nullish v = false.
Proof. destruct v; simpl; intros H; try reflexivity; discriminate. Qed.

Lemma bind_lift_Ok {A B : Type} (a : A) (k : A -> M B) :
  bind (lift (Ok a)) k = k a.
Proof. unfold bind, lift. now destruct (k a). Qed.

Lemma bind_lift_Throw {A B : Type} (e : error) (k : A -> M B) :
  bind (lift (Throw e)) k = (Throw e, []).
Proof. reflexivity. Qed.

Lemma bind_emit {B : Type} (e : effect) (k : unit -> M B) :
  bind (emit e) k = (fst (k tt), e :: snd (k tt)).
Proof. unfold bind, emit. now destruct (k tt). Qed.

Lemma fst_bind_Ok {A B : Type} (m : M A) (k : A -> M B) (a : A) :
  fst m = Ok a -> fst (bind m k) = fst (k a).
Proof.
  destruct m as [r w]. simpl. intros ->. simpl. now destruct (k a).
Qed.

Lemma snd_bind_Ok {A B : Type} (m : M A) (k : A -> M B) (a : A) :
  fst m = Ok a -> snd (bind m k) = snd m ++ snd (k a).
Proof.
  destruct m as [r w]. simpl. intros ->. simpl. now destruct (k a).
Qed.

Lemma snd_bind_incl {A B : Type} (m : M A) (k : A -> M B) (e : effect) :
  In e (snd m) -> In e (snd (bind m k)).
Proof.
  destruct m as [[a | err] w]; simpl; intros H.
  - destruct (k a). simpl. apply in_or_app. now left.
  - exact H.
Qed.

(** The default of [metricas] is an object, so what it returns is never
    undefined or null. *)
Lemma metricas_truthy (analises m : value) (category : string) :
  metricas analises category = Ok m -> truthy m = true.
Proof.
  unfold metricas. destruct (get analises category) as [s | e]; simpl; [| discriminate].
  destruct (get s "metricas") as [x | e]; simpl; [| discriminate].
  intros H. inversion H. unfold or_else. now destruct (truthy x) eqn:E.
Qed.

(** ** Values that are no array and no object *)

Lemma ToString_scalar (v : value) : scalar v = true -> ToString v = Ok (text_of v).
Proof.
  unfold text_of. destruct v as [| | [|] | n | s | l | o]; simpl; intros H;
    try reflexivity; discriminate.
Qed.

Lemma or_else_scalar (a b : value) :
  scalar a = true -> scalar b = true -> scalar (or_else a b) = true.
Proof. intros Ha Hb. unfold or_else. now destruct (truthy a). Qed.

Lemma template_scalar (v : value) (suffix : string) :
  scalar v = true -> template v suffix = Ok (text_of v ++ suffix)%string.
Proof. intros H. unfold template. now rewrite (ToString_scalar _ H). Qed.

Lemma setTextContent_scalar (id : string) (v : value) :
  scalar v = true ->
  setTextContent id v = (Ok tt, [SetTextContent id (if nullish v then "" else text_of v)]).
Proof.
  intros H. unfold setTextContent.
  destruct (nullish v); [reflexivity |].
  now rewrite (ToString_scalar _ H).
Qed.

Lemma js_add_text (v : value) (suffix : string) :
  scalar v = true ->
  js_add v (VString suffix) = Ok (VString (text_of v ++ suffix)%string).
Proof.
  intros H. unfold js_add.
  assert (Hp : ToPrimitive v = Ok v) by (destruct v; try reflexivity; discriminate).
  rewrite Hp. cbn [rbind ToPrimitive typeof_string].
  rewrite orb_true_r, (ToString_scalar _ H). reflexivity.
Qed.

Lemma securityScore_scalar (nivel : value) :
  scalar nivel = true ->
  securityScore nivel =
    Ok (VString (if strict_eq_string nivel "Alto" then "C"
                 else if strict_eq_string nivel "Médio" then "B" else "A")).
Proof.
  intros H. unfold securityScore.
  destruct nivel as [| | b | n | s | l | o]; try reflexivity; try discriminate.
  cbn [loose_eq_string rbind strict_eq_string].
  destruct (s =? "Alto"); [reflexivity |].
  cbn [rbind]. now destruct (s =? "Médio").
Qed.

Lemma bind_Ok_tt {B : Type} (m : M unit) (k : unit -> M B) :
  fst m = Ok tt -> bind m k = (fst (k tt), snd m ++ snd (k tt)).
Proof.
  destruct m as [r w]. simpl. intros ->. simpl. now destruct (k tt).
Qed.

(** A card whose data are scalars is updated without a throw. *)
Lemma updateMetricCard_scalar (type : string) (data : value) :
  (forall k : string, scalar (prop data k) = true) ->
  fst (updateMetricCard type data) = Ok tt.
Proof.
  intros H. unfold updateMetricCard.
  destruct (type =? "security"); [| destruct (type =? "performance");
    [| destruct (type =? "reliability"); [| destruct (type =? "testing"); [| reflexivity]]]];
    rewrite (setTextContent_scalar _ _ (H _)), !(template_scalar _ _ (H _));
    reflexivity.
Qed.

Lemma scalar_fields (k1 k2 k3 : string) (v1 v2 v3 : value) :
  scalar v1 = true -> scalar v2 = true -> scalar v3 = true ->
  forall k : string, scalar (prop (VObject [(k1, v1); (k2, v2); (k3, v3)]) k) = true.
Proof.
  intros H1 H2 H3 k. cbn [prop lookup].
  destruct (k1 =? k); [exact H1 |].
  destruct (k2 =? k); [exact H2 |].
  destruct (k3 =? k); [exact H3 | reflexivity].
Qed.

(** ** Quality classes *)

(** C5.  [getQualityClass] is total.  On a number it answers by the
    thresholds 80, 60, 40 and 20, each tried only when those above failed
    (so NaN, which passes no comparison, is critical); on a string it
    answers excellent for A+, good for B, poor for C and average for every
    other string, the letter A included; any other value is average too. *)
Theorem getQualityClass_table :
  (forall n : float,
      ((80 <=? n)%float = true -> getQualityClass (VNumber n) = "quality-excellent")
      /\ ((80 <=? n)%float = false -> (60 <=? n)%float = true ->
          getQualityClass (VNumber n) = "quality-good")
      /\ ((80 <=? n)%float = false -> (60 <=? n)%float = false ->
          (40 <=? n)%float = true ->
          getQualityClass (VNumber n) = "quality-average")
      /\ ((80 <=? n)%float = false -> (60 <=? n)%float = false ->
          (40 <=? n)%float = false -> (20 <=? n)%float = true ->
          getQualityClass (VNumber n) = "quality-poor")
      /\ ((80 <=? n)%float = false -> (60 <=? n)%float = false ->
          (40 <=? n)%float = false -> (20 <=? n)%float = false ->
          getQualityClass (VNumber n) = "quality-critical"))
  /\ getQualityClass (VString "A+") = "quality-excellent"
  /\ getQualityClass (VString "B") = "quality-good"
  /\ getQualityClass (VString "C") = "quality-poor"
  /\ getQualityClass (VString "A") = "quality-average"
  /\ (forall s : string, s <> "A+" -> s <> "B" -> s <> "C" ->
      getQualityClass (VString s) = "quality-average")
  /\ (forall v : value, typeof_number v = false -> typeof_string v = false ->
      getQualityClass v = "quality-average")
  /\ (forall v : value,
      In (getQualityClass v)
         ["quality-excellent"; "quality-good"; "quality-average"; "quality-poor";
          "quality-critical"]).
Proof.
  split; [| repeat split].
  - intros n. unfold getQualityClass.
    repeat split; intros; repeat match goal with H : _ = _ |- _ => rewrite H end; reflexivity.
  - intros s HA HB HC. unfold getQualityClass, strict_eq_string.
    apply String.eqb_neq in HA, HB, HC. now rewrite HA, HB, HC.
  - intros v Hn Hs. destruct v; try discriminate; reflexivity.
  - intros v. destruct v as [| | b | n | s | l | o]; simpl; auto.
    + destruct (80 <=? n)%float; [simpl; auto |].
      destruct (60 <=? n)%float; [simpl; auto |].
      destruct (40 <=? n)%float; [simpl; auto |].
      destruct (20 <=? n)%float; simpl; auto 10.
    + destruct (s =? "A+"); [simpl; auto |].
      destruct (s =? "B"); [simpl; auto |].
      destruct (s =? "C"); simpl; auto 10.
Qed.

(** ** Problem counts *)

Lemma counts_or_zero (v : value) (n : float) :
  counts v n -> or_else v (VNumber 0) = VNumber n.
Proof.
  intros H. destruct H as [| | n Hn | n Hn]; try reflexivity;
    unfold or_else; now rewrite Hn.
Qed.

(** What [displayMetrics] and the charts extract for a category whose
    section the payload has: the fields the payload holds. *)
Lemma extracted (results : value) (category : string) :
  has_section results category = true ->
  analises_or_empty results = Ok (prop results "analises")
  /\ exists m : value,
       metricas (prop results "analises") category = Ok m
       /\ forall name : string, prop m name = field results category name.
Proof.
  unfold has_section, field. intros H. apply negb_true_iff in H.
  assert (Ha : truthy (prop results "analises") = true).
  { destruct (prop results "analises"); try reflexivity; discriminate H. }
  assert (Hr : nullish results = false).
  { destruct results; try reflexivity; discriminate Ha. }
  split.
  - unfold analises_or_empty. rewrite (get_defined _ _ Hr). cbn [rbind].
    unfold or_else. now rewrite Ha.
  - exists (or_else (prop (prop (prop results "analises") category) "metricas") (VObject [])).
    split.
    + unfold metricas. rewrite (get_defined _ _ (truthy_not_nullish _ Ha)). cbn [rbind].
      now rewrite (get_defined _ _ H).
    + intros name. unfold or_else.
      destruct (prop (prop (prop results "analises") category) "metricas") as [| | [|] | n | s | l | o];
        cbn [truthy negb]; try reflexivity.
      * now destruct (PrimFloat.is_zero n || PrimFloat.is_nan n).
      * now destruct (s =? "").
Qed.

(** With no section of a category the extraction throws. *)
Lemma not_extracted (results : value) (category : string) :
  has_section results category = false ->
  analises_or_empty results = Throw TypeError
  \/ exists analises : value,
       analises_or_empty results = Ok analises
       /\ metricas analises category = Throw TypeError.
Proof.
  unfold has_section. intros H. apply negb_false_iff in H.
  unfold analises_or_empty, get. destruct (nullish results); [now left |].
  right. cbn [rbind]. eexists. split; [reflexivity |].
  assert (Hn : nullish (or_else (prop results "analises") (VObject [])) = false).
  { unfold or_else. destruct (truthy (prop results "analises")) eqn:E; [| reflexivity].
    now apply truthy_not_nullish. }
  assert (Hs : nullish (prop (or_else (prop results "analises") (VObject [])) category) = true).
  { unfold or_else. destruct (truthy (prop results "analises")); [exact H | reflexivity]. }
  unfold metricas. rewrite (get_defined _ _ Hn). cbn [rbind]. unfold get. now rewrite Hs.
Qed.

Lemma js_add_numbers (a b : float) :
  js_add (VNumber a) (VNumber b) = Ok (VNumber (a + b)%float).
Proof. reflexivity. Qed.

(** C7.  For a payload that has the four category sections, the problems
    chart is drawn with, in the order seguranca, desempenho, confiabilidade,
    testes: vulnerabilidades_encontradas + funcoes_sem_tratamento,
    estruturas_ineficientes + funcoes_longas,
    problemas_tratamento_erros + violacoes_padroes, and
    funcionalidades_sem_teste alone, each of them the field the payload
    holds under the metricas of its category, a missing field counting as
    zero. *)
Theorem problem_distribution_counts
    (results : value)
    (vulnerabilidades sem_tratamento ineficientes longas erros violacoes sem_teste : float) :
  has_section results "seguranca" = true ->
  has_section results "desempenho" = true ->
  has_section results "confiabilidade" = true ->
  has_section results "testes" = true ->
  counts (field results "seguranca" "vulnerabilidades_encontradas") vulnerabilidades ->
  counts (field results "seguranca" "funcoes_sem_tratamento") sem_tratamento ->
  counts (field results "desempenho" "estruturas_ineficientes") ineficientes ->
  counts (field results "desempenho" "funcoes_longas") longas ->
  counts (field results "confiabilidade" "problemas_tratamento_erros") erros ->
  counts (field results "confiabilidade" "violacoes_padroes") violacoes ->
  counts (field results "testes" "funcionalidades_sem_teste") sem_teste ->
  displayProblemsChart results =
    (Ok tt,
     [NewChart "problemsChart" "doughnut"
        ["Segurança"; "Desempenho"; "Confiabilidade"; "Testes"]
        [VNumber (vulnerabilidades + sem_tratamento)%float;
         VNumber (ineficientes + longas)%float;
         VNumber (erros + violacoes)%float;
         VNumber sem_teste]]).
Proof.
  intros Ss Sd Sc St C1 C2 C3 C4 C5 C6 C7.
  destruct (extracted _ _ Ss) as (Ha & seguranca & Hs & Fs).
  destruct (extracted _ _ Sd) as (_ & desempenho & Hd & Fd).
  destruct (extracted _ _ Sc) as (_ & confiabilidade & Hc & Fc).
  destruct (extracted _ _ St) as (_ & testes & Ht & Ft).
  unfold displayProblemsChart.
  rewrite Ha, bind_lift_Ok, Hs, bind_lift_Ok, Hd, bind_lift_Ok, Hc, bind_lift_Ok,
    Ht, bind_lift_Ok.
  rewrite !Fs, !Fd, !Fc, !Ft.
  rewrite (counts_or_zero _ _ C1), (counts_or_zero _ _ C2), (counts_or_zero _ _ C3),
    (counts_or_zero _ _ C4), (counts_or_zero _ _ C5), (counts_or_zero _ _ C6),
    (counts_or_zero _ _ C7).
  now rewrite !js_add_numbers, !bind_lift_Ok.
Qed.

(** ** The quality radar *)

Lemma getNumericScore_in_range (v : value) :
  (typeof_number v = true -> in_0_100 v = true) ->
  in_0_100 (getNumericScore v) = true.
Proof.
  intros H. unfold getNumericScore.
  destruct (typeof_number v); [now apply H |].
  destruct (strict_eq_string v "Alto"); [reflexivity |].
  destruct (strict_eq_string v "Médio"); [reflexivity |].
  destruct (strict_eq_string v "Baixo"); reflexivity.
Qed.

Lemma or_zero_in_range (v : value) :
  (truthy v = true -> in_0_100 v = true) ->
  in_0_100 (or_else v (VNumber 0)) = true.
Proof.
  intros H. unfold or_else. destruct (truthy v); [now apply H | reflexivity].
Qed.

(** C2, as the code has it.  When the four category sections are there, the
    radar is drawn with four values in the order seguranca, desempenho,
    confiabilidade, testes: the numeric score of nivel_risco, of
    score_performance and of nivel_confiabilidade, and cobertura_estimada
    or 0.  A numeric metric is passed through as it is, so the four values
    are numbers from 0 to 100 when each of the first three metrics, if a
    number, is one, and cobertura_estimada, unless falsy, is one. *)
Theorem quality_radar_values
    (results analises seguranca desempenho confiabilidade testes : value) :
  analises_or_empty results = Ok analises ->
  metricas analises "seguranca" = Ok seguranca ->
  metricas analises "desempenho" = Ok desempenho ->
  metricas analises "confiabilidade" = Ok confiabilidade ->
  metricas analises "testes" = Ok testes ->
  let data := [getNumericScore (prop seguranca "nivel_risco");
               getNumericScore (prop desempenho "score_performance");
               getNumericScore (prop confiabilidade "nivel_confiabilidade");
               or_else (prop testes "cobertura_estimada") (VNumber 0)] in
  displayQualityChart results =
    (Ok tt,
     [NewChart "qualityChart" "radar"
        ["Segurança"; "Desempenho"; "Confiabilidade"; "Testes"] data])
  /\ ((typeof_number (prop seguranca "nivel_risco") = true ->
       in_0_100 (prop seguranca "nivel_risco") = true) ->
      (typeof_number (prop desempenho "score_performance") = true ->
       in_0_100 (prop desempenho "score_performance") = true) ->
      (typeof_number (prop confiabilidade "nivel_confiabilidade") = true ->
       in_0_100 (prop confiabilidade "nivel_confiabilidade") = true) ->
      (truthy (prop testes "cobertura_estimada") = true ->
       in_0_100 (prop testes "cobertura_estimada") = true) ->
      forallb in_0_100 data = true).
Proof.
  intros Ha Hs Hd Hc Ht data. split.
  - unfold displayQualityChart.
    now rewrite Ha, bind_lift_Ok, Hs, bind_lift_Ok, Hd, bind_lift_Ok, Hc, bind_lift_Ok,
      Ht, bind_lift_Ok.
  - intros R1 R2 R3 R4. unfold data. cbn [forallb].
    rewrite (getNumericScore_in_range _ R1), (getNumericScore_in_range _ R2),
      (getNumericScore_in_range _ R3), (or_zero_in_range _ R4).
    reflexivity.
Qed.

(** ** Numeric scores and the coverage *)

(** With its four bundles extracted and their fields scalars,
    [displayMetrics] updates the four cards in order and does not throw. *)
Lemma displayMetrics_cards
    (results analises seguranca desempenho confiabilidade testes : value) :
  analises_or_empty results = Ok analises ->
  metricas analises "seguranca" = Ok seguranca ->
  metricas analises "desempenho" = Ok desempenho ->
  metricas analises "confiabilidade" = Ok confiabilidade ->
  metricas analises "testes" = Ok testes ->
  scalar_bundle seguranca -> scalar_bundle desempenho ->
  scalar_bundle confiabilidade -> scalar_bundle testes ->
  exists security performance reliability testing : value,
    securityData seguranca = Ok security
    /\ performanceData desempenho = Ok performance
    /\ reliabilityData confiabilidade = Ok reliability
    /\ testingData testes = Ok testing
    /\ displayMetrics results =
       (Ok tt,
        snd (updateMetricCard "security" security)
        ++ snd (updateMetricCard "performance" performance)
        ++ snd (updateMetricCard "reliability" reliability)
        ++ snd (updateMetricCard "testing" testing)).
Proof.
  intros Ha Hs Hd Hc Ht Bs Bd Bc Bt.
  pose proof (Bs "nivel_risco") as S1.
  pose proof (Bs "vulnerabilidades_encontradas") as S2.
  pose proof (Bs "funcoes_sem_tratamento") as S3.
  pose proof (Bd "score_performance") as D1.
  pose proof (Bd "estruturas_ineficientes") as D2.
  pose proof (Bd "funcoes_longas") as D3.
  pose proof (Bc "nivel_confiabilidade") as C1.
  pose proof (Bc "problemas_tratamento_erros") as C2.
  pose proof (Bc "violacoes_padroes") as C3.
  pose proof (Bt "cobertura_estimada") as T1.
  pose proof (Bt "quantidade_testes") as T2.
  assert (Es : exists security, securityData seguranca = Ok security
                 /\ forall k, scalar (prop security k) = true).
  { unfold securityData. rewrite (securityScore_scalar _ S1). cbn [rbind].
    eexists. split; [reflexivity |].
    apply scalar_fields; repeat first [reflexivity | assumption | apply or_else_scalar]. }
  assert (Ed : exists performance, performanceData desempenho = Ok performance
                 /\ forall k, scalar (prop performance k) = true).
  { unfold performanceData. rewrite (js_add_text _ _ D1). cbn [rbind].
    eexists. split; [reflexivity |].
    apply scalar_fields; repeat first [reflexivity | assumption | apply or_else_scalar]. }
  assert (Ec : exists reliability, reliabilityData confiabilidade = Ok reliability
                 /\ forall k, scalar (prop reliability k) = true).
  { unfold reliabilityData. eexists. split; [reflexivity |].
    apply scalar_fields; repeat first [reflexivity | assumption | apply or_else_scalar]. }
  assert (Et : exists testing, testingData testes = Ok testing
                 /\ forall k, scalar (prop testing k) = true).
  { unfold testingData.
    rewrite (js_add_text _ _ (or_else_scalar _ (VNumber 0) T1 eq_refl)). cbn [rbind].
    eexists. split; [reflexivity |].
    apply scalar_fields; repeat first [reflexivity | assumption | apply or_else_scalar]. }
  destruct Es as (security & Es & Fs), Ed as (performance & Ed & Fd),
    Ec as (reliability & Ec & Fc), Et as (testing & Et & Ft).
  exists security, performance, reliability, testing.
  repeat (split; [assumption |]).
  unfold displayMetrics.
  rewrite Ha, bind_lift_Ok, Hs, bind_lift_Ok, Es, bind_lift_Ok.
  rewrite (bind_Ok_tt _ _ (updateMetricCard_scalar _ _ Fs)).
  rewrite Hd, bind_lift_Ok, Ed, bind_lift_Ok.
  rewrite (bind_Ok_tt _ _ (updateMetricCard_scalar _ _ Fd)).
  rewrite Hc, bind_lift_Ok, Ec, bind_lift_Ok.
  rewrite (bind_Ok_tt _ _ (updateMetricCard_scalar _ _ Fc)).
  rewrite Ht, bind_lift_Ok, Et, bind_lift_Ok.
  cbn [fst snd]. now rewrite (updateMetricCard_scalar _ _ Ft).
Qed.

(** C8.  [getNumericScore] gives a number back unchanged, 85 for Alto, 65
    for Médio, 40 for Baixo and 0 for anything else.  For a payload that has
    the four category sections the radar is drawn, and its value for testes
    is the cobertura_estimada the payload holds, or 0 when that is falsy: 75
    for a cobertura_estimada of 75, 0 for a missing one; with scalar metrics
    the testing card then shows 75%.  For a payload that has no seguranca
    section, as the scenario with the testes section alone, nothing of this
    comes about: the cards and both charts throw a TypeError before anything
    is shown. *)
Theorem numeric_score_and_coverage :
  ((forall n : float, getNumericScore (VNumber n) = VNumber n)
   /\ getNumericScore (VString "Alto") = VNumber 85
   /\ getNumericScore (VString "Médio") = VNumber 65
   /\ getNumericScore (VString "Baixo") = VNumber 40
   /\ (forall v : value,
       typeof_number v = false ->
       v <> VString "Alto" -> v <> VString "Médio" -> v <> VString "Baixo" ->
       getNumericScore v = VNumber 0))
  /\ (forall results : value,
      has_section results "seguranca" = true ->
      has_section results "desempenho" = true ->
      has_section results "confiabilidade" = true ->
      has_section results "testes" = true ->
      displayQualityChart results =
        (Ok tt,
         [NewChart "qualityChart" "radar"
            ["Segurança"; "Desempenho"; "Confiabilidade"; "Testes"]
            [getNumericScore (field results "seguranca" "nivel_risco");
             getNumericScore (field results "desempenho" "score_performance");
             getNumericScore (field results "confiabilidade" "nivel_confiabilidade");
             if truthy (field results "testes" "cobertura_estimada")
             then field results "testes" "cobertura_estimada"
             else VNumber 0]])
      /\ (field results "testes" "cobertura_estimada" = VNumber 75 ->
          exists seguranca desempenho confiabilidade : value,
            displayQualityChart results =
              (Ok tt,
               [NewChart "qualityChart" "radar"
                  ["Segurança"; "Desempenho"; "Confiabilidade"; "Testes"]
                  [seguranca; desempenho; confiabilidade; VNumber 75]]))
      /\ (field results "testes" "cobertura_estimada" = VUndefined ->
          exists seguranca desempenho confiabilidade : value,
            displayQualityChart results =
              (Ok tt,
               [NewChart "qualityChart" "radar"
                  ["Segurança"; "Desempenho"; "Confiabilidade"; "Testes"]
                  [seguranca; desempenho; confiabilidade; VNumber 0]]))
      /\ (field results "testes" "cobertura_estimada" = VNumber 75 ->
          Number_toString 75 = "75" ->
          (forall name : string, scalar (field results "seguranca" name) = true) ->
          (forall name : string, scalar (field results "desempenho" name) = true) ->
          (forall name : string, scalar (field results "confiabilidade" name) = true) ->
          (forall name : string, scalar (field results "testes" name) = true) ->
          fst (displayMetrics results) = Ok tt
          /\ In (SetTextContent "testingScore" "75%") (snd (displayMetrics results))))
  /\ (forall results : value,
      has_section results "seguranca" = false ->
      displayMetrics results = (Throw TypeError, [])
      /\ displayQualityChart results = (Throw TypeError, [])).
Proof.
  split; [| split].
  - repeat split.
    intros v Hn HA HM HB. unfold getNumericScore. rewrite Hn.
    destruct v as [| | b | n | s | l | o]; try reflexivity.
    simpl.
    destruct (String.eqb_spec s "Alto") as [-> | _]; [now elim HA |].
    destruct (String.eqb_spec s "Médio") as [-> | _]; [now elim HM |].
    destruct (String.eqb_spec s "Baixo") as [-> | _]; [now elim HB |].
    reflexivity.
  - intros results Ss Sd Sc St.
    destruct (extracted _ _ Ss) as (Ha & seguranca & Hs & Fs).
    destruct (extracted _ _ Sd) as (_ & desempenho & Hd & Fd).
    destruct (extracted _ _ Sc) as (_ & confiabilidade & Hc & Fc).
    destruct (extracted _ _ St) as (_ & testes & Ht & Ft).
    assert (Echart : displayQualityChart results =
                     (Ok tt,
                      [NewChart "qualityChart" "radar"
                         ["Segurança"; "Desempenho"; "Confiabilidade"; "Testes"]
                         [getNumericScore (field results "seguranca" "nivel_risco");
                          getNumericScore (field results "desempenho" "score_performance");
                          getNumericScore
                            (field results "confiabilidade" "nivel_confiabilidade");
                          if truthy (field results "testes" "cobertura_estimada")
                          then field results "testes" "cobertura_estimada"
                          else VNumber 0]])).
    { unfold displayQualityChart.
      rewrite Ha, bind_lift_Ok, Hs, bind_lift_Ok, Hd, bind_lift_Ok, Hc, bind_lift_Ok,
        Ht, bind_lift_Ok.
      now rewrite Fs, Fd, Fc, Ft. }
    split; [exact Echart | split; [| split]].
    + intros Hcov. rewrite Echart, Hcov. now eexists _, _, _.
    + intros Hcov. rewrite Echart, Hcov. now eexists _, _, _.
    + intros Hcov Hp Bs Bd Bc Bt.
      assert (Ss' : scalar_bundle seguranca) by (intros k; rewrite Fs; apply Bs).
      assert (Sd' : scalar_bundle desempenho) by (intros k; rewrite Fd; apply Bd).
      assert (Sc' : scalar_bundle confiabilidade) by (intros k; rewrite Fc; apply Bc).
      assert (St' : scalar_bundle testes) by (intros k; rewrite Ft; apply Bt).
      destruct (displayMetrics_cards _ _ _ _ _ _ Ha Hs Hd Hc Ht Ss' Sd' Sc' St')
        as (security & performance & reliability & testing & _ & _ & _ & Etesting & E).
      rewrite E. split; [reflexivity |].
      cbn [snd]. apply in_or_app. right. apply in_or_app. right. apply in_or_app. right.
      unfold testingData in Etesting. rewrite Ft, Hcov in Etesting.
      change (or_else (VNumber 75) (VNumber 0)) with (VNumber 75) in Etesting.
      rewrite (js_add_text (VNumber 75) "%" eq_refl) in Etesting.
      unfold text_of in Etesting. cbn [ToString] in Etesting. rewrite Hp in Etesting.
      cbn [rbind] in Etesting. injection Etesting as <-.
      apply snd_bind_incl. now left.
  - intros results Ss.
    destruct (not_extracted _ _ Ss) as [Ha | (analises & Ha & Hs)].
    + unfold displayMetrics, displayQualityChart. now rewrite Ha.
    + unfold displayMetrics, displayQualityChart.
      now rewrite Ha, !bind_lift_Ok, Hs.
Qed.

(** ** The security letter *)


(** ** Recommendations *)

Lemma trim_all_strings (l : list string) :
  trim_all (map VString l) = Ok (map trim l).
Proof.
  induction l as [| s l IH]; [reflexivity |].
  cbn [map trim_all trim_method rbind]. now rewrite IH.
Qed.


(** The card of a category whose section and [dados_completos] are there
    lists the items of [recomendacoes || []], and there is no card when
    there is no item. *)
Lemma recommendationCard_items (analises section : value) (category title : string) :
  get analises category = Ok section ->
  nullish section = false ->
  nullish (prop section "dados_completos") = false ->
  recommendationCard analises (category, title) =
    match recommendationItems
            (or_else (prop (prop section "dados_completos") "recomendacoes") (VArray [])) with
    | Ok [] => Ok []
    | Ok items => Ok [{| card_category := category;
                         card_icon := getIconForCategory category;
                         card_title := title;
                         card_items := items |}]
    | Throw e => Throw e
    end.
Proof.
  intros Hg Hs Hd. unfold recommendationCard, recomendacoes. cbn [fst snd].
  rewrite Hg. cbn [rbind]. unfold opt_get. rewrite Hs.
  rewrite (get_defined _ _ Hd). cbn [rbind].
  set (r := or_else _ _). unfold recommendationItems.
  destruct (recommendationList r) as [| x rest]; [reflexivity |].
  cbn [trim_all]. destruct (trim_method x) as [item | e]; [| reflexivity].
  cbn [rbind]. destruct (trim_all rest) as [items | e]; reflexivity.
Qed.


(** *** Trimming twice *)

Lemma trimStart_strip1 (s : string) :
  trimStart s = match strip1 s with
                | Some r => trimStart r
                | None => s
                end.
Proof.
  destruct s as [| c1 [| c2 [| c3 r3]]]; cbn [trimStart strip1]; try reflexivity.
  - now destruct (ws1 c1).
  - destruct (ws1 c1); [reflexivity |]. now destruct (ws2 c1 c2).
  - destruct (ws1 c1); [reflexivity |]. destruct (ws2 c1 c2); [reflexivity |].
    now destruct (ws3 c1 c2 c3).
Qed.

Lemma strip1_shorter (s r : string) : strip1 s = Some r -> length r < length s.
Proof.
  destruct s as [| c1 [| c2 [| c3 r3]]]; cbn [strip1]; try discriminate.
  - destruct (ws1 c1); [| discriminate]. intros H. inversion H. cbn. lia.
  - destruct (ws1 c1); [intros H; inversion H; cbn; lia |].
    destruct (ws2 c1 c2); [| discriminate]. intros H. inversion H. cbn. lia.
  - destruct (ws1 c1); [intros H; inversion H; cbn; lia |].
    destruct (ws2 c1 c2); [intros H; inversion H; cbn; lia |].
    destruct (ws3 c1 c2 c3); [| discriminate]. intros H. inversion H. cbn. lia.
Qed.

Lemma strip1_append (a r b : string) :
  strip1 a = Some r -> strip1 (a ++ b)%string = Some (r ++ b)%string.
Proof.
  destruct a as [| c1 [| c2 [| c3 r3]]]; cbn [strip1 append]; try discriminate.
  - destruct (ws1 c1); [| discriminate]. intros H. now inversion H.
  - destruct (ws1 c1); [intros H; now inversion H |].
    destruct (ws2 c1 c2); [| discriminate]. intros H. now inversion H.
  - destruct (ws1 c1); [intros H; now inversion H |].
    destruct (ws2 c1 c2); [intros H; now inversion H |].
    destruct (ws3 c1 c2 c3); [| discriminate]. intros H. now inversion H.
Qed.

Lemma string_length_induction (P : string -> Prop) :
  (forall s, (forall r, length r < length s -> P r) -> P s) -> forall s, P s.
Proof.
  intros step s. remember (length s) as n eqn:En.
  revert s En. induction n as [n IH] using lt_wf_ind.
  intros s ->. apply step. intros r Hr. now apply (IH (length r)).
Qed.

Lemma trimStart_length (s : string) : length (trimStart s) <= length s.
Proof.
  induction s as [s IH] using string_length_induction.
  rewrite trimStart_strip1. destruct (strip1 s) as [r |] eqn:E; [| lia].
  pose proof (strip1_shorter _ _ E). specialize (IH r H). lia.
Qed.

Lemma trimStart_fixed (s : string) : trimStart s = s -> s = "" \/ strip1 s = None.
Proof.
  intros H. destruct (strip1 s) as [r |] eqn:E; [| now right].
  rewrite trimStart_strip1, E in H.
  pose proof (strip1_shorter _ _ E). pose proof (trimStart_length r).
  rewrite H in H1. lia.
Qed.

Lemma trimStart_idempotent (s : string) : trimStart (trimStart s) = trimStart s.
Proof.
  induction s as [s IH] using string_length_induction.
  rewrite (trimStart_strip1 s). destruct (strip1 s) as [r |] eqn:E.
  - apply IH. now apply strip1_shorter.
  - rewrite trimStart_strip1, E. reflexivity.
Qed.

Lemma trimEnd_cons (c : ascii) (r : string) :
  trimEnd (String c r) = if blank (String c r) then "" else String c (trimEnd r).
Proof. reflexivity. Qed.

Lemma blank_append (a b : string) :
  blank a = true -> blank b = true -> blank (a ++ b)%string = true.
Proof.
  unfold blank. induction a as [a IH] using string_length_induction.
  intros Ha Hb. destruct (strip1 a) as [r |] eqn:E.
  - rewrite trimStart_strip1, (strip1_append _ _ b E).
    rewrite trimStart_strip1, E in Ha.
    apply IH; [now apply strip1_shorter | exact Ha | exact Hb].
  - rewrite trimStart_strip1, E in Ha. apply String.eqb_eq in Ha. subst a. exact Hb.
Qed.

Lemma trimEnd_tail (s : string) :
  exists tail : string, s = (trimEnd s ++ tail)%string /\ blank tail = true.
Proof.
  induction s as [| c r IH].
  - now exists "".
  - rewrite trimEnd_cons. destruct (blank (String c r)) eqn:E.
    + now exists (String c r).
    + destruct IH as (tail & Hr & Ht). exists tail. split; [| exact Ht].
      cbn [append]. now rewrite <- Hr.
Qed.

Lemma trimEnd_idempotent (s : string) : trimEnd (trimEnd s) = trimEnd s.
Proof.
  induction s as [| c r IH]; [reflexivity |].
  rewrite trimEnd_cons. destruct (blank (String c r)) eqn:E; [reflexivity |].
  rewrite trimEnd_cons. destruct (blank (String c (trimEnd r))) eqn:E'.
  - destruct (trimEnd_tail r) as (tail & Hr & Ht).
    pose proof (blank_append _ _ E' Ht) as H. cbn [append] in H.
    rewrite <- Hr, E in H. discriminate.
  - now rewrite IH.
Qed.

Lemma trimEnd_keeps_start (s : string) : strip1 s = None -> strip1 (trimEnd s) = None.
Proof.
  destruct s as [| c1 r1]; [reflexivity |].
  rewrite trimEnd_cons. destruct (blank (String c1 r1)); [reflexivity |].
  cbn [strip1]. destruct (ws1 c1); [discriminate |].
  destruct r1 as [| c2 r2]; [reflexivity |].
  rewrite trimEnd_cons. destruct (blank (String c2 r2)); [reflexivity |].
  destruct (ws2 c1 c2); [discriminate |].
  destruct r2 as [| c3 r3]; [reflexivity |].
  rewrite trimEnd_cons. destruct (blank (String c3 r3)); [reflexivity |].
  now destruct (ws3 c1 c2 c3).
Qed.

Lemma trim_idempotent (s : string) : trim (trim s) = trim s.
Proof.
  unfold trim.
  assert (H : trimStart (trimEnd (trimStart s)) = trimEnd (trimStart s)).
  { destruct (trimStart_fixed _ (trimStart_idempotent s)) as [-> | Hn]; [reflexivity |].
    rewrite trimStart_strip1. now rewrite (trimEnd_keeps_start _ Hn). }
  rewrite H. apply trimEnd_idempotent.
Qed.

Lemma trim_all_trimmed (values : list value) (items : list string) :
  trim_all values = Ok items -> Forall (fun item => trim item = item) items.
Proof.
  revert items. induction values as [| v rest IH]; intros items H.
  - inversion H. constructor.
  - cbn [trim_all] in H. destruct v; try discriminate.
    cbn [trim_method rbind] in H.
    destruct (trim_all rest) as [tail |] eqn:E; [| discriminate].
    cbn [rbind] in H. inversion H. constructor; [apply trim_idempotent | now apply IH].
Qed.

(** Listing the listed items again changes nothing. *)
Theorem recommendation_items_idempotent (v : value) (items : list string) :
  recommendationItems (or_else v (VArray [])) = Ok items ->
  recommendationItems (or_else (VArray (map VString items)) (VArray [])) = Ok items.
Proof.
  intros H. apply trim_all_trimmed in H.
  unfold or_else. cbn [truthy]. unfold recommendationItems. cbn [recommendationList].
  rewrite trim_all_strings. f_equal.
  induction H as [| item rest Hitem _ IH]; [reflexivity |].
  cbn [map]. now rewrite Hitem, IH.
Qed.

(** ** Importing a file *)

(** C10.  A file whose type does not contain json and whose name does not
    end in .json is refused with the alert alone: whatever it holds, nothing
    is read, parsed or shown, and the current results stay. *)
Theorem non_json_file_refused (file : File) (st : Page) :
  includes "json" (file_type file) = false ->
  endsWith ".json" (file_name file) = false ->
  handleFile file st = write st [Alert msg_select_json]
  /\ currentResults (handleFile file st) = currentResults st
  /\ page_log (handleFile file st) = page_log st ++ [Alert msg_select_json].
Proof.
  intros Ht Hn. unfold handleFile. rewrite Ht, Hn. now repeat split.
Qed.

(** ** Validation *)

Lemma quiet_lift {A : Type} (r : result A) : quiet (lift r).
Proof. constructor. Qed.

Lemma quiet_emit (e : effect) : is_alert e = false -> quiet (emit e).
Proof. intros H. constructor; [exact H | constructor]. Qed.

Lemma quiet_bind {A B : Type} (m : M A) (k : A -> M B) :
  quiet m -> (forall a, quiet (k a)) -> quiet (bind m k).
Proof.
  unfold quiet. destruct m as [[a | e] w]; simpl; intros Hm Hk; [| exact Hm].
  specialize (Hk a). destruct (k a) as [r w']. simpl in *.
  apply Forall_app. now split.
Qed.

Ltac quiet_steps :=
  repeat first
    [ apply quiet_lift
    | apply quiet_emit; reflexivity
    | apply quiet_bind; [| intros ] ].

Lemma quiet_updateMetricCard (type : string) (data : value) :
  quiet (updateMetricCard type data).
Proof.
  unfold updateMetricCard, setTextContent.
  destruct (type =? "security"); [quiet_steps |].
  destruct (type =? "performance"); [quiet_steps |].
  destruct (type =? "reliability"); [quiet_steps |].
  destruct (type =? "testing"); [quiet_steps |].
  constructor.
Qed.

Lemma quiet_displayResults (results : value) : quiet (displayResults results).
Proof.
  unfold displayResults, displayRepoInfo, displayMetrics, displayCharts,
    displayProblemsChart, displayQualityChart, displayRecommendations,
    displayTechnicalDetails, detailsOf.
  cbv zeta.
  repeat first
    [ apply quiet_updateMetricCard
    | apply quiet_lift
    | apply quiet_emit; reflexivity
    | apply quiet_bind; [| intros ] ].
Qed.

(** C3, as the code has it.  Of a file that passes the file gate and holds
    a JSON value other than null: it is refused as no valid analysis exactly
    when analises or repositorio_url is falsy (missing, null, false, 0 or
    empty), and then nothing is shown and the current results stay; when
    both are truthy the value becomes the current results and goes on to
    be displayed, whatever its status says. *)
Theorem validation_by_truthiness (file : File) (st : Page) (j : json) :
  includes "json" (file_type file) || endsWith ".json" (file_name file) = true ->
  file_text file = JSONText j ->
  nullish (value_of_json j) = false ->
  let jsonData := value_of_json j in
  let present :=
    truthy (prop jsonData "analises") && truthy (prop jsonData "repositorio_url") in
  missingSections jsonData = Ok (negb present)
  /\ (present = false ->
      handleFile file st =
      write st [ReadAsText (file_name file); Alert msg_invalid_analysis])
  /\ (present = true ->
      currentResults (handleFile file st) = jsonData
      /\ exists w : list effect,
          page_log (handleFile file st) =
          page_log st ++ ReadAsText (file_name file) :: snd (displayResults jsonData) ++ w
          /\ ~ In (Alert msg_invalid_analysis) (snd (displayResults jsonData) ++ w)).
Proof.
  intros Hgate Htext Hnull jsonData present.
  assert (Hmissing : missingSections jsonData = Ok (negb present)).
  { unfold missingSections, present, jsonData.
    rewrite !(get_defined _ _ Hnull). cbn [rbind].
    destruct (truthy (prop (value_of_json j) "analises")); reflexivity. }
  assert (Hfile : handleFile file st =
                  onload (JSONText j) (write st [ReadAsText (file_name file)])).
  { unfold handleFile. rewrite Htext.
    destruct (includes "json" (file_type file)); [reflexivity |].
    cbn [orb] in Hgate. now rewrite Hgate. }
  split; [exact Hmissing | split].
  - intros Hp. rewrite Hfile. unfold onload. cbn [JSON_parse rbind].
    fold jsonData. rewrite Hmissing, Hp. cbn [rbind negb].
    unfold write. cbn [currentResults page_log]. now rewrite <- app_assoc.
  - intros Hp. rewrite Hfile. unfold onload. cbn [JSON_parse rbind].
    fold jsonData. rewrite Hmissing, Hp. cbn [rbind negb].
    pose proof (quiet_displayResults jsonData) as Hq. unfold quiet in Hq.
    destruct (displayResults jsonData) as [[[] | e] w]; cbn [snd] in *.
    + split; [reflexivity |]. exists []. cbn [currentResults page_log write].
      rewrite app_nil_r, <- app_assoc. split; [reflexivity |].
      intros Hin. rewrite Forall_forall in Hq. now specialize (Hq _ Hin).
    + split; [reflexivity |]. exists [Alert msg_process_error].
      cbn [currentResults page_log write].
      rewrite <- !app_assoc. split; [reflexivity |].
      intros Hin. apply in_app_or in Hin. destruct Hin as [Hin | [Hin | []]].
      * rewrite Forall_forall in Hq. now specialize (Hq _ Hin).
      * discriminate Hin.
Qed.

(** ** Export and import *)

Lemma stringify_parse (v : value) :
  json_exact v -> exists j : json, JSON_stringify v = Some j /\ value_of_json j = v.
Proof.
  induction v as [| | b | n | s | items IH | props IH] using value_nested_ind;
    intros E; inversion E; subst.
  - now exists JNull.
  - now exists (JBool b).
  - now exists (JNumber 0).
  - exists (JNumber n). cbn [JSON_stringify].
    match goal with Hz : PrimFloat.is_zero n = false, Hf : PrimFloat.is_finite n = true |- _ =>
      rewrite Hz, Hf end.
    now split.
  - now exists (JString s).
  - exists (JArray (map (fun x => match JSON_stringify x with
                                  | Some j => j
                                  | None => JNull
                                  end) items)).
    split; [reflexivity |]. cbn [value_of_json]. f_equal.
    match goal with H : Forall json_exact items |- _ => rename H into Hall end.
    induction items as [| x rest IHrest]; [reflexivity |].
    inversion IH as [| ? ? IHx IHtail]; subst.
    inversion Hall as [| ? ? Hx Htail]; subst.
    destruct (IHx Hx) as (jx & Ex & Vx).
    cbn [map]. rewrite Ex, Vx. f_equal.
    apply IHrest; [exact IHtail | now constructor | exact Htail].
  - exists (JObject (flat_map (fun p => match JSON_stringify (snd p) with
                                        | Some j => [(fst p, j)]
                                        | None => []
                                        end) props)).
    split; [reflexivity |]. cbn [value_of_json]. f_equal.
    match goal with H : Forall _ props |- _ => rename H into Hall end.
    clear E.
    induction props as [| [k x] rest IHrest]; [reflexivity |].
    inversion IH as [| ? ? IHx IHtail]; subst.
    inversion Hall as [| ? ? Hx Htail]; subst.
    cbn [snd] in IHx, Hx.
    destruct (IHx Hx) as (jx & Ex & Vx).
    cbn [flat_map snd fst]. rewrite Ex. cbn [app map fst snd]. rewrite Vx. f_equal.
    apply IHrest; [exact IHtail | exact Htail].
Qed.

Lemma endsWith_self (suffix : string) : endsWith suffix suffix = true.
Proof. destruct suffix; cbn [endsWith]; now rewrite String.eqb_refl. Qed.

Lemma endsWith_append (suffix before s : string) :
  endsWith suffix s = true -> endsWith suffix (before ++ s)%string = true.
Proof.
  intros H. induction before as [| c before IH]; [exact H |].
  cbn [append endsWith]. rewrite IH. apply orb_true_r.
Qed.

Lemma validated_truthy (jsonData : value) :
  missingSections jsonData = Ok false -> truthy jsonData = true.
Proof.
  unfold missingSections, get.
  destruct jsonData as [| | b | n | s | l | o]; try discriminate; reflexivity.
Qed.

(** C9, as the code has it.  For current results that passed validation and
    hold only values a JSON text writes exactly, the download is named
    analise-qualidade-<now>.json, a name that passes the file gate under any
    type, and a file with the downloaded text that passes the gate, imported
    into any page, makes the same value the current results. *)
Theorem export_then_import (now : float) (st : Page) :
  missingSections (currentResults st) = Ok false ->
  json_exact (currentResults st) ->
  exists content : text,
    downloadReport now st = write st [Download (downloadName now) content]
    /\ endsWith ".json" (downloadName now) = true
    /\ forall (file : File) (st' : Page),
        file_text file = content ->
        includes "json" (file_type file) || endsWith ".json" (file_name file) = true ->
        currentResults (handleFile file st') = currentResults st.
Proof.
  intros Hvalid Hexact.
  destruct (stringify_parse _ Hexact) as (j & Ej & Vj).
  exists (JSONText j). split; [| split].
  - unfold downloadReport. rewrite (validated_truthy _ Hvalid), Ej. reflexivity.
  - unfold downloadName. apply endsWith_append, endsWith_append, endsWith_self.
  - intros file st' Htext Hgate. unfold handleFile. rewrite Htext.
    replace (negb (includes "json" (file_type file))
             && negb (endsWith ".json" (file_name file))) with false
      by (now rewrite <- negb_orb, Hgate).
    unfold onload. cbn [JSON_parse rbind]. rewrite Vj, Hvalid. cbn [rbind].
    destruct (displayResults (currentResults st)) as [[u | e] w]; reflexivity.
Qed.

(** ** A payload that is displayed in full *)

Lemma scalar_values_bundle (props : list (string * value)) :
  forallb (fun p => scalar (snd p)) props = true -> scalar_bundle (VObject props).
Proof.
  intros H k. cbn [prop].
  induction props as [| [k' v] rest IH]; [reflexivity |].
  cbn [forallb snd] in H. apply andb_prop in H. destruct H as [Hv Hrest].
  cbn [lookup]. destruct (k' =? k); [exact Hv | now apply IH].
Qed.

Lemma formatAll_scalars (values : list value) :
  forallb scalar values = true -> formatAll values = Ok tt.
Proof.
  induction values as [| v rest IH]; [reflexivity |].
  cbn [forallb]. intros H. apply andb_prop in H. destruct H as [Hv Hrest].
  cbn [formatAll]. rewrite (ToString_scalar _ Hv). cbn [rbind]. now apply IH.
Qed.

Lemma detailValues_scalars (props : list (string * value)) :
  forallb (fun p => scalar (snd p)) props = true ->
  forallb scalar (detailValues (VObject props)) = true.
Proof.
  cbn [detailValues]. induction props as [| [k v] rest IH]; [reflexivity |].
  cbn [forallb snd]. intros H. apply andb_prop in H. destruct H as [Hv Hrest].
  cbn [filter fst]. destruct (negb (k =? "recomendacoes")); cbn [map forallb snd].
  - rewrite Hv. now apply IH.
  - now apply IH.
Qed.

Lemma js_add_scalars (a b : value) :
  scalar a = true -> scalar b = true -> exists v : value, js_add a b = Ok v.
Proof.
  intros Ha Hb. unfold js_add.
  assert (Pa : ToPrimitive a = Ok a) by (destruct a; try reflexivity; discriminate).
  assert (Pb : ToPrimitive b = Ok b) by (destruct b; try reflexivity; discriminate).
  rewrite Pa, Pb. cbn [rbind].
  destruct (typeof_string a || typeof_string b); [| now eexists].
  rewrite (ToString_scalar _ Ha), (ToString_scalar _ Hb). now eexists.
Qed.

Lemma recommendationItems_Ok (r : value) :
  isArray r = false \/ (exists l : list string, r = VArray (map VString l)) ->
  exists items : list string, recommendationItems (or_else r (VArray [])) = Ok items.
Proof.
  intros [Hr | (l & ->)].
  - unfold or_else. destruct (truthy r); [| now exists []].
    destruct r as [| | b | n | s | l | o]; try discriminate; try (now exists []).
    unfold recommendationItems. cbn [recommendationList].
    rewrite trim_all_strings. now eexists.
  - unfold or_else. cbn [truthy]. unfold recommendationItems. cbn [recommendationList].
    rewrite trim_all_strings. now eexists.
Qed.

Lemma displayable_metricas (analises : value) (category : string) :
  displayable_section (prop analises category) ->
  nullish analises = false ->
  exists m : value, metricas analises category = Ok m /\ scalar_bundle m.
Proof.
  intros (Hsec & (metrics & Em & Hscalars) & _ & _) Ha.
  exists (VObject metrics). unfold metricas.
  rewrite (get_defined _ _ Ha). cbn [rbind].
  rewrite (get_defined _ _ Hsec). cbn [rbind]. rewrite Em.
  split; [reflexivity | now apply scalar_values_bundle].
Qed.

Lemma displayable_card (analises : value) (category title : string) :
  displayable_section (prop analises category) ->
  nullish analises = false ->
  exists card, recommendationCard analises (category, title) = Ok card.
Proof.
  intros (Hsec & _ & Hdados & Hrec) Ha.
  rewrite (recommendationCard_items analises (prop analises category) category title
             (get_defined _ _ Ha) Hsec Hdados).
  destruct (recommendationItems_Ok _ Hrec) as (items & ->).
  destruct items; now eexists.
Qed.

Lemma displayable_details (analises : value) (category id : string) :
  displayable_section (prop analises category) ->
  nullish analises = false ->
  fst (detailsOf analises category id) = Ok tt.
Proof.
  intros (Hsec & (metrics & Em & Hscalars) & _ & _) Ha. unfold detailsOf.
  rewrite (get_defined _ _ Ha), bind_lift_Ok.
  rewrite (get_defined _ _ Hsec), bind_lift_Ok, Em.
  unfold createDetailsHTML. cbn [nullish].
  rewrite (formatAll_scalars _ (detailValues_scalars _ Hscalars)). reflexivity.
Qed.

(** A payload with a string for its URL, scalars for its other top-level
    fields and four displayable sections is displayed without a throw. *)
Theorem display_succeeds (results : value) (repositorio_url : string) :
  prop results "repositorio_url" = VString repositorio_url ->
  scalar (prop results "timestamp") = true ->
  scalar (prop results "modelo_usado") = true ->
  scalar (prop results "tempo_execucao") = true ->
  scalar (prop results "status") = true ->
  displayable_section (prop (prop results "analises") "seguranca") ->
  displayable_section (prop (prop results "analises") "desempenho") ->
  displayable_section (prop (prop results "analises") "confiabilidade") ->
  displayable_section (prop (prop results "analises") "testes") ->
  fst (displayResults results) = Ok tt.
Proof.
  intros Hurl Hts Hmodel Htempo Hstatus Ds Dd Dc Dt.
  assert (Hres : nullish results = false).
  { destruct results; try reflexivity; discriminate. }
  assert (Han : truthy (prop results "analises") = true).
  { destruct Ds as (Hsec & _). destruct (prop results "analises"); try reflexivity;
      discriminate. }
  pose proof (truthy_not_nullish _ Han) as Hnn.
  assert (Ea : analises_or_empty results = Ok (prop results "analises")).
  { unfold analises_or_empty. rewrite (get_defined _ _ Hres). cbn [rbind].
    unfold or_else. now rewrite Han. }
  destruct (displayable_metricas _ _ Ds Hnn) as (sm & Es & Bs).
  destruct (displayable_metricas _ _ Dd Hnn) as (dm & Ed & Bd).
  destruct (displayable_metricas _ _ Dc Hnn) as (cm & Ec & Bc).
  destruct (displayable_metricas _ _ Dt Hnn) as (tm & Et & Bt).
  assert (Hrepo : fst (displayRepoInfo results) = Ok tt).
  { unfold displayRepoInfo.
    rewrite (get_defined _ _ Hres), bind_lift_Ok, Hurl. cbn [extractRepoName].
    rewrite bind_lift_Ok.
    assert (Pts : ToPrimitive (prop results "timestamp") = Ok (prop results "timestamp")).
    { destruct (prop results "timestamp"); try reflexivity; discriminate. }
    rewrite Pts, bind_lift_Ok. cbv zeta.
    set (modelUsed := or_else (prop results "modelo_usado") (VString "N/A")).
    assert (Hm : scalar modelUsed = true) by now apply or_else_scalar.
    assert (Hd : scalar (if strict_eq_string modelUsed "gemini"
                         then VString "Google Gemini 2.0 Flash"
                         else if strict_eq_string modelUsed "gpt4-mini"
                              then VString "OpenAI GPT-4 Mini" else modelUsed) = true).
    { destruct (strict_eq_string modelUsed "gemini"); [reflexivity |].
      now destruct (strict_eq_string modelUsed "gpt4-mini"). }
    rewrite (ToString_scalar _ Hd), bind_lift_Ok.
    rewrite (ToString_scalar _ Htempo), bind_lift_Ok.
    rewrite (ToString_scalar _ Hstatus), bind_lift_Ok. reflexivity. }
  assert (Hmetrics : fst (displayMetrics results) = Ok tt).
  { destruct (displayMetrics_cards _ _ _ _ _ _ Ea Es Ed Ec Et Bs Bd Bc Bt)
      as (? & ? & ? & ? & _ & _ & _ & _ & E).
    now rewrite E. }
  assert (Hcharts : fst (displayCharts results) = Ok tt).
  { unfold displayCharts.
    assert (Hp : fst (displayProblemsChart results) = Ok tt).
    { unfold displayProblemsChart.
      rewrite Ea, bind_lift_Ok, Es, bind_lift_Ok, Ed, bind_lift_Ok, Ec, bind_lift_Ok,
        Et, bind_lift_Ok. cbv zeta.
      destruct (js_add_scalars _ _
                  (or_else_scalar _ (VNumber 0) (Bs "vulnerabilidades_encontradas") eq_refl)
                  (or_else_scalar _ (VNumber 0) (Bs "funcoes_sem_tratamento") eq_refl))
        as (v1 & ->).
      destruct (js_add_scalars _ _
                  (or_else_scalar _ (VNumber 0) (Bd "estruturas_ineficientes") eq_refl)
                  (or_else_scalar _ (VNumber 0) (Bd "funcoes_longas") eq_refl))
        as (v2 & ->).
      destruct (js_add_scalars _ _
                  (or_else_scalar _ (VNumber 0) (Bc "problemas_tratamento_erros") eq_refl)
                  (or_else_scalar _ (VNumber 0) (Bc "violacoes_padroes") eq_refl))
        as (v3 & ->).
      now rewrite !bind_lift_Ok. }
    rewrite (fst_bind_Ok _ _ tt Hp).
    destruct (quality_radar_values _ _ _ _ _ _ Ea Es Ed Ec Et) as [E _]. now rewrite E. }
  assert (Hrecs : fst (displayRecommendations results) = Ok tt).
  { unfold displayRecommendations. rewrite (get_defined _ _ Hres), bind_lift_Ok.
    unfold recommendationCards, categories.
    destruct (displayable_card _ _ "Segurança" Ds Hnn) as (c1 & ->).
    destruct (displayable_card _ _ "Desempenho" Dd Hnn) as (c2 & ->).
    destruct (displayable_card _ _ "Confiabilidade" Dc Hnn) as (c3 & ->).
    destruct (displayable_card _ _ "Testes" Dt Hnn) as (c4 & ->).
    cbn [rbind]. now rewrite bind_lift_Ok. }
  assert (Hdetails : fst (displayTechnicalDetails results) = Ok tt).
  { unfold displayTechnicalDetails. rewrite (get_defined _ _ Hres), bind_lift_Ok.
    rewrite (fst_bind_Ok _ _ tt (displayable_details _ _ _ Ds Hnn)).
    rewrite (fst_bind_Ok _ _ tt (displayable_details _ _ _ Dd Hnn)).
    rewrite (fst_bind_Ok _ _ tt (displayable_details _ _ _ Dc Hnn)).
    now apply displayable_details. }
  unfold displayResults.
  rewrite !bind_emit. cbn [fst].
  rewrite (fst_bind_Ok _ _ tt Hrepo), (fst_bind_Ok _ _ tt Hmetrics),
    (fst_bind_Ok _ _ tt Hcharts), (fst_bind_Ok _ _ tt Hrecs).
  exact Hdetails.
Qed.

(** ** Files that are not imported *)

(** A file that passes the gate and holds no JSON text is reported as a
    processing error; nothing is shown and the current results stay. *)
Theorem malformed_file_reports_error (file : File) (st : Page) :
  includes "json" (file_type file) || endsWith ".json" (file_name file) = true ->
  file_text file = NotJSON ->
  handleFile file st = write st [ReadAsText (file_name file); Alert msg_process_error].
Proof.
  intros Hgate Htext. unfold handleFile. rewrite Htext.
  replace (negb (includes "json" (file_type file))
           && negb (endsWith ".json" (file_name file))) with false
    by (now rewrite <- negb_orb, Hgate).
  unfold onload, write. cbn [JSON_parse rbind currentResults page_log].
  now rewrite <- app_assoc.
Qed.

(** ** The keys of the technical details *)

Lemma underscores_lower_word (w : string) :
  lower_word w = true -> underscores_to_spaces w = w.
Proof.
  induction w as [| c w IH]; [reflexivity |].
  unfold lower_word. cbn [all_chars underscores_to_spaces].
  intros H. apply andb_prop in H. destruct H as [Hc Hw].
  rewrite (IH Hw). f_equal.
  destruct (byte_is 95 c) eqn:E; [| reflexivity].
  unfold byte_is in E. apply N.eqb_eq in E.
  unfold is_lower, is_digit in Hc. rewrite E in Hc. discriminate.
Qed.

Lemma underscores_append (a b : string) :
  underscores_to_spaces (a ++ b) = (underscores_to_spaces a ++ underscores_to_spaces b)%string.
Proof.
  induction a as [| c a IH]; [reflexivity |].
  cbn [append underscores_to_spaces]. now rewrite IH.
Qed.

Lemma underscores_concat (ws : list string) :
  Forall (fun w => lower_word w = true) ws ->
  underscores_to_spaces (concat "_" ws) = concat " " ws.
Proof.
  induction 1 as [| w ws Hw Hws IH]; [reflexivity |].
  destruct ws as [| w' ws'].
  - cbn [concat]. now apply underscores_lower_word.
  - change (concat "_" (w :: w' :: ws')) with (w ++ "_" ++ concat "_" (w' :: ws'))%string.
    change (concat " " (w :: w' :: ws')) with (w ++ " " ++ concat " " (w' :: ws'))%string.
    rewrite !underscores_append, IH, (underscores_lower_word _ Hw). reflexivity.
Qed.

Lemma no_camel_weaken (b : bool) (s : string) :
  no_camel_from b s = true -> no_camel_from false s = true.
Proof.
  destruct s as [| c r]; [reflexivity |].
  cbn [no_camel_from andb negb]. intros H.
  apply andb_prop in H. now destruct H.
Qed.

Lemma split_camel_fixed (s : string) :
  no_camel_from false s = true -> split_camel s = s.
Proof.
  induction s as [| c1 r1 IH]; [reflexivity |].
  cbn [no_camel_from andb negb]. intros H.
  destruct r1 as [| c2 r2]; [reflexivity |].
  cbn [split_camel].
  assert (Hpair : is_lower c1 && is_upper c2 = false).
  { cbn [no_camel_from] in H. apply andb_prop in H. destruct H as [Hp _].
    now apply negb_true_iff in Hp. }
  rewrite Hpair. f_equal. apply IH. now apply (no_camel_weaken (is_lower c1)).
Qed.

Lemma split_camel_no_camel (s : string) (b : bool) :
  b && first_upper s = false -> no_camel_from b (split_camel s) = true.
Proof.
  revert b. induction s as [s IH] using string_length_induction. intros b Hb.
  destruct s as [| c1 [| c2 r2]].
  - reflexivity.
  - cbn [split_camel no_camel_from]. cbn [first_upper] in Hb. now rewrite Hb.
  - cbn [split_camel]. cbn [first_upper] in Hb.
    destruct (is_lower c1 && is_upper c2) eqn:Hpair.
    + apply andb_prop in Hpair. destruct Hpair as [Hl Hu].
      cbn [no_camel_from]. rewrite Hb, Hl, Hu. cbn [negb andb].
      assert (Hlu : is_lower c2 = false).
      { unfold is_lower, is_upper in *. destruct (N.leb_spec 97 (N_of_ascii c2)); [| reflexivity].
        apply andb_prop in Hu. destruct Hu as [_ Hu]. apply N.leb_le in Hu. lia. }
      rewrite Hlu. apply IH; [cbn [length]; lia | reflexivity].
    + cbn [no_camel_from]. rewrite Hb. cbn [negb andb].
      apply (IH (String c2 r2)); [cbn [length]; lia | exact Hpair].
Qed.

Lemma is_word_toUpperCase1 (c : ascii) : is_word (toUpperCase1 c) = is_word c.
Proof.
  unfold toUpperCase1. destruct (is_lower c) eqn:E; [| reflexivity].
  unfold is_word. rewrite E. cbn [orb].
  unfold is_lower in E. apply andb_prop in E. destruct E as [E1 E2].
  apply N.leb_le in E1, E2.
  assert (Hn : (N_of_ascii c - 32 < 256)%N) by lia.
  unfold is_lower, is_upper. rewrite (N_ascii_embedding _ Hn).
  replace (65 <=? N_of_ascii c - 32)%N with true by (symmetry; apply N.leb_le; lia).
  replace (N_of_ascii c - 32 <=? 90)%N with true by (symmetry; apply N.leb_le; lia).
  cbn [andb]. now rewrite orb_true_r.
Qed.

Lemma is_lower_toUpperCase1 (c : ascii) : is_lower (toUpperCase1 c) = false.
Proof.
  unfold toUpperCase1. destruct (is_lower c) eqn:E; [| exact E].
  unfold is_lower in E. apply andb_prop in E. destruct E as [E1 E2].
  apply N.leb_le in E1, E2.
  assert (Hn : (N_of_ascii c - 32 < 256)%N) by lia.
  unfold is_lower. rewrite (N_ascii_embedding _ Hn).
  replace (97 <=? N_of_ascii c - 32)%N with false by (symmetry; apply N.leb_gt; lia).
  reflexivity.
Qed.

Lemma toUpperCase1_idempotent (c : ascii) : toUpperCase1 (toUpperCase1 c) = toUpperCase1 c.
Proof.
  unfold toUpperCase1 at 1. now rewrite is_lower_toUpperCase1.
Qed.

Lemma capitalize_from_idempotent (s : string) (b : bool) :
  capitalize_from b (capitalize_from b s) = capitalize_from b s.
Proof.
  revert b. induction s as [| c r IH]; intros b; [reflexivity |].
  cbn [capitalize_from].
  destruct (negb b && is_word c) eqn:E.
  - rewrite is_word_toUpperCase1, toUpperCase1_idempotent, IH, E. reflexivity.
  - rewrite E, IH. reflexivity.
Qed.

Lemma underscores_none (s : string) : all_chars not_underscore (underscores_to_spaces s) = true.
Proof.
  induction s as [| c r IH]; [reflexivity |].
  cbn [underscores_to_spaces all_chars]. rewrite IH.
  unfold not_underscore. now destruct (byte_is 95 c) eqn:E; [| rewrite E].
Qed.

Lemma underscores_fixed (s : string) :
  all_chars not_underscore s = true -> underscores_to_spaces s = s.
Proof.
  induction s as [| c r IH]; [reflexivity |].
  cbn [all_chars underscores_to_spaces]. intros H.
  apply andb_prop in H. destruct H as [Hc Hr].
  unfold not_underscore in Hc. apply negb_true_iff in Hc. rewrite Hc, (IH Hr). reflexivity.
Qed.

Lemma split_camel_keeps (s : string) :
  all_chars not_underscore s = true -> all_chars not_underscore (split_camel s) = true.
Proof.
  induction s as [s IH] using string_length_induction. intros H.
  destruct s as [| c1 [| c2 r2]]; [reflexivity | exact H |].
  cbn [split_camel]. cbn [all_chars] in H.
  apply andb_prop in H. destruct H as [H1 H].
  pose proof H as H2r. apply andb_prop in H. destruct H as [H2 Hr].
  destruct (is_lower c1 && is_upper c2).
  - cbn [all_chars]. rewrite H1, H2. cbn [andb].
    change (not_underscore " ") with true. cbn [andb].
    apply IH; [cbn [length]; lia | exact Hr].
  - cbn [all_chars]. rewrite H1. cbn [andb].
    apply (IH (String c2 r2)); [cbn [length]; lia | exact H2r].
Qed.

Lemma not_underscore_toUpperCase1 (c : ascii) :
  not_underscore c = true -> not_underscore (toUpperCase1 c) = true.
Proof.
  intros H. unfold toUpperCase1. destruct (is_lower c) eqn:E; [| exact H].
  unfold is_lower in E. apply andb_prop in E. destruct E as [E1 E2].
  apply N.leb_le in E1, E2.
  assert (Hn : (N_of_ascii c - 32 < 256)%N) by lia.
  unfold not_underscore, byte_is. rewrite (N_ascii_embedding _ Hn).
  apply negb_true_iff, N.eqb_neq. lia.
Qed.

Lemma capitalize_from_keeps (s : string) (b : bool) :
  all_chars not_underscore s = true -> all_chars not_underscore (capitalize_from b s) = true.
Proof.
  revert b. induction s as [| c r IH]; intros b H; [reflexivity |].
  cbn [all_chars] in H. apply andb_prop in H. destruct H as [Hc Hr].
  cbn [capitalize_from all_chars]. rewrite (IH _ Hr), andb_true_r.
  destruct (negb b && is_word c); [now apply not_underscore_toUpperCase1 | exact Hc].
Qed.

Lemma is_lower_word (c : ascii) : is_lower c = true -> is_word c = true.
Proof. intros H. unfold is_word. now rewrite H. Qed.

Lemma capitalize_from_no_camel (s : string) (inside after_lower : bool) :
  (after_lower = true -> inside = true) ->
  no_camel_from after_lower s = true ->
  no_camel_from after_lower (capitalize_from inside s) = true.
Proof.
  revert inside after_lower. induction s as [| c r IH]; intros inside after_lower Himp H;
    [reflexivity |].
  cbn [no_camel_from] in H. apply andb_prop in H. destruct H as [Hc Hr].
  cbn [capitalize_from no_camel_from].
  destruct (negb inside && is_word c) eqn:E.
  - apply andb_prop in E. destruct E as [Ei Ew].
    apply negb_true_iff in Ei.
    assert (Ha : after_lower = false).
    { destruct after_lower; [| reflexivity]. rewrite (Himp eq_refl) in Ei. discriminate. }
    rewrite Ha. cbn [andb negb]. rewrite is_lower_toUpperCase1.
    apply IH; [discriminate |]. now apply (no_camel_weaken (is_lower c)).
  - rewrite Hc. cbn [andb]. apply IH; [| exact Hr].
    intros Hl. now apply is_lower_word.
Qed.

Lemma no_underscore_not_included (s : string) :
  all_chars not_underscore s = true -> includes "_" s = false.
Proof.
  induction s as [| c r IH]; [reflexivity |].
  cbn [all_chars]. intros H. apply andb_prop in H. destruct H as [Hc Hr].
  cbn [includes prefix]. rewrite (IH Hr), orb_false_r.
  destruct (ascii_dec "_" c) as [<- | _]; [discriminate Hc | reflexivity].
Qed.

(** The formatted key holds no underscore. *)
Theorem formatDetailKey_no_underscore (key : string) :
  includes "_" (formatDetailKey key) = false.
Proof.
  apply no_underscore_not_included. unfold formatDetailKey.
  apply capitalize_from_keeps, split_camel_keeps, underscores_none.
Qed.

(** Formatting a formatted key changes nothing. *)
Theorem formatDetailKey_idempotent (key : string) :
  formatDetailKey (formatDetailKey key) = formatDetailKey key.
Proof.
  unfold formatDetailKey.
  set (t := split_camel (underscores_to_spaces key)).
  assert (Hu : all_chars not_underscore (capitalize_from false t) = true).
  { apply capitalize_from_keeps, split_camel_keeps, underscores_none. }
  assert (Hc : no_camel_from false (capitalize_from false t) = true).
  { apply capitalize_from_no_camel; [discriminate |].
    now apply split_camel_no_camel. }
  rewrite (underscores_fixed _ Hu), (split_camel_fixed _ Hc).
  apply capitalize_from_idempotent.
Qed.

Lemma lower_word_no_camel (w : string) (b : bool) (rest : string) :
  lower_word w = true ->
  no_camel_from false rest = true ->
  no_camel_from b (w ++ String " " rest) = true.
Proof.
  revert b. induction w as [| c w IH]; intros b Hw Hrest.
  - cbn [append no_camel_from]. change (is_upper " ") with false.
    rewrite andb_false_r. exact Hrest.
  - unfold lower_word in Hw. cbn [all_chars] in Hw.
    apply andb_prop in Hw. destruct Hw as [Hc Hw].
    cbn [append no_camel_from]. rewrite (IH _ Hw Hrest), andb_true_r.
    assert (Hu : is_upper c = false).
    { unfold is_lower, is_digit, is_upper in *.
      destruct (N.leb_spec 65 (N_of_ascii c)); [| reflexivity].
      destruct (N.leb_spec (N_of_ascii c) 90); [| reflexivity].
      apply orb_prop in Hc. destruct Hc as [Hc | Hc];
        apply andb_prop in Hc; destruct Hc as [Hc1 Hc2];
        apply N.leb_le in Hc1, Hc2; lia. }
    rewrite Hu. now rewrite andb_false_r.
Qed.

Lemma lower_word_alone_no_camel (w : string) (b : bool) :
  lower_word w = true -> no_camel_from b w = true.
Proof.
  revert b. induction w as [| c w IH]; intros b Hw; [reflexivity |].
  unfold lower_word in Hw. cbn [all_chars] in Hw.
  apply andb_prop in Hw. destruct Hw as [Hc Hw].
  cbn [no_camel_from]. rewrite (IH _ Hw), andb_true_r.
  assert (Hu : is_upper c = false).
  { unfold is_lower, is_digit, is_upper in *.
    destruct (N.leb_spec 65 (N_of_ascii c)); [| reflexivity].
    destruct (N.leb_spec (N_of_ascii c) 90); [| reflexivity].
    apply orb_prop in Hc. destruct Hc as [Hc | Hc];
      apply andb_prop in Hc; destruct Hc as [Hc1 Hc2];
      apply N.leb_le in Hc1, Hc2; lia. }
  rewrite Hu. now rewrite andb_false_r.
Qed.

Lemma words_no_camel (ws : list string) :
  Forall (fun w => lower_word w = true) ws -> no_camel_from false (concat " " ws) = true.
Proof.
  induction 1 as [| w ws Hw Hws IH]; [reflexivity |].
  destruct ws as [| w' ws'].
  - cbn [concat]. now apply lower_word_alone_no_camel.
  - change (concat " " (w :: w' :: ws')) with (w ++ String " " (concat " " (w' :: ws')))%string.
    now apply lower_word_no_camel.
Qed.

Lemma lower_word_is_word (c : ascii) : is_lower c || is_digit c = true -> is_word c = true.
Proof.
  intros H. unfold is_word. apply orb_prop in H. destruct H as [-> | ->]; [reflexivity |].
  now rewrite !orb_true_r.
Qed.

Lemma capitalize_inside_word (w : string) :
  lower_word w = true -> capitalize_from true w = w.
Proof.
  induction w as [| c w IH]; [reflexivity |].
  unfold lower_word. cbn [all_chars]. intros H.
  apply andb_prop in H. destruct H as [Hc Hw].
  cbn [capitalize_from negb andb]. rewrite (lower_word_is_word _ Hc), (IH Hw). reflexivity.
Qed.

Lemma capitalize_inside_word_then (w rest : string) :
  lower_word w = true ->
  capitalize_from true (w ++ String " " rest) = (w ++ String " " (capitalize_from false rest))%string.
Proof.
  induction w as [| c w IH]; [reflexivity |].
  unfold lower_word. cbn [all_chars]. intros H.
  apply andb_prop in H. destruct H as [Hc Hw].
  cbn [append capitalize_from negb andb]. rewrite (lower_word_is_word _ Hc), (IH Hw).
  reflexivity.
Qed.

Lemma capitalize_word (w : string) :
  lower_word w = true -> capitalize_from false w = capitalize w.
Proof.
  destruct w as [| c w]; [reflexivity |].
  unfold lower_word. cbn [all_chars]. intros H.
  apply andb_prop in H. destruct H as [Hc Hw].
  cbn [capitalize_from capitalize negb andb].
  rewrite (lower_word_is_word _ Hc), (capitalize_inside_word _ Hw). reflexivity.
Qed.

Lemma capitalize_word_then (w rest : string) :
  lower_word w = true ->
  capitalize_from false (w ++ String " " rest) =
    (capitalize w ++ String " " (capitalize_from false rest))%string.
Proof.
  destruct w as [| c w]; [reflexivity |].
  unfold lower_word. cbn [all_chars]. intros H.
  apply andb_prop in H. destruct H as [Hc Hw].
  cbn [append capitalize_from capitalize negb andb].
  rewrite (lower_word_is_word _ Hc), (capitalize_inside_word_then _ _ Hw). reflexivity.
Qed.

Lemma capitalize_words (ws : list string) :
  Forall (fun w => lower_word w = true) ws ->
  capitalize_from false (concat " " ws) = concat " " (map capitalize ws).
Proof.
  induction 1 as [| w ws Hw Hws IH]; [reflexivity |].
  destruct ws as [| w' ws'].
  - cbn [concat map]. now apply capitalize_word.
  - change (concat " " (w :: w' :: ws')) with (w ++ String " " (concat " " (w' :: ws')))%string.
    rewrite (capitalize_word_then _ _ Hw), IH. reflexivity.
Qed.

(** A key in snake case, words of lower-case letters and digits joined by
    underscores, is shown as the words joined by spaces, each with its first
    letter in upper case. *)
Theorem formatDetailKey_snake_case (ws : list string) :
  Forall (fun w => lower_word w = true) ws ->
  formatDetailKey (concat "_" ws) = concat " " (map capitalize ws).
Proof.
  intros H. unfold formatDetailKey.
  rewrite (underscores_concat _ H), (split_camel_fixed _ (words_no_camel _ H)).
  now apply capitalize_words.
Qed.

(** ** The name of the repository *)

Lemma prefix_includes (sub s : string) : prefix sub s = true -> includes sub s = true.
Proof. intros H. destruct s; cbn [includes]; now rewrite H. Qed.

Lemma includes_tail (sub : string) (c : ascii) (s : string) :
  includes sub (String c s) = false -> includes sub s = false.
Proof.
  cbn [includes]. intros H. apply orb_false_iff in H. now destruct H.
Qed.

Lemma matchGithub_none (s : string) :
  includes "github.com/" s = false -> matchGithub s = None.
Proof.
  induction s as [| c s IH]; intros H.
  - reflexivity.
  - assert (Hp : prefix "github.com/" (String c s) = false).
    { destruct (prefix "github.com/" (String c s)) eqn:E; [| reflexivity].
      now rewrite (prefix_includes _ _ E) in H. }
    cbn [matchGithub]. rewrite Hp. apply IH. exact (includes_tail _ _ _ H).
Qed.

Lemma upToSlash_segment (a rest : string) :
  all_chars (fun c => negb (is_slash c)) a = true ->
  upToSlash (a ++ String "/" rest) = a.
Proof.
  induction a as [| c a IH]; [reflexivity |].
  cbn [all_chars]. intros H. apply andb_prop in H. destruct H as [Hc Ha].
  apply negb_true_iff in Hc. cbn [append upToSlash]. rewrite Hc, (IH Ha). reflexivity.
Qed.

Lemma upToSlash_all (a : string) :
  all_chars (fun c => negb (is_slash c)) a = true -> upToSlash a = a.
Proof.
  induction a as [| c a IH]; [reflexivity |].
  cbn [all_chars]. intros H. apply andb_prop in H. destruct H as [Hc Ha].
  apply negb_true_iff in Hc. cbn [upToSlash]. rewrite Hc, (IH Ha). reflexivity.
Qed.

Lemma fromSlash_segment (a rest : string) :
  all_chars (fun c => negb (is_slash c)) a = true ->
  fromSlash (a ++ String "/" rest) = String "/" rest.
Proof.
  induction a as [| c a IH]; [reflexivity |].
  cbn [all_chars]. intros H. apply andb_prop in H. destruct H as [Hc Ha].
  apply negb_true_iff in Hc. cbn [append fromSlash]. rewrite Hc. now apply IH.
Qed.

Lemma segment_inv (s : string) :
  segment s = true ->
  (exists c r, s = String c r) /\ all_chars (fun c => negb (is_slash c)) s = true.
Proof.
  unfold segment. intros H. apply andb_prop in H. destruct H as [Hne Hall].
  split; [| exact Hall]. destruct s as [| c r]; [discriminate | now exists c, r].
Qed.

Lemma ownerAndRepo_segments (owner repo rest : string) :
  segment owner = true -> segment repo = true ->
  rest = "" \/ (exists r, rest = String "/" r) ->
  ownerAndRepo (owner ++ "/" ++ repo ++ rest) = Some (owner ++ "/" ++ repo)%string.
Proof.
  intros Ho Hr Hrest.
  destruct (segment_inv _ Ho) as ((co & ro & Eo) & Ao).
  destruct (segment_inv _ Hr) as ((cr & rr & Er) & Ar).
  unfold ownerAndRepo.
  change (owner ++ "/" ++ repo ++ rest)%string with (owner ++ String "/" (repo ++ rest))%string.
  rewrite (upToSlash_segment _ _ Ao), (fromSlash_segment _ _ Ao).
  assert (Hrepo : upToSlash (repo ++ rest) = repo).
  { destruct Hrest as [-> | (r & ->)].
    - assert (E : (repo ++ "")%string = repo).
      { clear. induction repo as [| c r IH]; [reflexivity |]. cbn [append]. now rewrite IH. }
      rewrite E. now apply upToSlash_all.
    - now apply upToSlash_segment. }
  rewrite Hrepo. subst owner repo. reflexivity.
Qed.

Lemma matchGithub_here (tail name : string) :
  ownerAndRepo tail = Some name ->
  matchGithub ("github.com/" ++ tail) = Some name.
Proof.
  intros H. cbn [append]. cbn.
  replace (prefix "" tail) with true by now destruct tail.
  now rewrite H.
Qed.

(** github.com/ has no border: an occurrence that starts before another one
    ends before it. *)
Lemma prefix_github_overlap (c : ascii) (a tail : string) :
  prefix "github.com/" (String c a ++ "github.com/" ++ tail) = true ->
  prefix "github.com/" (String c a) = true.
Proof.
  cbn [append prefix].
  destruct (ascii_dec "g" c) as [<- | _]; [| intros H; discriminate H].
  do 10 (destruct a as [| c a];
         [cbn; intros H; discriminate H |];
         cbn [append prefix];
         match goal with |- context [ascii_dec ?x c] =>
           destruct (ascii_dec x c) as [<- | _]; [| intros H; discriminate H] end).
  intros _. destruct a; reflexivity.
Qed.

Lemma matchGithub_first (before tail name : string) :
  includes "github.com/" before = false ->
  ownerAndRepo tail = Some name ->
  matchGithub (before ++ "github.com/" ++ tail) = Some name.
Proof.
  intros Hb Ht. induction before as [| c before IH].
  - now apply matchGithub_here.
  - assert (Hp : prefix "github.com/" (String c before ++ "github.com/" ++ tail) = false).
    { destruct (prefix "github.com/" (String c before ++ "github.com/" ++ tail)) eqn:E;
        [| reflexivity].
      apply prefix_github_overlap, prefix_includes in E. now rewrite E in Hb. }
    change (String c before ++ "github.com/" ++ tail)%string
      with (String c (before ++ "github.com/" ++ tail)) in *.
    cbn [matchGithub]. rewrite Hp. apply IH. exact (includes_tail _ _ _ Hb).
Qed.

(** The name of a GitHub URL: what comes before the first github.com/ is
    left out, and so is what follows the repository from the next slash on. *)
Theorem repoName_github (before owner repo rest : string) :
  includes "github.com/" before = false ->
  segment owner = true ->
  segment repo = true ->
  rest = "" \/ (exists r, rest = String "/" r) ->
  repoName (before ++ "github.com/" ++ owner ++ "/" ++ repo ++ rest) =
    (owner ++ "/" ++ repo)%string.
Proof.
  intros Hb Ho Hr Hrest. unfold repoName.
  now rewrite (matchGithub_first _ _ _ Hb (ownerAndRepo_segments _ _ _ Ho Hr Hrest)).
Qed.

Lemma upToSlash_fromSlash (s : string) : (upToSlash s ++ fromSlash s)%string = s.
Proof.
  induction s as [| c s IH]; [reflexivity |].
  cbn [upToSlash fromSlash]. destruct (is_slash c); [reflexivity |].
  cbn [append]. now rewrite IH.
Qed.

Lemma upToSlash_no_slash (s : string) :
  all_chars (fun c => negb (is_slash c)) (upToSlash s) = true.
Proof.
  induction s as [| c s IH]; [reflexivity |].
  cbn [upToSlash]. destruct (is_slash c) eqn:E; [reflexivity |].
  cbn [all_chars]. now rewrite E, IH.
Qed.

Lemma fromSlash_head (s : string) (c : ascii) (rest : string) :
  fromSlash s = String c rest -> c = "/"%char.
Proof.
  induction s as [| c' s IH]; [discriminate |].
  cbn [fromSlash]. destruct (is_slash c') eqn:E; [| exact IH].
  intros H. injection H as -> _.
  unfold is_slash, byte_is in E. apply N.eqb_eq in E.
  rewrite <- (ascii_N_embedding c), E. reflexivity.
Qed.

Lemma ownerAndRepo_inv (s name : string) :
  ownerAndRepo s = Some name ->
  exists owner repo rest : string,
    segment owner = true /\ segment repo = true
    /\ name = (owner ++ "/" ++ repo)%string
    /\ s = (owner ++ "/" ++ repo ++ rest)%string.
Proof.
  unfold ownerAndRepo. intros H.
  pose proof (upToSlash_fromSlash s) as Es.
  pose proof (upToSlash_no_slash s) as Ao.
  destruct (upToSlash s) as [| co ro] eqn:Eo; [discriminate |].
  destruct (fromSlash s) as [| c rest] eqn:Ef; [discriminate |].
  pose proof (fromSlash_head _ _ _ Ef) as ->.
  pose proof (upToSlash_fromSlash rest) as Er.
  pose proof (upToSlash_no_slash rest) as Ar.
  destruct (upToSlash rest) as [| cr rr] eqn:Eq; [discriminate |].
  injection H as <-.
  exists (String co ro), (String cr rr), (fromSlash rest).
  split; [exact Ao | split; [exact Ar | split; [reflexivity |]]].
  rewrite <- Es. cbn [append] in Er |- *. now rewrite Er.
Qed.

Lemma prefix_append (a b : string) : prefix a (a ++ b) = true.
Proof.
  induction a as [| c a IH]; [now destruct b |].
  cbn [append prefix]. destruct (ascii_dec c c) as [_ | N]; [exact IH | now elim N].
Qed.

Lemma prefix_split (a s : string) : prefix a s = true -> exists b, s = (a ++ b)%string.
Proof.
  revert s. induction a as [| c a IH]; intros s H; [now exists s |].
  destruct s as [| c' s]; [discriminate |].
  cbn [prefix] in H. destruct (ascii_dec c c') as [<- | _]; [| discriminate].
  destruct (IH _ H) as (b & ->). now exists b.
Qed.

Lemma append_assoc (a b c : string) : ((a ++ b) ++ c)%string = (a ++ b ++ c)%string.
Proof. induction a as [| x a IH]; [reflexivity |]. cbn [append]. now rewrite IH. Qed.

Lemma matchGithub_inv (s name : string) :
  matchGithub s = Some name ->
  exists owner repo : string,
    segment owner = true /\ segment repo = true
    /\ name = (owner ++ "/" ++ repo)%string
    /\ includes ("github.com/" ++ owner ++ "/" ++ repo) s = true.
Proof.
  induction s as [s IH] using string_length_induction. intros H.
  assert (Hstep : (exists tail, s = ("github.com/" ++ tail)%string
                                /\ ownerAndRepo tail = Some name)
                  \/ exists c rest, s = String c rest /\ matchGithub rest = Some name).
  { destruct s as [| c rest]; [discriminate |].
    cbn [matchGithub] in H.
    destruct (prefix "github.com/" (String c rest)) eqn:Ep.
    - destruct (ownerAndRepo (dropChars 11 (String c rest))) as [n |] eqn:Eo.
      + left. destruct (prefix_split _ _ Ep) as (tail & Et).
        exists tail. split; [exact Et |].
        rewrite Et in Eo. cbn in Eo. rewrite Eo. exact H.
      + right. now exists c, rest.
    - right. now exists c, rest. }
  destruct Hstep as [(tail & -> & Ho) | (c & rest & -> & Hm)].
  - destruct (ownerAndRepo_inv _ _ Ho) as (owner & repo & rest & So & Sr & -> & ->).
    exists owner, repo. split; [exact So | split; [exact Sr | split; [reflexivity |]]].
    apply prefix_includes.
    replace ("github.com/" ++ owner ++ "/" ++ repo ++ rest)%string
      with (("github.com/" ++ owner ++ "/" ++ repo) ++ rest)%string.
    + apply prefix_append.
    + rewrite !append_assoc. reflexivity.
  - destruct (IH rest (Nat.lt_succ_diag_r _) Hm) as (owner & repo & So & Sr & En & Hi).
    exists owner, repo. split; [exact So | split; [exact Sr | split; [exact En |]]].
    cbn [includes]. rewrite Hi. apply orb_true_r.
Qed.

(** A URL in which github.com/ does not occur is shown as it is.  Whatever
    the URL, the name shown is the URL itself or an owner and a repository,
    two runs with no slash, joined by a slash, that follow github.com/ in
    the URL. *)
Theorem repoName_shape (url : string) :
  (includes "github.com/" url = false -> repoName url = url)
  /\ (repoName url = url
      \/ exists owner repo : string,
           segment owner = true /\ segment repo = true
           /\ repoName url = (owner ++ "/" ++ repo)%string
           /\ includes ("github.com/" ++ owner ++ "/" ++ repo) url = true).
Proof.
  unfold repoName. split.
  - intros H. now rewrite (matchGithub_none _ H).
  - destruct (matchGithub url) as [name |] eqn:E; [right | now left].
    exact (matchGithub_inv _ _ E).
Qed.

(** ** The values of the technical details *)

Lemma join_printable (separator : string) (items : list value) :
  Forall (fun x => if printable x then exists s, ToString x = Ok s
                   else ToString x = Throw TypeError) items ->
  if forallb printable items then exists s, join separator items = Ok s
  else join separator items = Throw TypeError.
Proof.
  induction 1 as [| x rest Hx Hrest IH]; [now exists "" |].
  cbn [forallb join].
  destruct (printable x) eqn:Px.
  - destruct Hx as (sx & Ex). cbn [andb].
    assert (Hpiece : exists piece, (if nullish x then Ok "" else ToString x) = Ok piece).
    { destruct (nullish x); [now exists "" | now exists sx]. }
    destruct Hpiece as (piece & ->). cbn [rbind].
    destruct rest as [| y rest']; [now exists piece |].
    destruct (forallb printable (y :: rest')).
    + destruct IH as (more & ->). cbn [rbind]. now eexists.
    + rewrite IH. reflexivity.
  - cbn [andb].
    assert (Hn : nullish x = false) by (destruct x; try reflexivity; discriminate).
    rewrite Hn, Hx. reflexivity.
Qed.

Lemma ToString_join (items : list value) : ToString (VArray items) = join "," items.
Proof.
  cbn [ToString]. induction items as [| x rest IH]; [reflexivity |].
  cbn [join]. destruct (if nullish x then Ok "" else ToString x); [| reflexivity].
  cbn [rbind]. destruct rest as [| y rest']; [reflexivity |].
  now rewrite IH.
Qed.

Lemma ToString_printable (v : value) :
  if printable v then exists s, ToString v = Ok s else ToString v = Throw TypeError.
Proof.
  induction v as [| | b | n | s | items IH | props IH] using value_nested_ind.
  - now eexists.
  - now eexists.
  - destruct b; now eexists.
  - now eexists.
  - now eexists.
  - rewrite ToString_join. cbn [printable]. now apply join_printable.
  - cbn [printable ToString]. destruct (lookup "toString" props); [reflexivity | now eexists].
Qed.

(** Formatting a value fails exactly when it holds, at the top or among
    the elements of arrays, an object with a property named toString. *)
Theorem formatDetailValue_printable (v : value) :
  if printable v then exists s, formatDetailValue v = Ok s
  else formatDetailValue v = Throw TypeError.
Proof.
  destruct v as [| | b | n | s | items | props].
  - exact (ToString_printable VUndefined).
  - exact (ToString_printable VNull).
  - exact (ToString_printable (VBool b)).
  - now eexists.
  - exact (ToString_printable (VString s)).
  - cbn [formatDetailValue printable]. apply join_printable.
    apply Forall_forall. intros x _. apply ToString_printable.
  - exact (ToString_printable (VObject props)).
Qed.

(** A sequence of strings is shown with a comma and a space between its
    entries. *)
Theorem formatDetailValue_strings (l : list string) :
  formatDetailValue (VArray (map VString l)) = Ok (concat ", " l).
Proof.
  cbn [formatDetailValue].
  induction l as [| s l IH]; [reflexivity |].
  cbn [map join nullish ToString rbind].
  destruct l as [| s' l']; [reflexivity |].
  cbn [map] in *. rewrite IH. reflexivity.
Qed.

(** ** The grade of a level *)

Lemma ToString_TypeError (v : value) (e : error) : ToString v = Throw e -> e = TypeError.
Proof.
  intros H. pose proof (ToString_printable v) as P.
  destruct (printable v).
  - destruct P as (s & E). rewrite E in H. discriminate.
  - rewrite P in H. now injection H as <-.
Qed.

Lemma ToPrimitive_cases (v : value) :
  ToPrimitive v = Throw TypeError
  \/ exists p, ToPrimitive v = Ok p
                /\ exists equal : string -> bool,
                     forall lit, loose_eq_string v lit = Ok (equal lit).
Proof.
  destruct v as [| | b | n | s | l | o].
  - right. exists VUndefined. split; [reflexivity |]. now exists (fun _ => false).
  - right. exists VNull. split; [reflexivity |]. now exists (fun _ => false).
  - right. exists (VBool b). split; [reflexivity |]. now exists (fun _ => false).
  - right. exists (VNumber n). split; [reflexivity |]. now exists (fun _ => false).
  - right. exists (VString s). split; [reflexivity |]. now exists (fun lit => s =? lit).
  - unfold ToPrimitive, loose_eq_string.
    destruct (ToString (VArray l)) as [s | e] eqn:E; cbn [rbind].
    + right. exists (VString s). split; [reflexivity |]. now exists (fun lit => s =? lit).
    + left. now rewrite (ToString_TypeError _ _ E).
  - unfold ToPrimitive, loose_eq_string.
    destruct (ToString (VObject o)) as [s | e] eqn:E; cbn [rbind].
    + right. exists (VString s). split; [reflexivity |]. now exists (fun lit => s =? lit).
    + left. now rewrite (ToString_TypeError _ _ E).
Qed.

Lemma calculateScore_not_boolean (nivel : value) :
  (forall b : bool, nivel <> VBool b) ->
  calculateScore nivel = Ok "N/A" \/ calculateScore nivel = Throw TypeError.
Proof.
  intros Hb. unfold calculateScore, greater_than, less_than.
  assert (Hs : forall b, strict_eq_bool nivel b = false).
  { intros b. destruct nivel; try reflexivity. now elim (Hb b0). }
  destruct (ToPrimitive_cases nivel) as [-> | (p & -> & equal & Hl)]; [now right |].
  left. cbn [rbind]. rewrite !Hl.
  destruct (50 <? ToNumber_primitive p)%float; cbn [rbind]; rewrite Hs;
    destruct (30 <? ToNumber_primitive p)%float; cbn [rbind];
    try (destruct (ToNumber_primitive p <? 50)%float; cbn [rbind]); rewrite ?Hs;
    destruct (ToNumber_primitive p <? 30)%float; cbn [rbind]; rewrite ?Hs; reflexivity.
Qed.

(** [calculateScore] grades no level: a number and a string, whatever they
    are, get N/A, and so do undefined and null; an array or an object gets
    N/A unless its conversion throws.  Only the booleans match a case:
    false gets A+ and true gets C. *)
Theorem calculateScore_grades_nothing :
  (forall n : float, calculateScore (VNumber n) = Ok "N/A")
  /\ (forall s : string, calculateScore (VString s) = Ok "N/A")
  /\ calculateScore VUndefined = Ok "N/A"
  /\ calculateScore VNull = Ok "N/A"
  /\ (forall v : value,
      scalar v = false ->
      calculateScore v = Ok "N/A" \/ calculateScore v = Throw TypeError)
  /\ calculateScore (VBool false) = Ok "A+"
  /\ calculateScore (VBool true) = Ok "C".
Proof.
  assert (H : forall v, scalar v = true -> (forall b, v <> VBool b) ->
                        calculateScore v = Ok "N/A").
  { intros v Hv Hb. destruct (calculateScore_not_boolean v Hb) as [E | E]; [exact E |].
    exfalso. revert E. unfold calculateScore, greater_than, less_than.
    assert (Hp : ToPrimitive v = Ok v) by (destruct v; try reflexivity; discriminate).
    assert (Hl : forall lit, exists b, loose_eq_string v lit = Ok b).
    { intros lit. destruct v; try discriminate; now eexists. }
    rewrite Hp. cbn [rbind].
    destruct (Hl "Alto") as (b1 & ->), (Hl "Médio") as (b2 & ->), (Hl "Baixo") as (b3 & ->).
    repeat match goal with
           | |- context [if ?c then _ else _] => destruct c; cbn [rbind]
           end; discriminate. }
  split; [| split; [| split; [| split; [| split; [| split]]]]].
  - intros n. apply H; [reflexivity | discriminate].
  - intros s. apply H; [reflexivity | discriminate].
  - apply H; [reflexivity | discriminate].
  - apply H; [reflexivity | discriminate].
  - intros v Hv. apply calculateScore_not_boolean. intros b ->. discriminate.
  - reflexivity.
  - reflexivity.
Qed.

(** ** The classes of the cards *)



(** ** The recommendation cards *)

Lemma recommendationCard_shape (analises : value) (category : string * string)
    (cards : list RecommendationCard) :
  recommendationCard analises category = Ok cards ->
  cards = []
  \/ exists item items,
       cards = [{| card_category := fst category;
                   card_icon := getIconForCategory (fst category);
                   card_title := snd category;
                   card_items := item :: items |}].
Proof.
  unfold recommendationCard.
  destruct (recomendacoes analises (fst category)) as [r | e]; [| discriminate].
  cbn [rbind]. unfold recommendationItems.
  destruct (recommendationList r) as [| x rest].
  - intros H. injection H as <-. now left.
  - cbn [trim_all]. destruct (trim_method x) as [item | e]; [| discriminate].
    cbn [rbind]. destruct (trim_all rest) as [items | e]; [| discriminate].
    cbn [rbind]. intros H. injection H as <-. right. now exists item, items.
Qed.

(** When the recommendations are shown, every card lists at least one
    item, and the cards are those of some of the four categories, each at
    most once, in the order seguranca, desempenho, confiabilidade, testes,
    each with the title and the icon of its category. *)
Theorem recommendation_cards_shape (results : value) (w : list effect) :
  displayRecommendations results = (Ok tt, w) ->
  exists cards : list RecommendationCard,
    w = [SetRecommendations cards]
    /\ Forall (fun card => card_items card <> []) cards
    /\ map card_heading cards = filter (has_heading cards) headings.
Proof.
  unfold displayRecommendations.
  destruct (get results "analises") as [analises | e]; [| discriminate].
  rewrite bind_lift_Ok. unfold recommendationCards, categories.
  destruct (recommendationCard analises ("seguranca", "Segurança")) as [c1 | e] eqn:E1;
    [| discriminate].
  destruct (recommendationCard analises ("desempenho", "Desempenho")) as [c2 | e] eqn:E2;
    [| discriminate].
  destruct (recommendationCard analises ("confiabilidade", "Confiabilidade")) as [c3 | e] eqn:E3;
    [| discriminate].
  destruct (recommendationCard analises ("testes", "Testes")) as [c4 | e] eqn:E4;
    [| discriminate].
  cbn [rbind]. rewrite bind_lift_Ok. intros H. injection H as <-.
  exists (c1 ++ c2 ++ c3 ++ c4 ++ []). split; [reflexivity |].
  destruct (recommendationCard_shape _ _ _ E1) as [-> | (i1 & l1 & ->)];
    destruct (recommendationCard_shape _ _ _ E2) as [-> | (i2 & l2 & ->)];
    destruct (recommendationCard_shape _ _ _ E3) as [-> | (i3 & l3 & ->)];
    destruct (recommendationCard_shape _ _ _ E4) as [-> | (i4 & l4 & ->)];
    (split; [repeat constructor; discriminate | reflexivity]).
Qed.

(** ** Entries that are no strings *)

Lemma trim_all_TypeError (items : list value) :
  forallb typeof_string items = false -> trim_all items = Throw TypeError.
Proof.
  induction items as [| x rest IH]; [discriminate |].
  cbn [forallb trim_all]. destruct x; try reflexivity.
  cbn [typeof_string andb trim_method rbind]. intros H. now rewrite (IH H).
Qed.

Lemma recommendationCard_TypeError (analises : value) (category : string * string) (e : error) :
  recommendationCard analises category = Throw e -> e = TypeError.
Proof.
  unfold recommendationCard, recomendacoes, get.
  destruct (nullish analises); [intros H; now injection H as <- |].
  cbn [rbind]. destruct (opt_get _ _) as [dados |].
  - destruct (nullish dados); [intros H; now injection H as <- |].
    cbn [rbind]. unfold recommendationItems.
    set (r := or_else _ _). destruct (recommendationList r) as [| x rest]; [discriminate |].
    cbn [trim_all]. destruct x; cbn [trim_method rbind];
      try (intros H; now injection H as <-).
    clear. induction rest as [| y rest IH]; [discriminate |].
    cbn [trim_all]. destruct y; cbn [trim_method rbind];
      try (intros H; now injection H as <-).
    destruct (trim_all rest) as [items |]; cbn [rbind]; [discriminate |].
    intros H. injection H as <-. now apply IH.
  - cbn [rbind recommendationList]. discriminate.
Qed.

Lemma recommendationCard_not_string (analises : value) (category : string * string)
    (items : list value) :
  recomendacoes analises (fst category) = Ok (VArray items) ->
  forallb typeof_string items = false ->
  recommendationCard analises category = Throw TypeError.
Proof.
  intros Hr Hi. unfold recommendationCard. rewrite Hr. cbn [rbind recommendationList].
  destruct items as [| x rest]; [discriminate |].
  unfold recommendationItems. cbn [recommendationList].
  now rewrite (trim_all_TypeError _ Hi).
Qed.

Lemma recommendationCards_not_string (analises : value) (cats : list (string * string))
    (category : string * string) (items : list value) :
  In category cats ->
  recomendacoes analises (fst category) = Ok (VArray items) ->
  forallb typeof_string items = false ->
  recommendationCards analises cats = Throw TypeError.
Proof.
  intros Hin Hr Hi. induction cats as [| c rest IH]; [now elim Hin |].
  cbn [recommendationCards].
  destruct (recommendationCard analises c) as [card | e1] eqn:E1; cbn [rbind].
  - destruct Hin as [-> | Hin].
    + rewrite (recommendationCard_not_string _ _ _ Hr Hi) in E1. discriminate.
    + now rewrite (IH Hin).
  - now rewrite (recommendationCard_TypeError _ _ _ E1).
Qed.

(** A category whose recomendacoes is a sequence with an entry that is no
    string (a number, null, a nested sequence) makes the recommendations
    throw a TypeError, and nothing of them is shown. *)
Theorem recommendation_entry_not_string
    (results : value) (category title : string) (items : list value) :
  In (category, title) categories ->
  prop (prop (prop (prop results "analises") category) "dados_completos") "recomendacoes"
  = VArray items ->
  forallb typeof_string items = false ->
  displayRecommendations results = (Throw TypeError, []).
Proof.
  intros Hin Hp Hi.
  assert (Hdef : forall v k, nullish (prop v k) = false -> nullish v = false).
  { intros v k. destruct v; try reflexivity; discriminate. }
  assert (Hd : nullish (prop (prop (prop results "analises") category) "dados_completos")
               = false).
  { destruct (prop (prop (prop results "analises") category) "dados_completos");
      try reflexivity; discriminate Hp. }
  pose proof (Hdef _ _ Hd) as Hs. pose proof (Hdef _ _ Hs) as Ha.
  pose proof (Hdef _ _ Ha) as Hr.
  assert (Hrec : recomendacoes (prop results "analises") category = Ok (VArray items)).
  { unfold recomendacoes, opt_get. rewrite (get_defined _ _ Ha). cbn [rbind].
    rewrite Hs, (get_defined _ _ Hd). cbn [rbind]. now rewrite Hp. }
  unfold displayRecommendations.
  rewrite (get_defined _ _ Hr), bind_lift_Ok.
  now rewrite (recommendationCards_not_string _ _ (category, title) _ Hin Hrec Hi).
Qed.

(** ** Counts that are strings *)

(** A count that is a string is not added: the datum of the chart is the
    text of the two counts one after the other. *)
Theorem problem_counts_concatenate (results : value) (s : string) :
  has_section results "seguranca" = true ->
  has_section results "desempenho" = true ->
  has_section results "confiabilidade" = true ->
  has_section results "testes" = true ->
  (forall name : string, scalar (field results "seguranca" name) = true) ->
  (forall name : string, scalar (field results "desempenho" name) = true) ->
  (forall name : string, scalar (field results "confiabilidade" name) = true) ->
  field results "seguranca" "vulnerabilidades_encontradas" = VString s ->
  s <> "" ->
  exists d2 d3 : value,
    displayProblemsChart results =
      (Ok tt,
       [NewChart "problemsChart" "doughnut" chartLabels
          [VString (s ++ text_of (or_else (field results "seguranca" "funcoes_sem_tratamento")
                                          (VNumber 0)));
           d2; d3;
           or_else (field results "testes" "funcionalidades_sem_teste") (VNumber 0)]]).
Proof.
  intros Hss Hsd Hsc Hst Fs Fd Fc Hv0 Hne.
  destruct (extracted results "seguranca" Hss) as (Ha & seguranca & Hs & Ps).
  destruct (extracted results "desempenho" Hsd) as (_ & desempenho & Hd & Pd).
  destruct (extracted results "confiabilidade" Hsc) as (_ & confiabilidade & Hc & Pc).
  destruct (extracted results "testes" Hst) as (_ & testes & Ht & Pt).
  rewrite <- (Ps "funcoes_sem_tratamento"), <- (Pt "funcionalidades_sem_teste").
  assert (Bs : scalar_bundle seguranca) by (intros k; rewrite Ps; apply Fs).
  assert (Bd : scalar_bundle desempenho) by (intros k; rewrite Pd; apply Fd).
  assert (Bc : scalar_bundle confiabilidade) by (intros k; rewrite Pc; apply Fc).
  assert (Hv : prop seguranca "vulnerabilidades_encontradas" = VString s)
    by (rewrite Ps; exact Hv0).
  unfold displayProblemsChart.
  rewrite Ha, bind_lift_Ok, Hs, bind_lift_Ok, Hd, bind_lift_Ok, Hc, bind_lift_Ok,
    Ht, bind_lift_Ok. cbv zeta.
  rewrite Hv.
  assert (E1 : or_else (VString s) (VNumber 0) = VString s).
  { unfold or_else. cbn [truthy]. destruct s; [now elim Hne | reflexivity]. }
  rewrite E1.
  assert (S2 : scalar (or_else (prop seguranca "funcoes_sem_tratamento") (VNumber 0)) = true).
  { apply or_else_scalar; [apply Bs | reflexivity]. }
  assert (E : js_add (VString s)
                (or_else (prop seguranca "funcoes_sem_tratamento") (VNumber 0)) =
              Ok (VString (s ++ text_of (or_else (prop seguranca "funcoes_sem_tratamento")
                                           (VNumber 0))))).
  { unfold js_add.
    assert (Hp : forall v, scalar v = true -> ToPrimitive v = Ok v)
      by (intros v; destruct v; try reflexivity; discriminate).
    rewrite (Hp _ S2). cbn [ToPrimitive rbind typeof_string orb ToString].
    now rewrite (ToString_scalar _ S2). }
  rewrite E, bind_lift_Ok.
  destruct (js_add_scalars _ _
              (or_else_scalar _ (VNumber 0) (Bd "estruturas_ineficientes") eq_refl)
              (or_else_scalar _ (VNumber 0) (Bd "funcoes_longas") eq_refl))
    as (d2 & ->).
  destruct (js_add_scalars _ _
              (or_else_scalar _ (VNumber 0) (Bc "problemas_tratamento_erros") eq_refl)
              (or_else_scalar _ (VNumber 0) (Bc "violacoes_padroes") eq_refl))
    as (d3 & ->).
  rewrite !bind_lift_Ok. now exists d2, d3.
Qed.

(** ** Import, then export *)

(** After a file has passed validation the download button exports the
    value that was imported, whether displaying it succeeded or threw. *)
Theorem import_then_export (file : File) (st : Page) (j : json) (now : float) :
  includes "json" (file_type file) || endsWith ".json" (file_name file) = true ->
  file_text file = JSONText j ->
  missingSections (value_of_json j) = Ok false ->
  exists exported : json,
    JSON_stringify (value_of_json j) = Some exported
    /\ downloadReport now (handleFile file st) =
       write (handleFile file st) [Download (downloadName now) (JSONText exported)].
Proof.
  intros Hgate Htext Hvalid.
  assert (Hcur : currentResults (handleFile file st) = value_of_json j).
  { unfold handleFile. rewrite Htext.
    replace (negb (includes "json" (file_type file))
             && negb (endsWith ".json" (file_name file))) with false
      by (now rewrite <- negb_orb, Hgate).
    unfold onload. cbn [JSON_parse rbind]. rewrite Hvalid. cbn [rbind].
    destruct (displayResults (value_of_json j)) as [[u | e] w]; reflexivity. }
  pose proof (validated_truthy _ Hvalid) as Htruthy.
  destruct (JSON_stringify (value_of_json j)) as [exported |] eqn:Es.
  - exists exported. split; [reflexivity |].
    unfold downloadReport. rewrite Hcur, Htruthy, Es. reflexivity.
  - destruct (value_of_json j); discriminate.
Qed.

(** ** The form and the service *)

Lemma act_act (app : App) (w1 w2 : list action) : act (act app w1) w2 = act app (w1 ++ w2).
Proof. unfold act. cbn. now rewrite app_assoc. Qed.

Lemma app_log_analysisFailed (platform : Platform) (e : exception) (app : App) :
  app_log (analysisFailed platform e app) =
    app_log app
    ++ [Shown (Alert ("Erro durante a análise: " ++ message_of platform e));
        Shown (SetDisplay "loadingSection" "none");
        Shown (SetDisplay "analysisForm" "block")].
Proof. unfold analysisFailed, hideLoading, act. cbn. now rewrite <- app_assoc. Qed.

(** What [runAnalysis] comes to: the catch, or the display of results that
    report no error. *)
Lemma runAnalysis_cases (platform : Platform) (repoUrl apiKey model : string) (app : App) :
  (exists e : exception,
      runAnalysis platform repoUrl apiKey model app =
      analysisFailed platform e (requesting repoUrl apiKey model app))
  \/ (exists results : value,
        executeAnalysis platform repoUrl apiKey model = Done results
        /\ strict_eq_string (prop results "status") "erro" = false
        /\ truthy (prop results "erro") = false
        /\ runAnalysis platform repoUrl apiKey model app =
           match fst (displayResults results) with
           | Ok _ =>
               shown results (snd (displayResults results))
                     (requesting repoUrl apiKey model app)
           | Throw e =>
               analysisFailed platform (Native e)
                 (shown results (snd (displayResults results))
                        (requesting repoUrl apiKey model app))
           end).
Proof.
  unfold runAnalysis. fold (requesting repoUrl apiKey model app).
  destruct (executeAnalysis platform repoUrl apiKey model) as [results | e].
  - destruct (strict_eq_string (prop results "status") "erro") eqn:Es.
    + left. cbn [orb]. now eexists.
    + destruct (truthy (prop results "erro")) eqn:Ee.
      * left. cbn [orb]. now eexists.
      * right. exists results. cbn [orb].
        destruct (displayResults results) as [[u | e] w]; now repeat split.
  - left. now exists e.
Qed.

Lemma Forall_map_Shown (w : list effect) : Forall (fun a => is_shown a = true) (map Shown w).
Proof. induction w; constructor; [reflexivity | assumption]. Qed.

(** What [runAnalysis] does after the request is effects of the report and
    alerts. *)
Lemma runAnalysis_after_request (platform : Platform) (repoUrl apiKey model : string)
    (app : App) :
  exists after : list action,
    app_log (runAnalysis platform repoUrl apiKey model app) =
      app_log (requesting repoUrl apiKey model app) ++ after
    /\ Forall (fun a => is_shown a = true) after.
Proof.
  destruct (runAnalysis_cases platform repoUrl apiKey model app)
    as [(e & ->) | (results & _ & _ & _ & ->)].
  - rewrite app_log_analysisFailed. eexists. split; [reflexivity |].
    repeat constructor.
  - destruct (fst (displayResults results)) as [u | e].
    + exists (map Shown (snd (displayResults results))). split; [reflexivity |].
      apply Forall_map_Shown.
    + rewrite app_log_analysisFailed. cbn [shown app_log]. rewrite <- app_assoc.
      eexists. split; [reflexivity |].
      apply Forall_app. split; [apply Forall_map_Shown | repeat constructor].
Qed.

(** A submission is refused with an alert, nothing loaded and no request
    sent, when the trimmed URL is empty, and when the model is gpt4-mini and
    the trimmed key is empty.  Any other submission sends one request, with
    the trimmed URL, the model, and for key the trimmed key, or when that is
    empty the default key for gemini and the empty string for any other
    model; so for gemini and gpt4-mini the key sent is not empty when the
    default key is not. *)
Theorem submission_gate (platform : Platform) (app : App) :
  (trim (repoUrl_value app) = "" ->
   handleFormSubmit platform app = act app [PreventDefault; Shown (Alert msg_no_url)])
  /\ (trim (repoUrl_value app) <> "" ->
      modelSelect_value app = "gpt4-mini" ->
      trim (apiKey_value app) = "" ->
      handleFormSubmit platform app = act app [PreventDefault; Shown (Alert msg_no_key)])
  /\ (trim (repoUrl_value app) <> "" ->
      (modelSelect_value app = "gpt4-mini" -> trim (apiKey_value app) <> "") ->
      exists (key : string) (before after : list action),
        app_log (handleFormSubmit platform app) =
          app_log app ++ before
          ++ [Fetch "/api/analyze-sync" "POST"
                (requestBody (trim (repoUrl_value app)) key (modelSelect_value app))]
          ++ after
        /\ Forall (fun a => match a with Fetch _ _ _ => False | _ => True end)
                  (before ++ after)
        /\ (key = trim (apiKey_value app) /\ key <> ""
            \/ trim (apiKey_value app) = "" /\ modelSelect_value app = "gemini"
               /\ key = DEFAULT_API_KEY
            \/ trim (apiKey_value app) = "" /\ modelSelect_value app <> "gemini"
               /\ modelSelect_value app <> "gpt4-mini" /\ key = "")).
Proof.
  split; [| split].
  - intros Hu. unfold handleFormSubmit. cbn [act repoUrl_value modelSelect_value apiKey_value].
    rewrite Hu. cbn [String.eqb]. fold (act app [PreventDefault]). apply act_act.
  - intros Hu Hm Hk. unfold handleFormSubmit.
    cbn [act repoUrl_value modelSelect_value apiKey_value].
    rewrite Hm, Hk. apply String.eqb_neq in Hu. rewrite Hu.
    cbn [String.eqb Ascii.eqb Bool.eqb andb]. fold (act app [PreventDefault]). apply act_act.
  - intros Hu Hk.
    set (repoUrl := trim (repoUrl_value app)) in *.
    set (model := modelSelect_value app) in *.
    set (key := finalApiKey (trim (apiKey_value app)) model).
    assert (Hrun : handleFormSubmit platform app =
                   runAnalysis platform repoUrl key model (act app [PreventDefault])).
    { unfold handleFormSubmit. cbn [act repoUrl_value modelSelect_value apiKey_value].
      fold repoUrl model. apply String.eqb_neq in Hu. rewrite Hu.
      destruct (String.eqb_spec model "gpt4-mini") as [E | _]; [| reflexivity].
      specialize (Hk E). apply String.eqb_neq in Hk. rewrite Hk. reflexivity. }
    destruct (runAnalysis_after_request platform repoUrl key model (act app [PreventDefault]))
      as (after & Hlog & Hafter).
    exists key.
    exists ([PreventDefault]
            ++ [Shown (SetDisplay "loadingSection" "block");
                Shown (SetDisplay "resultsSection" "none");
                Shown (SetDisplay "analysisForm" "none")]
            ++ flat_map (fun step =>
                           [Shown (SetTextContent "loadingStatus" (fst step));
                            SetWidth "progressFill" (Number_toString (snd step) ++ "%")])
                        steps).
    exists after. split; [| split].
    + rewrite Hrun, Hlog.
      unfold requesting, simulateProgress, showLoading, act. cbn [app_log].
      rewrite <- !app_assoc. reflexivity.
    + apply Forall_app. split.
      * apply Forall_app. split; [repeat constructor |].
        apply Forall_app. split; [repeat constructor |].
        apply Forall_forall. intros a Ha. apply in_flat_map in Ha.
        destruct Ha as (step & _ & [<- | [<- | []]]); exact I.
      * eapply Forall_impl; [| exact Hafter]. intros a Ha. now destruct a.
    + unfold key, finalApiKey.
      destruct (String.eqb_spec (trim (apiKey_value app)) "") as [E | N]; cbn [negb];
        [| now left].
      right. destruct (String.eqb_spec model "gemini") as [Em | Nm]; [left | right].
      * now repeat split.
      * repeat split; trivial. intros Eg. now apply (Hk Eg).
Qed.

Lemma keeps_lift {A : Type} (r : result A) : keeps_displays (lift r).
Proof. constructor. Qed.

Lemma keeps_emit (e : effect) : sets_display e = false -> keeps_displays (emit e).
Proof. intros H. constructor; [exact H | constructor]. Qed.

Lemma keeps_bind {A B : Type} (m : M A) (k : A -> M B) :
  keeps_displays m -> (forall a, keeps_displays (k a)) -> keeps_displays (bind m k).
Proof.
  unfold keeps_displays. destruct m as [[a | e] w]; simpl; intros Hm Hk; [| exact Hm].
  specialize (Hk a). destruct (k a) as [r w']. simpl in *.
  apply Forall_app. now split.
Qed.

Ltac keeps_steps :=
  repeat first
    [ apply keeps_lift
    | apply keeps_emit; reflexivity
    | apply keeps_bind; [| intros ] ].

Lemma keeps_updateMetricCard (type : string) (data : value) :
  keeps_displays (updateMetricCard type data).
Proof.
  unfold updateMetricCard, setTextContent.
  destruct (type =? "security")%string; [keeps_steps |].
  destruct (type =? "performance")%string; [keeps_steps |].
  destruct (type =? "reliability")%string; [keeps_steps |].
  destruct (type =? "testing")%string; [keeps_steps |].
  constructor.
Qed.

(** [displayResults] sets three displays, the first of them that of the
    loading section to none, and no display after them. *)
Lemma displayResults_displays (results : value) :
  exists w : list effect,
    snd (displayResults results) =
      SetDisplay "loadingSection" "none" :: SetDisplay "resultsSection" "block"
      :: SetDisplay ".analysis-form" "none" :: w
    /\ Forall (fun e => sets_display e = false) w.
Proof.
  unfold displayResults. rewrite !bind_emit. cbn [snd].
  eexists. split; [reflexivity |].
  change (keeps_displays (displayRepoInfo results;; displayMetrics results;;
                          displayCharts results;; displayRecommendations results;;
                          displayTechnicalDetails results)).
  unfold displayRepoInfo, displayMetrics, displayCharts,
    displayProblemsChart, displayQualityChart, displayRecommendations,
    displayTechnicalDetails, detailsOf.
  cbv zeta.
  repeat first
    [ apply keeps_updateMetricCard
    | apply keeps_lift
    | apply keeps_emit; reflexivity
    | apply keeps_bind; [| intros ] ].
Qed.

Lemma displayOf_app (element : string) (l1 l2 : list action) :
  displayOf element (l1 ++ l2) =
    match displayOf element l2 with
    | Some d => Some d
    | None => displayOf element l1
    end.
Proof.
  induction l1 as [| a l1 IH]; cbn [app displayOf].
  - now destruct (displayOf element l2).
  - rewrite IH. now destruct (displayOf element l2).
Qed.

Lemma displayOf_none (element : string) (w : list effect) :
  Forall (fun e => sets_display e = false) w -> displayOf element (map Shown w) = None.
Proof.
  induction 1 as [| e w He Hw IH]; [reflexivity |].
  cbn [map displayOf]. rewrite IH. destruct e; try reflexivity. discriminate He.
Qed.

(** However a submission that is not refused ends, with the results shown
    or with an alert, it leaves the loading section hidden. *)
Theorem loading_is_hidden (platform : Platform) (repoUrl apiKey model : string) (app : App) :
  displayOf "loadingSection" (app_log (runAnalysis platform repoUrl apiKey model app)) =
    Some "none".
Proof.
  destruct (runAnalysis_cases platform repoUrl apiKey model app)
    as [(e & ->) | (results & _ & _ & _ & ->)].
  - rewrite app_log_analysisFailed, displayOf_app. reflexivity.
  - destruct (displayResults_displays results) as (w & Ew & Hw).
    destruct (fst (displayResults results)) as [u | e].
    + cbn [shown app_log]. rewrite displayOf_app, Ew.
      cbn [map displayOf]. rewrite (displayOf_none _ _ Hw). reflexivity.
    + rewrite app_log_analysisFailed, displayOf_app. reflexivity.
Qed.

Lemma executeAnalysis_error_status (platform : Platform) (repoUrl apiKey model : string)
    (r : Response) (j : json) :
  response platform = Some r ->
  response_ok r = false ->
  body r = JSONText j ->
  nullish (value_of_json j) = false ->
  executeAnalysis platform repoUrl apiKey model =
    Failed (new_Error (or_else (prop (value_of_json j) "erro")
                               (VString ("Erro HTTP: " ++ status_text (status r))))).
Proof.
  intros Hr Hok Hb Hn. unfold executeAnalysis. rewrite Hr, Hok, Hb.
  cbn [negb JSON_parse rbind]. now rewrite (get_defined _ _ Hn).
Qed.

Lemma new_Error_scalar (message : value) :
  scalar message = true -> new_Error message = Raised (text_of message).
Proof. intros H. unfold new_Error. now rewrite (ToString_scalar _ H). Qed.

(** When the service answers with an error status and a body that is a
    JSON value other than null, the alert shows the erro of the body when
    that is truthy, and Erro HTTP with the status when it is not; the form
    comes back and the current results stay. *)
Theorem service_error_reported (platform : Platform) (repoUrl apiKey model : string)
    (app : App) (r : Response) (j : json) :
  response platform = Some r ->
  response_ok r = false ->
  body r = JSONText j ->
  nullish (value_of_json j) = false ->
  scalar (prop (value_of_json j) "erro") = true ->
  runAnalysis platform repoUrl apiKey model app =
    hideLoading
      (act (requesting repoUrl apiKey model app)
           [Shown (Alert ("Erro durante a análise: "
                          ++ (if truthy (prop (value_of_json j) "erro")
                              then text_of (prop (value_of_json j) "erro")
                              else "Erro HTTP: " ++ status_text (status r))))])
  /\ current_results (runAnalysis platform repoUrl apiKey model app) = current_results app.
Proof.
  intros Hr Hok Hb Hn Hs.
  assert (E : runAnalysis platform repoUrl apiKey model app =
              analysisFailed platform
                (new_Error (or_else (prop (value_of_json j) "erro")
                                    (VString ("Erro HTTP: " ++ status_text (status r)))))
                (requesting repoUrl apiKey model app)).
  { unfold runAnalysis. fold (requesting repoUrl apiKey model app).
    now rewrite (executeAnalysis_error_status _ _ _ _ _ _ Hr Hok Hb Hn). }
  rewrite E. split; [| reflexivity].
  unfold analysisFailed. do 3 f_equal.
  rewrite new_Error_scalar by (now apply or_else_scalar).
  unfold or_else. now destruct (truthy (prop (value_of_json j) "erro")).
Qed.

Lemma truthy_prop_defined (v : value) (k : string) :
  truthy (prop v k) = true -> nullish v = false.
Proof. destruct v; try reflexivity; discriminate. Qed.

Lemma executeAnalysis_results (platform : Platform) (repoUrl apiKey model : string)
    (r : Response) (j : json) :
  response platform = Some r ->
  response_ok r = true ->
  body r = JSONText j ->
  truthy (prop (value_of_json j) "analises") = true ->
  executeAnalysis platform repoUrl apiKey model = Done (value_of_json j).
Proof.
  intros Hr Hok Hb Ha. unfold executeAnalysis. rewrite Hr, Hok, Hb.
  cbn [negb JSON_parse rbind].
  rewrite (get_defined _ _ (truthy_prop_defined _ _ Ha)). cbn [rbind]. now rewrite Ha.
Qed.


(** When the service answers well with a payload that has analises and
    reports no error, the payload becomes the current results and is
    displayed as [displayResults] displays it; if displaying it throws, the
    alert and the form follow. *)
Theorem analysis_shows_results (platform : Platform) (repoUrl apiKey model : string)
    (app : App) (r : Response) (j : json) :
  response platform = Some r ->
  response_ok r = true ->
  body r = JSONText j ->
  truthy (prop (value_of_json j) "analises") = true ->
  strict_eq_string (prop (value_of_json j) "status") "erro" = false ->
  truthy (prop (value_of_json j) "erro") = false ->
  current_results (runAnalysis platform repoUrl apiKey model app) = value_of_json j
  /\ app_log (runAnalysis platform repoUrl apiKey model app) =
     app_log (requesting repoUrl apiKey model app)
     ++ map Shown (snd (displayResults (value_of_json j)))
     ++ match fst (displayResults (value_of_json j)) with
        | Ok _ => []
        | Throw _ =>
            [Shown (Alert ("Erro durante a análise: " ++ native_message platform));
             Shown (SetDisplay "loadingSection" "none");
             Shown (SetDisplay "analysisForm" "block")]
        end.
Proof.
  intros Hr Hok Hb Ha Hs He.
  unfold runAnalysis. fold (requesting repoUrl apiKey model app).
  rewrite (executeAnalysis_results _ _ _ _ _ _ Hr Hok Hb Ha), Hs, He. cbn [orb].
  destruct (displayResults (value_of_json j)) as [[u | e] w]; cbn [fst snd].
  - split; [reflexivity |]. cbn [shown app_log]. now rewrite app_nil_r.
  - split; [reflexivity |]. rewrite app_log_analysisFailed. cbn [shown app_log message_of].
    now rewrite <- app_assoc.
Qed.

(** The current results after [runAnalysis] are those from before, or
    results that have analises and report no error. *)
Theorem analysis_keeps_or_replaces (platform : Platform) (repoUrl apiKey model : string)
    (app : App) :
  let final := current_results (runAnalysis platform repoUrl apiKey model app) in
  final = current_results app
  \/ truthy (prop final "analises") = true
     /\ strict_eq_string (prop final "status") "erro" = false
     /\ truthy (prop final "erro") = false.
Proof.
  cbv zeta.
  destruct (runAnalysis_cases platform repoUrl apiKey model app)
    as [(e & ->) | (results & Hex & Hs & He & ->)].
  - now left.
  - right.
    assert (Hcur : current_results
                     match fst (displayResults results) with
                     | Ok _ => shown results (snd (displayResults results))
                                 (requesting repoUrl apiKey model app)
                     | Throw e =>
                         analysisFailed platform (Native e)
                           (shown results (snd (displayResults results))
                              (requesting repoUrl apiKey model app))
                     end = results)
      by (now destruct (fst (displayResults results))).
    rewrite Hcur. split; [| now split].
    revert Hex. unfold executeAnalysis.
    destruct (response platform) as [r |]; [| discriminate].
    destruct (negb (response_ok r)).
    + destruct (let* errorData := JSON_parse (body r) in _); discriminate.
    + destruct (JSON_parse (body r)) as [v |]; cbn [rbind]; [| discriminate].
      destruct (get v "analises") as [a |] eqn:Eg; cbn [rbind]; [| discriminate].
      destruct (truthy a) eqn:Ta; cbn [negb]; intros H; injection H as <-.
      * apply get_Ok_inv in Eg. destruct Eg as [_ ->]. exact Ta.
      * reflexivity.
Qed.

Lemma simulatedData_not_displayed (repoUrl timestamp model : string) :
  fst (displayResults (simulatedData repoUrl timestamp model)) = Throw TypeError
  /\ forall cards : list RecommendationCard,
       ~ In (SetRecommendations cards)
            (snd (displayResults (simulatedData repoUrl timestamp model))).
Proof.
  set (data := simulatedData repoUrl timestamp model).
  assert (Hrepo : exists e, displayRepoInfo data = (Ok tt, [e])
                            /\ forall cards, e <> SetRecommendations cards).
  { set (shown_model :=
           if strict_eq_string (or_else (VString model) (VString "N/A")) "gemini"
           then VString "Google Gemini 2.0 Flash"
           else if strict_eq_string (or_else (VString model) (VString "N/A")) "gpt4-mini"
                then VString "OpenAI GPT-4 Mini"
                else or_else (VString model) (VString "N/A")).
    assert (Hm : exists s, ToString shown_model = Ok s).
    { unfold shown_model, or_else. cbn [truthy].
      destruct (negb (model =? "")); cbn [strict_eq_string];
        repeat match goal with |- context [if ?c then _ else _] => destruct c end;
        now eexists. }
    destruct Hm as (s & Hs).
    exists (SetRepoInfo repoUrl (VString timestamp) s "0:01:23" "sucesso").
    split; [| discriminate].
    unfold displayRepoInfo, data, simulatedData.
    cbn [get nullish prop lookup String.eqb Ascii.eqb Bool.eqb extractRepoName ToPrimitive].
    rewrite !bind_lift_Ok. cbv zeta. fold shown_model. rewrite Hs.
    cbn [extractRepoName ToString]. now rewrite !bind_lift_Ok. }
  destruct Hrepo as (e & Hrepo & He).
  assert (Hrest : exists w,
             (displayMetrics data;; displayCharts data;; displayRecommendations data;;
              displayTechnicalDetails data) = (Throw TypeError, w)
             /\ forall cards, ~ In (SetRecommendations cards) w).
  { eexists. split; [vm_compute; reflexivity |].
    intros cards Hin. cbn [In] in Hin.
    repeat (destruct Hin as [Hin | Hin]; [discriminate Hin |]). exact Hin. }
  destruct Hrest as (w & Hrest & Hw).
  unfold displayResults. rewrite !bind_emit. cbn [fst snd].
  rewrite Hrepo. unfold bind at 1. rewrite Hrest. cbn [fst snd app].
  split; [reflexivity |].
  intros cards [H | [H | [H | [H | H]]]]; try discriminate H.
  - now apply (He cards).
  - now apply (Hw cards).
Qed.

(** When the service answers well with a JSON value, not null, that has no
    analises, the script falls back on its simulated data.  They become the
    current results and they cannot be displayed: their sections hold no
    dados_completos, so the recommendations throw, and the submission ends
    with the alert of that error and the form; no recommendation is shown. *)
Theorem simulated_data_fail (platform : Platform) (repoUrl apiKey model : string)
    (app : App) (r : Response) (j : json) :
  response platform = Some r ->
  response_ok r = true ->
  body r = JSONText j ->
  nullish (value_of_json j) = false ->
  truthy (prop (value_of_json j) "analises") = false ->
  current_results (runAnalysis platform repoUrl apiKey model app) =
    simulatedData repoUrl (toISOString platform) model
  /\ exists w : list effect,
       app_log (runAnalysis platform repoUrl apiKey model app) =
         app_log (requesting repoUrl apiKey model app)
         ++ map Shown w
         ++ [Shown (Alert ("Erro durante a análise: " ++ native_message platform));
             Shown (SetDisplay "loadingSection" "none");
             Shown (SetDisplay "analysisForm" "block")]
       /\ forall cards : list RecommendationCard, ~ In (SetRecommendations cards) w.
Proof.
  intros Hr Hok Hb Hn Ha.
  assert (Hex : executeAnalysis platform repoUrl apiKey model =
                Done (simulatedData repoUrl (toISOString platform) model)).
  { unfold executeAnalysis. rewrite Hr, Hok, Hb. cbn [negb JSON_parse rbind].
    rewrite (get_defined _ _ Hn). cbn [rbind]. now rewrite Ha. }
  destruct (simulatedData_not_displayed repoUrl (toISOString platform) model) as (Hthrow & Hnone).
  unfold runAnalysis. fold (requesting repoUrl apiKey model app). rewrite Hex.
  change (strict_eq_string
            (prop (simulatedData repoUrl (toISOString platform) model) "status") "erro"
          || truthy (prop (simulatedData repoUrl (toISOString platform) model) "erro"))
    with false. cbv iota.
  destruct (displayResults (simulatedData repoUrl (toISOString platform) model))
    as [[u | e] w]; cbn [fst snd] in *; [discriminate Hthrow |].
  split; [reflexivity |].
  exists w. split; [| exact Hnone].
  rewrite app_log_analysisFailed. cbn [shown app_log message_of]. now rewrite <- app_assoc.
Qed.


End Script.

(** * Payloads evaluated

    The closed facts below run the script with [integer_toString] as the
    platform's printer. *)

Example split_scenario :
  split_comma_newline ("a, b," ++ String LF "c")%string = ["a"; " b"; ""; "c"].
Proof. reflexivity. Qed.

Example trim_examples :
  trim "  a b  " = "a b" /\ trim (String LF " ") = "" /\ trim "" = ""
  /\ trim ("x" ++ String (ascii_of_N 194) (String (ascii_of_N 160) ""))%string = "x".
Proof. repeat split; reflexivity. Qed.

Example includes_examples :
  includes "json" "application/json" = true /\ includes "json" "text/plain" = false
  /\ endsWith ".json" "a.json" = true /\ endsWith ".json" "a.json.txt" = false.
Proof. repeat split; reflexivity. Qed.

Example integer_toString_examples :
  integer_toString 75 = "75" /\ integer_toString 0 = "0" /\ integer_toString (-3) = "-3"
  /\ integer_toString nan = "NaN" /\ integer_toString infinity = "Infinity".
Proof. repeat split; vm_compute; reflexivity. Qed.

(** The sample payload displays in full. *)
Example payload_sample_displayed :
  fst (displayResults integer_toString payload_sample) = Ok tt
  /\ In (SetTextContent "securityScore" "C")
        (snd (displayResults integer_toString payload_sample))
  /\ In (SetTextContent "performanceScore" "90%")
        (snd (displayResults integer_toString payload_sample))
  /\ In (SetClassName "performanceScore" "metric-value quality-average")
        (snd (displayResults integer_toString payload_sample))
  /\ In (NewChart "problemsChart" "doughnut" chartLabels
           [VNumber 5; VNumber 1; VNumber 0; VNumber 8])
        (snd (displayResults integer_toString payload_sample))
  /\ In (NewChart "qualityChart" "radar" chartLabels
           [VNumber 85; VNumber 90; VNumber 65; VNumber 75])
        (snd (displayResults integer_toString payload_sample))
  /\ In (SetRecommendations
           [{| card_category := "seguranca"; card_icon := "shield-alt";
               card_title := "Segurança"; card_items := ["a"; "b"; "c"] |}])
        (snd (displayResults integer_toString payload_sample)).
Proof. vm_compute. intuition. Qed.

(** ** C5: quality classes at given scores *)

Lemma getQualityClass_table_witness :
  getQualityClass (VNumber 85) = "quality-excellent"
  /\ getQualityClass (VNumber 79.5) = "quality-good"
  /\ getQualityClass (VNumber 40) = "quality-average"
  /\ getQualityClass (VNumber 20) = "quality-poor"
  /\ getQualityClass (VNumber nan) = "quality-critical"
  /\ getQualityClass (VString "A") = "quality-average".
Proof.
  destruct getQualityClass_table as (Hn & _ & _ & _ & HA & _).
  split; [now apply (Hn 85%float) |].
  split; [now apply (Hn 79.5%float) |].
  split; [now apply (Hn 40%float) |].
  split; [now apply (Hn 20%float) |].
  split; [now apply (Hn nan) | exact HA].
Defined.

(** ** C7: the counts of the sample, and of a report with empty metrics *)

Lemma problem_distribution_counts_witness :
  displayProblemsChart integer_toString payload_sample =
    (Ok tt,
     [NewChart "problemsChart" "doughnut"
        ["Segurança"; "Desempenho"; "Confiabilidade"; "Testes"]
        [VNumber (3 + 2); VNumber (1 + 0); VNumber (0 + 0); VNumber 8]])
  /\ displayProblemsChart integer_toString payload_empty_metrics =
     (Ok tt,
      [NewChart "problemsChart" "doughnut"
         ["Segurança"; "Desempenho"; "Confiabilidade"; "Testes"]
         [VNumber (0 + 0); VNumber (0 + 0); VNumber (0 + 0); VNumber 0]]).
Proof.
  split.
  - exact (problem_distribution_counts integer_toString payload_sample
             3 2 1 0 0 0 8
             eq_refl eq_refl eq_refl eq_refl
             (counts_number 3 eq_refl) (counts_number 2 eq_refl)
             (counts_number 1 eq_refl) counts_missing
             counts_missing counts_missing (counts_number 8 eq_refl)).
  - exact (problem_distribution_counts integer_toString payload_empty_metrics
             0 0 0 0 0 0 0
             eq_refl eq_refl eq_refl eq_refl
             counts_missing counts_missing counts_missing counts_missing
             counts_missing counts_missing counts_missing).
Defined.

(** The sums of the sample are 5, 1 and 0. *)
Example problem_counts_of_the_sample :
  displayProblemsChart integer_toString payload_sample =
    (Ok tt,
     [NewChart "problemsChart" "doughnut" chartLabels
        [VNumber 5; VNumber 1; VNumber 0; VNumber 8]])
  /\ displayProblemsChart integer_toString payload_empty_metrics =
     (Ok tt,
      [NewChart "problemsChart" "doughnut" chartLabels
         [VNumber 0; VNumber 0; VNumber 0; VNumber 0]]).
Proof. split; reflexivity. Qed.

(** ** C2: a radar value above 100 *)

(** C2 fails as stated: a score_performance of 150 is drawn as 150. *)
Lemma radar_value_above_100 :
  displayQualityChart payload_score_150 =
    (Ok tt,
     [NewChart "qualityChart" "radar"
        ["Segurança"; "Desempenho"; "Confiabilidade"; "Testes"]
        [VNumber 0; VNumber 150; VNumber 0; VNumber 0]])
  /\ in_0_100 (VNumber 150) = false.
Proof. split; reflexivity. Qed.

Lemma quality_radar_values_witness :
  displayQualityChart payload_sample =
    (Ok tt,
     [NewChart "qualityChart" "radar"
        ["Segurança"; "Desempenho"; "Confiabilidade"; "Testes"]
        [VNumber 85; VNumber 90; VNumber 65; VNumber 75]])
  /\ forallb in_0_100 [VNumber 85; VNumber 90; VNumber 65; VNumber 75] = true.
Proof.
  destruct (quality_radar_values payload_sample (analises_of payload_sample)
              (VObject sample_seguranca)
              (VObject sample_desempenho)
              (VObject sample_confiabilidade)
              (VObject sample_testes)
              eq_refl eq_refl eq_refl eq_refl eq_refl) as [E R].
  split; [exact E |].
  apply R; intros H; first [reflexivity | discriminate H].
Defined.

(** ** C8: a coverage of 75, with the four sections and with testes alone *)

Lemma numeric_score_and_coverage_witness :
  getNumericScore (VString "Alto") = VNumber 85
  /\ displayQualityChart payload_sample =
       (Ok tt,
        [NewChart "qualityChart" "radar"
           ["Segurança"; "Desempenho"; "Confiabilidade"; "Testes"]
           [VNumber 85; VNumber 90; VNumber 65; VNumber 75]])
  /\ (exists seguranca desempenho confiabilidade : value,
        displayQualityChart payload_empty_metrics =
          (Ok tt,
           [NewChart "qualityChart" "radar"
              ["Segurança"; "Desempenho"; "Confiabilidade"; "Testes"]
              [seguranca; desempenho; confiabilidade; VNumber 0]]))
  /\ fst (displayMetrics integer_toString payload_sample) = Ok tt
  /\ In (SetTextContent "testingScore" "75%")
        (snd (displayMetrics integer_toString payload_sample))
  /\ field payload_coverage_scenario "testes" "cobertura_estimada" = VNumber 75
  /\ displayMetrics integer_toString payload_coverage_scenario = (Throw TypeError, [])
  /\ displayQualityChart payload_coverage_scenario = (Throw TypeError, []).
Proof.
  destruct (numeric_score_and_coverage integer_toString)
    as ((_ & HAlto & _) & Hsections & Habsent).
  destruct (Hsections payload_sample eq_refl eq_refl eq_refl eq_refl)
    as (Hradar & _ & _ & Hcard).
  destruct (Hsections payload_empty_metrics eq_refl eq_refl eq_refl eq_refl)
    as (_ & _ & Hdefault & _).
  destruct (Hcard eq_refl eq_refl
              (scalar_values_bundle sample_seguranca eq_refl)
              (scalar_values_bundle sample_desempenho eq_refl)
              (scalar_values_bundle sample_confiabilidade eq_refl)
              (scalar_values_bundle sample_testes eq_refl)) as (Hok & Hshown).
  destruct (Habsent payload_coverage_scenario eq_refl) as (Hcards & Hchart).
  exact (conj HAlto (conj Hradar (conj (Hdefault eq_refl)
           (conj Hok (conj Hshown (conj eq_refl (conj Hcards Hchart))))))).
Defined.

(** ** C4: the letter of a high risk *)


(** ** C6: a blank entry of a sequence *)



(** ** C10: a text file with a valid analysis inside *)

Lemma non_json_file_refused_witness :
  handleFile integer_toString
    {| file_type := "text/plain"; file_name := "relatorio.txt";
       file_text := JSONText json_sample |} page0
  = write page0 [Alert msg_select_json].
Proof.
  exact (proj1 (non_json_file_refused integer_toString
                  {| file_type := "text/plain"; file_name := "relatorio.txt";
                     file_text := JSONText json_sample |} page0 eq_refl eq_refl)).
Defined.

(** ** C3: an empty URL, and a status of erro *)

(** C3 fails as stated: a payload that has both fields, the URL empty, is
    refused as no valid analysis. *)
Lemma empty_url_is_refused :
  has_field (value_of_json json_empty_url) "analises" = true
  /\ has_field (value_of_json json_empty_url) "repositorio_url" = true
  /\ handleFile integer_toString
       {| file_type := "application/json"; file_name := "analise.json";
          file_text := JSONText json_empty_url |} page0
     = write page0 [ReadAsText "analise.json"; Alert msg_invalid_analysis].
Proof. repeat split. Qed.

Lemma validation_by_truthiness_witness :
  missingSections (value_of_json json_erro) = Ok false
  /\ currentResults
       (handleFile integer_toString
          {| file_type := "application/json"; file_name := "analise.json";
             file_text := JSONText json_erro |} page0)
     = value_of_json json_erro.
Proof.
  destruct (validation_by_truthiness integer_toString
              {| file_type := "application/json"; file_name := "analise.json";
                 file_text := JSONText json_erro |} page0 json_erro
              eq_refl eq_refl eq_refl) as (Hmissing & _ & Haccepted).
  split; [exact Hmissing | exact (proj1 (Haccepted eq_refl))].
Defined.

Example erro_without_analises_is_refused :
  handleFile integer_toString
    {| file_type := "application/json"; file_name := "analise.json";
       file_text := JSONText json_erro_without_analises |} page0
  = write page0 [ReadAsText "analise.json"; Alert msg_invalid_analysis].
Proof. reflexivity. Qed.

(** ** C9: an infinite metric *)

(** C9 fails as stated: an infinite number, which the JSON text 1e999
    gives, is written as null, so the file imported again holds null. *)
Lemma infinity_is_reimported_as_null :
  missingSections payload_infinity = Ok false
  /\ (exists content : text,
       downloadReport integer_toString 1700000000000 (page_of payload_infinity)
       = write (page_of payload_infinity) [Download "analise-qualidade-1700000000000.json" content]
       /\ currentResults
            (handleFile integer_toString
               {| file_type := "application/json";
                  file_name := "analise-qualidade-1700000000000.json";
                  file_text := content |} page0)
          = payload_infinity_reimported)
  /\ payload_infinity_reimported <> payload_infinity.
Proof.
  split; [reflexivity | split].
  - exists (match JSON_stringify payload_infinity with
            | Some j => JSONText j
            | None => NotJSON
            end).
    split; vm_compute; reflexivity.
  - intros H. vm_compute in H. discriminate H.
Qed.

Lemma payload_sample_exact : json_exact payload_sample.
Proof.
  repeat first [ apply exact_null | apply exact_bool | apply exact_zero
               | apply exact_string | apply exact_number; reflexivity
               | apply exact_array | apply exact_object | constructor ].
Qed.

Lemma export_then_import_witness :
  exists content : text,
    downloadReport integer_toString 1700000000000 (page_of payload_sample)
    = write (page_of payload_sample) [Download "analise-qualidade-1700000000000.json" content]
    /\ currentResults
         (handleFile integer_toString
            {| file_type := ""; file_name := "analise-qualidade-1700000000000.json";
               file_text := content |} page0)
       = payload_sample.
Proof.
  destruct (export_then_import integer_toString 1700000000000 (page_of payload_sample)
              eq_refl payload_sample_exact) as (content & Hdownload & _ & Himport).
  exists content. split; [exact Hdownload |].
  exact (Himport {| file_type := ""; file_name := "analise-qualidade-1700000000000.json";
                    file_text := content |} page0 eq_refl eq_refl).
Defined.

(** ** C1: payloads that pass validation and are not displayed *)

(** C1 fails on the code.  Each of these payloads passes validation, and
    displaying it throws a TypeError: with no category section the metric
    cards throw; with no dados_completos the metric cards and both charts
    are drawn with the defaults and the recommendations throw; with no
    metricas the cards, charts and recommendations are done and the
    technical details throw.  The import reports the throw as a processing
    error. *)
Theorem display_throws_on_absent_parts :
  (missingSections payload_no_sections = Ok false
   /\ fst (displayMetrics integer_toString payload_no_sections) = Throw TypeError
   /\ fst (displayResults integer_toString payload_no_sections) = Throw TypeError)
  /\ (missingSections payload_without_dados = Ok false
      /\ fst (displayMetrics integer_toString payload_without_dados) = Ok tt
      /\ fst (displayCharts integer_toString payload_without_dados) = Ok tt
      /\ fst (displayRecommendations payload_without_dados) = Throw TypeError
      /\ fst (displayResults integer_toString payload_without_dados) = Throw TypeError)
  /\ (missingSections payload_without_metricas = Ok false
      /\ fst (displayMetrics integer_toString payload_without_metricas) = Ok tt
      /\ fst (displayCharts integer_toString payload_without_metricas) = Ok tt
      /\ fst (displayRecommendations payload_without_metricas) = Ok tt
      /\ fst (displayTechnicalDetails integer_toString payload_without_metricas)
         = Throw TypeError
      /\ fst (displayResults integer_toString payload_without_metricas) = Throw TypeError)
  /\ (missingSections payload_simulated = Ok false
      /\ fst (displayResults integer_toString payload_simulated) = Throw TypeError)
  /\ (exists w : list effect,
       handleFile integer_toString
         {| file_type := "application/json"; file_name := "analise.json";
            file_text := JSONText (JObject [("repositorio_url", JString url);
                                            ("analises", JObject [])]) |} page0
       = {| currentResults := payload_no_sections;
            page_log := w ++ [Alert msg_process_error] |}).
Proof.
  repeat match goal with |- _ /\ _ => split end; try (vm_compute; reflexivity).
  exists [ReadAsText "analise.json";
          SetDisplay "loadingSection" "none";
          SetDisplay "resultsSection" "block";
          SetDisplay ".analysis-form" "none";
          SetRepoInfo url VUndefined "N/A" "undefined" "undefined"].
  vm_compute. reflexivity.
Qed.

(** ** Other payloads *)

Lemma display_succeeds_witness :
  fst (displayResults integer_toString payload_sample) = Ok tt.
Proof.
  apply (display_succeeds integer_toString payload_sample url);
    try reflexivity;
    (split; [reflexivity | split; [eexists; split; reflexivity
                                  | split; [reflexivity | left; reflexivity]]]).
Defined.

Lemma malformed_file_reports_error_witness :
  handleFile integer_toString
    {| file_type := "application/json"; file_name := "analise.json"; file_text := NotJSON |}
    page0
  = write page0 [ReadAsText "analise.json"; Alert msg_process_error].
Proof.
  exact (malformed_file_reports_error integer_toString
           {| file_type := "application/json"; file_name := "analise.json";
              file_text := NotJSON |} page0 eq_refl eq_refl).
Defined.

(** The comparisons of the security letter are loose: an array whose text
    is Alto equals it, and an object that carries a toString of its own
    cannot be compared. *)
Example security_letter_of_an_array :
  securityScore integer_toString (VArray [VString "Alto"]) = Ok (VString "C")
  /\ securityScore integer_toString (VArray [VArray [VString "Médio"]]) = Ok (VString "B")
  /\ securityScore integer_toString (VObject [("nivel", VString "Alto")]) = Ok (VString "A")
  /\ securityScore integer_toString (VObject [("toString", VString "Alto")]) = Throw TypeError.
Proof. repeat split. Qed.

Lemma recommendation_items_idempotent_witness :
  recommendationItems (or_else (VArray [VString "a"; VString "b"; VString "c"]) (VArray []))
  = Ok ["a"; "b"; "c"].
Proof.
  exact (recommendation_items_idempotent
           (VString ("a, b," ++ String LF "c")) ["a"; "b"; "c"] eq_refl).
Defined.

(** ** Keys, names and the form *)

Example formatDetailKey_examples :
  formatDetailKey "vulnerabilidades_encontradas" = "Vulnerabilidades Encontradas"
  /\ formatDetailKey "nivelRisco" = "Nivel Risco"
  /\ formatDetailKey "aBcD" = "A Bc D"
  /\ formatDetailKey "a__b_" = "A  B "
  /\ formatDetailKey "score2x" = "Score2x".
Proof. repeat split; reflexivity. Qed.

Example repoName_examples :
  repoName url = "710lucas/Analista-de-Qualidade"
  /\ repoName "https://github.com/o/r.git" = "o/r.git"
  /\ repoName "https://github.com/o/r/tree/main" = "o/r"
  /\ repoName "https://github.com/o" = "https://github.com/o"
  /\ repoName "https://github.com/o/" = "https://github.com/o/"
  /\ repoName "https://github.com//r" = "https://github.com//r"
  /\ repoName "github.com/github.com/a/b" = "github.com/a"
  /\ repoName "https://gitlab.com/o/r" = "https://gitlab.com/o/r".
Proof. repeat split; reflexivity. Qed.

Lemma formatDetailKey_snake_case_witness :
  formatDetailKey "vulnerabilidades_encontradas" = "Vulnerabilidades Encontradas".
Proof.
  apply (formatDetailKey_snake_case ["vulnerabilidades"; "encontradas"]).
  repeat (constructor; [reflexivity |]). constructor.
Defined.

Lemma repoName_github_witness :
  repoName "https://github.com/710lucas/Analista-de-Qualidade/tree/main"
  = "710lucas/Analista-de-Qualidade".
Proof.
  exact (repoName_github "https://" "710lucas" "Analista-de-Qualidade" "/tree/main"
           eq_refl eq_refl eq_refl (or_intror (ex_intro _ "tree/main" eq_refl))).
Defined.

(** ** The cards and the charts *)


Lemma recommendation_cards_shape_witness :
  exists cards : list RecommendationCard,
    snd (displayRecommendations payload_sample) = [SetRecommendations cards]
    /\ Forall (fun card => card_items card <> []) cards
    /\ map card_heading cards = filter (has_heading cards) headings.
Proof.
  exact (recommendation_cards_shape payload_sample
           (snd (displayRecommendations payload_sample)) eq_refl).
Defined.

Lemma recommendation_entry_not_string_witness :
  displayRecommendations payload_entry_number = (Throw TypeError, []).
Proof.
  apply (recommendation_entry_not_string payload_entry_number "desempenho" "Desempenho"
           [VString "usar cache"; VNumber 1]).
  - right. left. reflexivity.
  - reflexivity.
  - reflexivity.
Defined.

Lemma problem_counts_concatenate_witness :
  exists d2 d3 : value,
    displayProblemsChart integer_toString payload_text_count =
      (Ok tt,
       [NewChart "problemsChart" "doughnut" chartLabels
          [VString "32"; d2; d3; VNumber 0]]).
Proof.
  refine (problem_counts_concatenate integer_toString payload_text_count "3"
            eq_refl eq_refl eq_refl eq_refl
            (scalar_values_bundle
               [("vulnerabilidades_encontradas", VString "3");
                ("funcoes_sem_tratamento", VNumber 2)] eq_refl)
            (scalar_values_bundle [] eq_refl)
            (scalar_values_bundle [] eq_refl)
            eq_refl _).
  discriminate.
Defined.

Lemma import_then_export_witness :
  exists exported : json,
    JSON_stringify (value_of_json json_sample) = Some exported
    /\ downloadReport integer_toString 1 (handleFile integer_toString file_sample page0) =
       write (handleFile integer_toString file_sample page0)
             [Download (downloadName integer_toString 1) (JSONText exported)].
Proof.
  exact (import_then_export integer_toString file_sample page0 json_sample 1
           eq_refl eq_refl eq_refl).
Defined.

(** ** Submissions *)

(** The filled form is submitted with the trimmed URL and the default key,
    and the report the service answers with is displayed. *)
Example submission_of_the_filled_form :
  In (Fetch "/api/analyze-sync" "POST"
        (JSONText (JObject [("repo_url", JString url);
                            ("api_key", JString "default key");
                            ("model", JString "gemini")])))
     (app_log (handleFormSubmit integer_toString "default key"
                 (answered 200 json_report) app_filled))
  /\ In (Shown (SetTextContent "securityScore" "C"))
        (app_log (handleFormSubmit integer_toString "default key"
                    (answered 200 json_report) app_filled))
  /\ current_results (handleFormSubmit integer_toString "default key"
                         (answered 200 json_report) app_filled)
     = value_of_json json_report.
Proof. vm_compute. intuition. Qed.

Lemma service_error_reported_witness :
  (runAnalysis integer_toString
     (answered 500 (JObject [("erro", JString "Repositório não encontrado")]))
     url "" "gemini" app_filled
   = hideLoading
       (act (requesting integer_toString url "" "gemini" app_filled)
            [Shown (Alert "Erro durante a análise: Repositório não encontrado")])
   /\ current_results
        (runAnalysis integer_toString
           (answered 500 (JObject [("erro", JString "Repositório não encontrado")]))
           url "" "gemini" app_filled) = VNull)
  /\ (runAnalysis integer_toString (answered 503 (JObject [])) url "" "gemini" app_filled
      = hideLoading
          (act (requesting integer_toString url "" "gemini" app_filled)
               [Shown (Alert "Erro durante a análise: Erro HTTP: 503")])
      /\ current_results
           (runAnalysis integer_toString (answered 503 (JObject [])) url "" "gemini"
              app_filled) = VNull).
Proof.
  split.
  - exact (service_error_reported integer_toString
             (answered 500 (JObject [("erro", JString "Repositório não encontrado")]))
             url "" "gemini" app_filled
             {| status := 500;
                body := JSONText (JObject [("erro", JString "Repositório não encontrado")]) |}
             (JObject [("erro", JString "Repositório não encontrado")])
             eq_refl eq_refl eq_refl eq_refl eq_refl).
  - exact (service_error_reported integer_toString (answered 503 (JObject []))
             url "" "gemini" app_filled
             {| status := 503; body := JSONText (JObject []) |} (JObject [])
             eq_refl eq_refl eq_refl eq_refl eq_refl).
Defined.


Lemma analysis_shows_results_witness :
  fst (displayResults integer_toString (value_of_json json_report)) = Ok tt
  /\ current_results
       (runAnalysis integer_toString (answered 200 json_report) url "" "gemini" app_filled)
     = value_of_json json_report
  /\ app_log
       (runAnalysis integer_toString (answered 200 json_report) url "" "gemini" app_filled)
     = app_log (requesting integer_toString url "" "gemini" app_filled)
       ++ map Shown (snd (displayResults integer_toString (value_of_json json_report)))
       ++ [].
Proof.
  split; [vm_compute; reflexivity |].
  exact (analysis_shows_results integer_toString (answered 200 json_report)
           url "" "gemini" app_filled
           {| status := 200; body := JSONText json_report |} json_report
           eq_refl eq_refl eq_refl eq_refl eq_refl eq_refl).
Defined.

Lemma simulated_data_fail_witness :
  current_results
    (runAnalysis integer_toString (answered 200 (JObject [])) url "" "gemini" app_filled)
  = simulatedData url "2025-01-01T00:00:00.000Z" "gemini"
  /\ exists w : list effect,
       app_log
         (runAnalysis integer_toString (answered 200 (JObject [])) url "" "gemini"
            app_filled)
       = app_log (requesting integer_toString url "" "gemini" app_filled)
         ++ map Shown w
         ++ [Shown (Alert "Erro durante a análise: Cannot read properties of undefined");
             Shown (SetDisplay "loadingSection" "none");
             Shown (SetDisplay "analysisForm" "block")]
       /\ forall cards : list RecommendationCard, ~ In (SetRecommendations cards) w.
Proof.
  exact (simulated_data_fail integer_toString (answered 200 (JObject []))
           url "" "gemini" app_filled
           {| status := 200; body := JSONText (JObject []) |} (JObject [])
           eq_refl eq_refl eq_refl eq_refl eq_refl).
Defined.
